(** * Plektu backend gateway: transcript pipeline and admission policy

    A shallow embedding of [backend/main.py]: the text normalizer
    ([improve_transcript_readability]), the two speaker-alignment loops and
    the source resolver of [get_call_transcript] /
    [get_call_corrected_transcript], the moderation helper [moderate_call]
    and the admission logic of [trigger_call] and [send_sms].

    Python [str] values are modelled as [string]; a character is a code
    point below 256.  The transcript endpoints read the bodies of the
    call provider as decoded JSON values, with the exceptions Python
    raises on a value of the wrong kind.  The bodies of the moderation
    service, of the call request, of the recording request and of the
    SMS gateway are modelled at their documented types: a field of a
    JSON object is either absent ([None]) or present with its documented
    type. *)

From Stdlib Require Import String Ascii List ZArith Lia Bool.
From stdpp Require Import base strings gmap list.
Import ListNotations.

Set Warnings "-register-all".

Local Open Scope string_scope.
Local Open Scope list_scope.

(** ** Python string primitives *)

Module Py.

(** [str.isspace] on one character, for code points below 256:
    TAB..CR, FS..US, SPACE, NEL and NBSP. *)
Definition isspace (c : ascii) : bool :=
  let n := nat_of_ascii c in
  (Nat.leb 9 n && Nat.leb n 13) || (Nat.leb 28 n && Nat.leb n 32)
  || Nat.eqb n 133 || Nat.eqb n 160.

Fixpoint lstrip (s : string) : string :=
  match s with
  | EmptyString => EmptyString
  | String c s' => if isspace c then lstrip s' else s
  end.

Fixpoint rstrip (s : string) : string :=
  match s with
  | EmptyString => EmptyString
  | String c s' =>
      match rstrip s' with
      | EmptyString => if isspace c then EmptyString else String c EmptyString
      | r => String c r
      end
  end.

(** [s.strip()] *)
Definition strip (s : string) : string := rstrip (lstrip s).

(** Truthiness of a [str]: non-empty. *)
Definition truthy (s : string) : bool :=
  match s with EmptyString => false | String _ _ => true end.

(** [s.startswith(p)] *)
Fixpoint startswith (p s : string) : bool :=
  match p, s with
  | EmptyString, _ => true
  | String a p', String b s' => Ascii.eqb a b && startswith p' s'
  | String _ _, EmptyString => false
  end.

(** [s.endswith(p)] *)
Fixpoint endswith (p s : string) : bool :=
  match s with
  | EmptyString => String.eqb p EmptyString
  | String _ s' => String.eqb p s || endswith p s'
  end.

(** Put one character in front of the first piece of a split. *)
Definition push_front (c : ascii) (pieces : list string) : list string :=
  match pieces with
  | [] => [String c EmptyString]
  | p :: ps => String c p :: ps
  end.

(** [s.split(sep)] for a one-character separator. *)
Fixpoint split (sep : ascii) (s : string) : list string :=
  match s with
  | EmptyString => [EmptyString]
  | String c s' =>
      if Ascii.eqb c sep then EmptyString :: split sep s'
      else push_front c (split sep s')
  end.

(** [s.split(sep, 1)] for a one-character separator. *)
Fixpoint split1 (sep : ascii) (s : string) : list string :=
  match s with
  | EmptyString => [EmptyString]
  | String c s' =>
      if Ascii.eqb c sep then [EmptyString; s']
      else push_front c (split1 sep s')
  end.

(** [sep.join(pieces)] *)
Fixpoint join (sep : string) (pieces : list string) : string :=
  match pieces with
  | [] => EmptyString
  | [p] => p
  | p :: ps => p ++ sep ++ join sep ps
  end.

Definition newline : ascii := ascii_of_nat 10.
Definition nl : string := String newline EmptyString.

(** The characters of the class [[.!?]]. *)
Definition sentence_end (c : ascii) : bool :=
  Ascii.eqb c "." || Ascii.eqb c "!" || Ascii.eqb c "?".

Definition next_is_space (s : string) : bool :=
  match s with
  | String c _ => Ascii.eqb c " "
  | EmptyString => false
  end.

(** [re.split(r'(?<=[.!?]) +', s)].  A match starts right behind a
    character of [[.!?]] and is the whole run of spaces that follows
    (the run cannot be entered later: inside it the character behind
    is a space).  [in_match] says that the scan is inside such a run. *)
Fixpoint re_split_sentences (in_match : bool) (s : string) : list string :=
  match s with
  | EmptyString => [EmptyString]
  | String c s' =>
      if in_match && Ascii.eqb c " " then re_split_sentences true s'
      else if sentence_end c && next_is_space s'
           then String c EmptyString :: re_split_sentences true s'
           else push_front c (re_split_sentences false s')
  end.

(** The characters of a string that are not whitespace, in order. *)
Fixpoint nonspace (s : string) : string :=
  match s with
  | EmptyString => EmptyString
  | String c s' => if isspace c then nonspace s' else String c (nonspace s')
  end.

(** [sub] is [s] with some characters left out. *)
Fixpoint subseq (sub s : string) : bool :=
  match sub, s with
  | EmptyString, _ => true
  | String _ _, EmptyString => false
  | String a sub', String b s' =>
      if Ascii.eqb a b then subseq sub' s' else subseq sub s'
  end.

End Py.

(** ** Text normalizer *)

(** [punctuation_model]: [None] when the import failed; otherwise the
    model's [restore_punctuation], which answers [None] when it raises. *)
Definition punctuation_model_t : Type := option (string -> option string).

(** The text after the [if punctuation_model: try ... except: pass] block. *)
Definition restore_punctuation (punctuation_model : punctuation_model_t)
    (text : string) : string :=
  match punctuation_model with
  | Some restore =>
      match restore text with
      | Some text' => text'
      | None => text
      end
  | None => text
  end.

Definition improve_transcript_readability
    (punctuation_model : punctuation_model_t) (text : string) : string :=
  let text := restore_punctuation punctuation_model text in
  let sentences := Py.re_split_sentences false text in
  Py.join Py.nl sentences.

(** ** JSON values and Python dictionaries *)

Inductive json : Type :=
| JNull
| JBool (b : bool)
| JNum (n : Z)
| JStr (s : string)
| JList (items : list json)
| JDict (fields : list (string * json)).

(** A [dict] with string keys, in insertion order, one binding per key. *)
Definition pydict : Type := list (string * json).

(** [d.get(k)] *)
Fixpoint dict_get (k : string) (d : pydict) : option json :=
  match d with
  | [] => None
  | (k', v) :: d' => if String.eqb k k' then Some v else dict_get k d'
  end.

(** Truthiness of a decoded JSON value. *)
Definition json_truthy (j : json) : bool :=
  match j with
  | JNull => false
  | JBool b => b
  | JNum n => negb (Z.eqb n 0)
  | JStr s => Py.truthy s
  | JList items => match items with [] => false | _ => true end
  | JDict fields => match fields with [] => false | _ => true end
  end.

(** [d.get(k) == s] for a string [s]. *)
Definition dict_field_is (k s : string) (d : pydict) : bool :=
  match dict_get k d with
  | Some (JStr v) => String.eqb v s
  | _ => false
  end.

(** Truthiness of an optional string (an environment variable, a query
    parameter, a field fetched with [.get]). *)
Definition truthy_str (o : option string) : bool :=
  match o with
  | Some s => Py.truthy s
  | None => false
  end.

(** ** Decoded values as Python handles them *)

(** [value.get(key)]; [None] when [value] is no dictionary and the
    attribute lookup raises.  An absent key gives Python's [None], as a
    JSON [null] does. *)
Definition py_get (value : json) (key : string) : option json :=
  match value with
  | JDict fields => Some (default JNull (dict_get key fields))
  | _ => None
  end.

(** [value.get(key, fallback)] *)
Definition py_get_or (value : json) (key : string) (fallback : json) : option json :=
  match value with
  | JDict fields => Some (default fallback (dict_get key fields))
  | _ => None
  end.

(** [value.strip()]; [None] when [value] is no string. *)
Definition py_strip (value : json) : option string :=
  match value with
  | JStr s => Some (Py.strip s)
  | _ => None
  end.

(** What [for x in value] walks through: the items of a list, the
    characters of a string, the keys of a dictionary; [None] when
    [value] cannot be iterated. *)
Definition py_iter (value : json) : option (list json) :=
  match value with
  | JList items => Some items
  | JStr s => Some (map (fun c => JStr (String c EmptyString)) (list_ascii_of_string s))
  | JDict fields => Some (map (fun field => JStr field.1) fields)
  | _ => None
  end.

(** [value == s] for a string [s]. *)
Definition py_eq_str (value : json) (s : string) : bool :=
  match value with
  | JStr v => String.eqb v s
  | _ => false
  end.

(** [value is False] *)
Definition py_is_false (value : json) : bool :=
  match value with
  | JBool false => true
  | _ => false
  end.

(** [f"{value}"]: a string as it is, any other value as [str] prints
    it ([py_str], a builtin taken as given). *)
Definition py_format (py_str : json -> string) (value : json) : string :=
  match value with
  | JStr s => s
  | _ => py_str value
  end.

(** The normalizer handed a decoded value.  On a value that is no
    string [re.split] raises [TypeError]; the punctuation model works on
    strings (it starts with a regular-expression substitution on the
    text), so on such a value its call raises as well, which the
    [except] clause passes over, and the value reaches [re.split] as it
    was. *)
Definition improve_transcript_readability_of (punctuation_model : punctuation_model_t)
    (text : json) : option string :=
  match text with
  | JStr s => Some (improve_transcript_readability punctuation_model s)
  | _ => None
  end.

(** ** HTTP exchanges *)

(** What [requests.get] / [requests.post] delivered.  [resp_json] is
    [None] when [resp.json()] raises. *)
Record response (A : Type) : Type := {
  status_code : Z;
  resp_text : string;
  resp_json : option A
}.
Arguments status_code {A} _.
Arguments resp_text {A} _.
Arguments resp_json {A} _.

(** [resp.ok]: the status is none of the client and server errors,
    400 to 599. *)
Definition ok {A : Type} (resp : response A) : bool :=
  negb (Z.leb 400 (status_code resp) && Z.ltb (status_code resp) 600).

(** [None]: the request itself raised (network failure, timeout). *)
Definition http (A : Type) : Type := option (response A).

(** Requests sent to the outside, and calls of [moderate_call], in order. *)
Inductive effect : Type :=
| Moderate (topic phone_number : string)
| GeminiPost (topic phone_number : string)
| BlandPostCall (phone_number topic : string)
| BlandGetCorrected (call_id : string)
| BlandGetDetail (call_id : string)
| TextbeltPost (phone_number message : string)
| SupabaseInsertCall (user_id phone_number : string) (call_id : option string).

(** ** Transcript data *)

(** A [{"speaker": ..., "text": ...}] dictionary built by the endpoint. *)
Record utterance : Type := { speaker : string; text : string }.

(** The provider's two transcript sources.  A body is whatever JSON the
    provider sent: the endpoints read it with [.get], [.strip] and
    [for], which raise on a value of the wrong kind. *)
Record bland_api : Type := {
  get_corrected : string -> http json;
  get_detail : string -> http json
}.

(** A row of the [call_transcript] table.  [row_call_id] is a decoded
    value: the endpoints write [data.get("call_id")] as they find it. *)
Record transcript_row : Type := {
  row_call_id : json;
  row_user_id : option string;
  row_transcript : option string;
  row_aligned_transcript : option string
}.

Inductive select_result : Type :=
| SelectRaised
| SelectData (data : option transcript_row).

(** The hosted table, as far as the endpoints use it.  A write answers
    [None] when it raises. *)
Class Store (db : Type) : Type := {
  select_single : db -> string -> select_result;
  upsert : db -> transcript_row -> option db;
  insert : db -> transcript_row -> option db
}.

(** The value under ["aligned"] in a success response. *)
Inductive aligned_payload : Type :=
| AlignedProvider (aligned : json)
| AlignedBuilt (utterances : list utterance)
| AlignedCached (loaded : option json).

(** The JSON bodies the transcript endpoints return. *)
Inductive transcript_response : Type :=
| Success (transcript : option string) (aligned : aligned_payload)
| Pending
| Unavailable.

(** The ["status"] key of a response body. *)
Definition response_status (r : transcript_response) : string :=
  match r with
  | Success _ _ => "success"
  | Pending => "pending"
  | Unavailable => "error"
  end.

(** What the second [try] block caught before re-raising: the request
    raised, the body did not decode, the [HTTPException] for a status
    that is not ok, or a statement that works on the decoded body
    raised. *)
Inductive transcript_failure : Type :=
| RequestRaised
| BodyNotJson
| DetailNotOk (status : Z) (body : string)
| PayloadRaised.

Inductive error_detail : Type :=
| ApiKeyNotSet
| ErrorGettingTranscript (cause : transcript_failure).

Inductive transcript_result : Type :=
| Return (body : transcript_response)
| HTTPException (status : Z) (detail : error_detail).

(** [f"{speaker}: {text}\n"] *)
Definition format_line (speaker text : string) : string :=
  speaker ++ ": " ++ text ++ Py.nl.

(** [json.dumps] is applied to this encoding of a built sequence. *)
Definition json_of_utterance (u : utterance) : json :=
  JDict [("speaker", JStr (speaker u)); ("text", JStr (text u))].

(** ** Transcript endpoint [GET /api/call_transcript/{call_id}] *)

Module CallTranscript.
Section Endpoint.
Context {db : Type} `{Store db}.
Variable json_loads : string -> option json.
Variable json_dumps : json -> string.
Variable py_str : json -> string.
Variable punctuation_model : punctuation_model_t.
Variable BLAND_API_KEY : option string.
Variable bland : bland_api.

(** [if supabase and user_id: try: ... except: print(...)] around one
    write: a write that raises leaves the table as it was. *)
Definition save_transcript (supabase : option db) (user_id : option string)
    (write : db -> transcript_row -> option db) (db_transcript : transcript_row)
    : option db :=
  match supabase with
  | Some d =>
      if truthy_str user_id
      then match write d db_transcript with
           | Some d' => Some d'
           | None => Some d
           end
      else Some d
  | None => None
  end.

(** First block: the stored transcript.  [None] stands for falling
    through to the live sources (guard false, lookup or [json.loads]
    raised, or no data). *)
Definition stored_transcript (supabase : option db) (call_id : string)
    (user_id : option string) : option transcript_response :=
  match supabase with
  | Some d =>
      if truthy_str user_id
      then match select_single d call_id with
           | SelectData (Some data) =>
               if truthy_str (row_aligned_transcript data)
               then match json_loads (default EmptyString (row_aligned_transcript data)) with
                    | Some loaded =>
                        Some (Success (row_transcript data) (AlignedCached (Some loaded)))
                    | None => None
                    end
               else Some (Success (row_transcript data) (AlignedCached None))
           | SelectData None => None
           | SelectRaised => None
           end
      else None
  | None => None
  end.

(** Body of [for segment in aligned] on the corrected transcript;
    [None] when one of its statements raises. *)
Definition corrected_step (concat_transcript : string) (segment : json)
    : option string :=
  speaker ← py_get_or segment "speaker" (JStr "Unknown");
  text ← py_get_or segment "text" (JStr EmptyString) ≫= py_strip;
  Some (if Py.truthy text
        then String.append concat_transcript (format_line (py_format py_str speaker) text)
        else concat_transcript).

Fixpoint corrected_loop (segments : list json) (concat_transcript : string)
    : option string :=
  match segments with
  | [] => Some concat_transcript
  | segment :: segments' =>
      concat_transcript' ← corrected_step concat_transcript segment;
      corrected_loop segments' concat_transcript'
  end.

(** Second block: the corrected transcript.  [None] stands for falling
    through to the call detail: nothing to show, or the [except] clause
    of the block caught what a statement raised. *)
Definition corrected_transcript (supabase : option db) (call_id : string)
    (user_id : option string) : option (transcript_response * option db) :=
  match get_corrected bland call_id with
  | None => None
  | Some corrected_resp =>
      if ok corrected_resp
      then
        corrected_data ← resp_json corrected_resp;
        aligned ← py_get corrected_data "aligned";
        if json_truthy aligned
        then
          segments ← py_iter aligned;
          concat_transcript ← corrected_loop segments EmptyString;
          let db_transcript :=
            {| row_call_id := JStr call_id;
               row_user_id := user_id;
               row_transcript := Some concat_transcript;
               row_aligned_transcript := Some (json_dumps aligned) |} in
          Some (Success (Some concat_transcript) (AlignedProvider aligned),
                save_transcript supabase user_id upsert db_transcript)
        else None
      else None
  end.

(** Body of [for segment in data.get("transcript_aligned", [])];
    [None] when one of its statements raises. *)
Definition detail_step (acc : list utterance * string) (segment : json)
    : option (list utterance * string) :=
  let '(aligned, concat_transcript) := acc in
  from ← py_get segment "from";
  let speaker := if py_eq_str from "ai" then "Agent" else "User" in
  text ← py_get_or segment "text" (JStr EmptyString) ≫= py_strip;
  Some (if Py.truthy text
        then (aligned ++ [{| speaker := speaker; text := text |}],
              String.append concat_transcript (format_line speaker text))
        else (aligned, concat_transcript)).

Fixpoint detail_loop (segments : list json) (acc : list utterance * string)
    : option (list utterance * string) :=
  match segments with
  | [] => Some acc
  | segment :: segments' => acc' ← detail_step acc segment; detail_loop segments' acc'
  end.

(** Body of [for idx, line in enumerate(lines)]; [None] when an
    exception leaves the loop. *)
Definition flat_step (aligned : list utterance) (line : string)
    : option (list utterance) :=
  let line := Py.strip line in
  if negb (Py.truthy line) then Some aligned
  else if Py.startswith "AI:" line || Py.startswith "Agent:" line then
    text ← Py.split1 ":" line !! 1%nat;
    Some (aligned ++ [{| speaker := "Agent"; text := Py.strip text |}])
  else if Py.startswith "Human:" line || Py.startswith "User:" line then
    text ← Py.split1 ":" line !! 1%nat;
    Some (aligned ++ [{| speaker := "User"; text := Py.strip text |}])
  else
    match last aligned with
    | None => Some (aligned ++ [{| speaker := "Agent"; text := line |}])
    | Some previous =>
        let current_speaker :=
          if String.eqb (speaker previous) "Agent" then "User" else "Agent" in
        Some (aligned ++ [{| speaker := current_speaker; text := line |}])
    end.

Fixpoint flat_loop (lines : list string) (aligned : list utterance)
    : option (list utterance) :=
  match lines with
  | [] => Some aligned
  | line :: lines' => aligned' ← flat_step aligned line; flat_loop lines' aligned'
  end.

(** The last two statements of the endpoint. *)
Definition pending_or_unavailable (data : json) : option transcript_response :=
  status ← py_get data "status";
  if py_eq_str status "in-progress" then Some Pending
  else
    completed ← py_get data "completed";
    Some (if py_is_false completed then Pending else Unavailable).

(** The third block from [data = resp.json()] on.  [None] when a
    statement raises and the [except] clause of the block takes over;
    the table is not written before every such statement is through.
    What the loop over the lines raises is caught by the [try] around
    it, and the endpoint goes on to its last two statements. *)
Definition read_detail (supabase : option db) (user_id : option string) (data : json)
    : option (transcript_response * option db) :=
  transcript_aligned ← py_get data "transcript_aligned";
  if json_truthy transcript_aligned
  then
    segments ← py_get_or data "transcript_aligned" (JList []) ≫= py_iter;
    '(aligned, concat_transcript) ← detail_loop segments ([], EmptyString);
    call_id ← py_get data "call_id";
    let db_transcript :=
      {| row_call_id := call_id;
         row_user_id := user_id;
         row_transcript := Some concat_transcript;
         row_aligned_transcript :=
           Some (json_dumps (JList (map json_of_utterance aligned))) |} in
    Some (Success (Some concat_transcript) (AlignedBuilt aligned),
          save_transcript supabase user_id insert db_transcript)
  else
    transcript ← py_get data "transcript";
    if json_truthy transcript
    then
      transcript ← py_get_or data "transcript" (JStr EmptyString);
      improved_transcript ←
        improve_transcript_readability_of punctuation_model transcript;
      let lines := Py.split Py.newline improved_transcript in
      match flat_loop lines [] with
      | Some ((_ :: _) as aligned) =>
          call_id ← py_get data "call_id";
          let db_transcript :=
            {| row_call_id := call_id;
               row_user_id := user_id;
               row_transcript := Some improved_transcript;
               row_aligned_transcript :=
                 Some (json_dumps (JList (map json_of_utterance aligned))) |} in
          Some (Success (Some improved_transcript) (AlignedBuilt aligned),
                save_transcript supabase user_id insert db_transcript)
      | _ => body ← pending_or_unavailable data; Some (body, supabase)
      end
    else body ← pending_or_unavailable data; Some (body, supabase).

(** Third block: the call detail. *)
Definition regular_transcript (supabase : option db) (call_id : string)
    (user_id : option string) : transcript_result * option db :=
  match get_detail bland call_id with
  | None => (HTTPException 500 (ErrorGettingTranscript RequestRaised), supabase)
  | Some resp =>
      if negb (ok resp)
      then (HTTPException 500
              (ErrorGettingTranscript (DetailNotOk (status_code resp) (resp_text resp))),
            supabase)
      else
        match resp_json resp with
        | None => (HTTPException 500 (ErrorGettingTranscript BodyNotJson), supabase)
        | Some data =>
            match read_detail supabase user_id data with
            | Some (body, supabase') => (Return body, supabase')
            | None => (HTTPException 500 (ErrorGettingTranscript PayloadRaised), supabase)
            end
        end
  end.

(** The endpoint: the response or exception, the table afterwards, and
    the requests sent to the provider. *)
Definition get_call_transcript (supabase : option db) (call_id : string)
    (user_id : option string) : transcript_result * option db * list effect :=
  if negb (truthy_str BLAND_API_KEY)
  then (HTTPException 500 ApiKeyNotSet, supabase, [])
  else
    match stored_transcript supabase call_id user_id with
    | Some body => (Return body, supabase, [])
    | None =>
        match corrected_transcript supabase call_id user_id with
        | Some (body, supabase') =>
            (Return body, supabase', [BlandGetCorrected call_id])
        | None =>
            let '(result, supabase') := regular_transcript supabase call_id user_id in
            (result, supabase', [BlandGetCorrected call_id; BlandGetDetail call_id])
        end
    end.

End Endpoint.
End CallTranscript.

(** ** Transcript endpoint [GET /api/call_corrected_transcript/{call_id}] *)

Module CorrectedTranscript.
Section Endpoint.
Context {db : Type} `{Store db}.
Variable json_loads : string -> option json.
Variable json_dumps : json -> string.
Variable py_str : json -> string.
Variable punctuation_model : punctuation_model_t.
Variable BLAND_API_KEY : option string.
Variable bland : bland_api.

(** [if supabase and user_id: try: ... except: print(...)] around one
    write: a write that raises leaves the table as it was. *)
Definition save_transcript (supabase : option db) (user_id : option string)
    (write : db -> transcript_row -> option db) (db_transcript : transcript_row)
    : option db :=
  match supabase with
  | Some d =>
      if truthy_str user_id
      then match write d db_transcript with
           | Some d' => Some d'
           | None => Some d
           end
      else Some d
  | None => None
  end.

(** First block: the stored transcript.  [None] stands for falling
    through to the live sources (guard false, lookup or [json.loads]
    raised, or no data). *)
Definition stored_transcript (supabase : option db) (call_id : string)
    (user_id : option string) : option transcript_response :=
  match supabase with
  | Some d =>
      if truthy_str user_id
      then match select_single d call_id with
           | SelectData (Some data) =>
               if truthy_str (row_aligned_transcript data)
               then match json_loads (default EmptyString (row_aligned_transcript data)) with
                    | Some loaded =>
                        Some (Success (row_transcript data) (AlignedCached (Some loaded)))
                    | None => None
                    end
               else Some (Success (row_transcript data) (AlignedCached None))
           | SelectData None => None
           | SelectRaised => None
           end
      else None
  | None => None
  end.

(** Body of [for segment in aligned] on the corrected transcript;
    [None] when one of its statements raises. *)
Definition corrected_step (concat_transcript : string) (segment : json)
    : option string :=
  speaker ← py_get_or segment "speaker" (JStr "Unknown");
  text ← py_get_or segment "text" (JStr EmptyString) ≫= py_strip;
  Some (if Py.truthy text
        then String.append concat_transcript (format_line (py_format py_str speaker) text)
        else concat_transcript).

Fixpoint corrected_loop (segments : list json) (concat_transcript : string)
    : option string :=
  match segments with
  | [] => Some concat_transcript
  | segment :: segments' =>
      concat_transcript' ← corrected_step concat_transcript segment;
      corrected_loop segments' concat_transcript'
  end.

(** Second block: the corrected transcript.  [None] stands for falling
    through to the call detail: nothing to show, or the [except] clause
    of the block caught what a statement raised. *)
Definition corrected_transcript (supabase : option db) (call_id : string)
    (user_id : option string) : option (transcript_response * option db) :=
  match get_corrected bland call_id with
  | None => None
  | Some corrected_resp =>
      if ok corrected_resp
      then
        corrected_data ← resp_json corrected_resp;
        aligned ← py_get corrected_data "aligned";
        if json_truthy aligned
        then
          segments ← py_iter aligned;
          concat_transcript ← corrected_loop segments EmptyString;
          let db_transcript :=
            {| row_call_id := JStr call_id;
               row_user_id := user_id;
               row_transcript := Some concat_transcript;
               row_aligned_transcript := Some (json_dumps aligned) |} in
          Some (Success (Some concat_transcript) (AlignedProvider aligned),
                save_transcript supabase user_id upsert db_transcript)
        else None
      else None
  end.

(** Body of [for segment in data.get("transcript_aligned", [])];
    [None] when one of its statements raises. *)
Definition detail_step (acc : list utterance * string) (segment : json)
    : option (list utterance * string) :=
  let '(aligned, concat_transcript) := acc in
  from ← py_get segment "from";
  let speaker := if py_eq_str from "ai" then "Agent" else "User" in
  text ← py_get_or segment "text" (JStr EmptyString) ≫= py_strip;
  Some (if Py.truthy text
        then (aligned ++ [{| speaker := speaker; text := text |}],
              String.append concat_transcript (format_line speaker text))
        else (aligned, concat_transcript)).

Fixpoint detail_loop (segments : list json) (acc : list utterance * string)
    : option (list utterance * string) :=
  match segments with
  | [] => Some acc
  | segment :: segments' => acc' ← detail_step acc segment; detail_loop segments' acc'
  end.

(** Body of [for idx, line in enumerate(lines)]; [None] when an
    exception leaves the loop. *)
Definition flat_step (aligned : list utterance) (line : string)
    : option (list utterance) :=
  let line := Py.strip line in
  if negb (Py.truthy line) then Some aligned
  else if Py.startswith "AI:" line || Py.startswith "Agent:" line then
    text ← Py.split1 ":" line !! 1%nat;
    Some (aligned ++ [{| speaker := "Agent"; text := Py.strip text |}])
  else if Py.startswith "Human:" line || Py.startswith "User:" line then
    text ← Py.split1 ":" line !! 1%nat;
    Some (aligned ++ [{| speaker := "User"; text := Py.strip text |}])
  else
    match last aligned with
    | None => Some (aligned ++ [{| speaker := "Agent"; text := line |}])
    | Some previous =>
        let current_speaker :=
          if String.eqb (speaker previous) "Agent" then "User" else "Agent" in
        Some (aligned ++ [{| speaker := current_speaker; text := line |}])
    end.

Fixpoint flat_loop (lines : list string) (aligned : list utterance)
    : option (list utterance) :=
  match lines with
  | [] => Some aligned
  | line :: lines' => aligned' ← flat_step aligned line; flat_loop lines' aligned'
  end.

(** The last two statements of the endpoint. *)
Definition pending_or_unavailable (data : json) : option transcript_response :=
  status ← py_get data "status";
  if py_eq_str status "in-progress" then Some Pending
  else
    completed ← py_get data "completed";
    Some (if py_is_false completed then Pending else Unavailable).

(** The third block from [data = resp.json()] on.  [None] when a
    statement raises and the [except] clause of the block takes over;
    the table is not written before every such statement is through.
    What the loop over the lines raises is caught by the [try] around
    it, and the endpoint goes on to its last two statements. *)
Definition read_detail (supabase : option db) (user_id : option string) (data : json)
    : option (transcript_response * option db) :=
  transcript_aligned ← py_get data "transcript_aligned";
  if json_truthy transcript_aligned
  then
    segments ← py_get_or data "transcript_aligned" (JList []) ≫= py_iter;
    '(aligned, concat_transcript) ← detail_loop segments ([], EmptyString);
    call_id ← py_get data "call_id";
    let db_transcript :=
      {| row_call_id := call_id;
         row_user_id := user_id;
         row_transcript := Some concat_transcript;
         row_aligned_transcript :=
           Some (json_dumps (JList (map json_of_utterance aligned))) |} in
    Some (Success (Some concat_transcript) (AlignedBuilt aligned),
          save_transcript supabase user_id insert db_transcript)
  else
    transcript ← py_get data "transcript";
    if json_truthy transcript
    then
      transcript ← py_get_or data "transcript" (JStr EmptyString);
      improved_transcript ←
        improve_transcript_readability_of punctuation_model transcript;
      let lines := Py.split Py.newline improved_transcript in
      match flat_loop lines [] with
      | Some ((_ :: _) as aligned) =>
          call_id ← py_get data "call_id";
          let db_transcript :=
            {| row_call_id := call_id;
               row_user_id := user_id;
               row_transcript := Some improved_transcript;
               row_aligned_transcript :=
                 Some (json_dumps (JList (map json_of_utterance aligned))) |} in
          Some (Success (Some improved_transcript) (AlignedBuilt aligned),
                save_transcript supabase user_id insert db_transcript)
      | _ => body ← pending_or_unavailable data; Some (body, supabase)
      end
    else body ← pending_or_unavailable data; Some (body, supabase).

(** Third block: the call detail. *)
Definition regular_transcript (supabase : option db) (call_id : string)
    (user_id : option string) : transcript_result * option db :=
  match get_detail bland call_id with
  | None => (HTTPException 500 (ErrorGettingTranscript RequestRaised), supabase)
  | Some resp =>
      if negb (ok resp)
      then (HTTPException 500
              (ErrorGettingTranscript (DetailNotOk (status_code resp) (resp_text resp))),
            supabase)
      else
        match resp_json resp with
        | None => (HTTPException 500 (ErrorGettingTranscript BodyNotJson), supabase)
        | Some data =>
            match read_detail supabase user_id data with
            | Some (body, supabase') => (Return body, supabase')
            | None => (HTTPException 500 (ErrorGettingTranscript PayloadRaised), supabase)
            end
        end
  end.

(** The endpoint: the response or exception, the table afterwards, and
    the requests sent to the provider. *)
Definition get_call_corrected_transcript (supabase : option db) (call_id : string)
    (user_id : option string) : transcript_result * option db * list effect :=
  if negb (truthy_str BLAND_API_KEY)
  then (HTTPException 500 ApiKeyNotSet, supabase, [])
  else
    match stored_transcript supabase call_id user_id with
    | Some body => (Return body, supabase, [])
    | None =>
        match corrected_transcript supabase call_id user_id with
        | Some (body, supabase') =>
            (Return body, supabase', [BlandGetCorrected call_id])
        | None =>
            let '(result, supabase') := regular_transcript supabase call_id user_id in
            (result, supabase', [BlandGetCorrected call_id; BlandGetDetail call_id])
        end
    end.

End Endpoint.
End CorrectedTranscript.

(** ** Moderation, call placement and SMS *)

(** The body of the generative-language answer, as far as it is read. *)
Record gemini_part : Type := { part_text : option string }.
Record gemini_content : Type := { content_parts : option (list gemini_part) }.
Record gemini_candidate : Type := { candidate_content : option gemini_content }.
Record gemini_result : Type := { candidates : option (list gemini_candidate) }.

(** The body of the call provider's answer to [POST /v1/calls]. *)
Record bland_call : Type := { bc_call_id : option string }.

(** The body of the SMS gateway's answer. *)
Record textbelt_data : Type := {
  tb_success : option bool;
  tb_textId : option json;
  tb_quotaRemaining : option json;
  tb_error : option json
}.

Record CallRequest : Type := {
  phone_number : string;
  topic : string;
  admin : option bool;
  user_id : option string
}.

Record SMSRequest : Type := {
  sms_phone_number : string;
  sms_message : string;
  sms_admin : option bool;
  sms_user_id : option string
}.

(** Exceptions that reach an [except Exception] clause or the framework. *)
Inductive py_exception : Type :=
| RequestException
| JSONDecodeError
| IndexError
| KeyError (key : string)
| HTTPError (status : Z) (info : json).

Inductive calls_left_t : Type :=
| CallsLeft (n : Z)
| Unlimited.

(** The JSON bodies [trigger_call] returns. *)
Inductive call_response : Type :=
| RejectedByModeration (reason : json)
| CallLimitReached
| CallTriggered (call_id : option string) (calls_left : calls_left_t).

Inductive call_error : Type :=
| BlandKeyNotSet
| ErrorCallingBland (e : py_exception).

Inductive call_result : Type :=
| CallReturn (body : call_response)
| CallHTTPException (status : Z) (detail : call_error)
| CallUnhandled (e : py_exception).

(** The JSON bodies [send_sms] returns. *)
Inductive sms_response : Type :=
| SmsLimitReached (max_sms : Z)
| SmsSent (quotaRemaining textId : json).

Inductive sms_error : Type :=
| TextKeyNotSet
| ErrorSendingSms (e : py_exception).

Inductive sms_result : Type :=
| SmsReturn (body : sms_response)
| SmsHTTPException (status : Z) (detail : sms_error).

Definition MAX_CALLS_PER_GUEST : Z := 10.
Definition MAX_CALLS_PER_USER : Z := 5.

Definition emergency_numbers : list string := ["911"; "999"; "112"; "000"].

(** Truthiness of an [Optional[bool]]. *)
Definition truthy_flag (o : option bool) : bool :=
  match o with
  | Some b => b
  | None => false
  end.

(** [None] becomes [null]. *)
Definition json_of_option (o : option json) : json := default JNull o.
Definition json_of_str (o : option string) : json :=
  match o with
  | Some s => JStr s
  | None => JNull
  end.

(** [j[k]]; [None] stands for the [KeyError] (or [TypeError]) raised. *)
Definition subscript (j : json) (k : string) : option json :=
  match j with
  | JDict d => dict_get k d
  | _ => None
  end.

(** The longest run without a newline that ends in a closing brace. *)
Fixpoint upto_last_brace (s : string) : option string :=
  match s with
  | EmptyString => None
  | String c s' =>
      if Ascii.eqb c Py.newline then None
      else match upto_last_brace s' with
           | Some m => Some (String c m)
           | None => if Ascii.eqb c "}" then Some (String c EmptyString) else None
           end
  end.

(** [re.search(r'\{.*\}', s)], answering [match.group(0)]. *)
Fixpoint re_search_braces (s : string) : option string :=
  match s with
  | EmptyString => None
  | String c s' =>
      if Ascii.eqb c "{"
      then match upto_last_brace s' with
           | Some m => Some (String c m)
           | None => re_search_braces s'
           end
      else re_search_braces s'
  end.

(** [call_history[phone_number].append(entry)], after the
    [if phone_number not in call_history] initialisation. *)
Definition append_entry (call_history : gmap string (list pydict)) (phone : string)
    (entry : pydict) : gmap string (list pydict) :=
  <[phone := default [] (call_history !! phone) ++ [entry]]> call_history.

Section Admission.
Variable json_loads : string -> option json.
Variable str_exception : py_exception -> string.
Variable BLAND_API_KEY GEMINI_API_KEY TEXT_KEY : option string.
Variable supabase : bool.
Variable gemini_post : string -> string -> http gemini_result.
Variable bland_post : string -> string -> http bland_call.
Variable textbelt_post : string -> string -> http textbelt_data.
Variable now : string.

Definition verdict (allowed : bool) (reason : string) : json :=
  JDict [("allowed", JBool allowed); ("reason", JStr reason)].

(** The [except Exception as e] clause of [moderate_call]. *)
Definition moderation_error (e : py_exception) : json :=
  verdict true (String.append "Moderation error: " (str_exception e)).

(** [result.get('candidates', [{}])[0].get('content', {})
      .get('parts', [{}])[0].get('text', '')]; [None] for [IndexError]. *)
Definition answer_text (result : gemini_result) : option string :=
  candidate ← head (default [{| candidate_content := None |}] (candidates result));
  let content := default {| content_parts := None |} (candidate_content candidate) in
  part ← head (default [{| part_text := None |}] (content_parts content));
  Some (default EmptyString (part_text part)).

(** Steps after a 200 answer whose body was decoded. *)
Definition read_moderation (result : gemini_result) : json :=
  match answer_text result with
  | None => moderation_error IndexError
  | Some answer =>
      match re_search_braces answer with
      | Some group0 =>
          match json_loads group0 with
          | Some moderation => moderation
          | None => verdict true "Could not parse moderation response"
          end
      | None => verdict true "Could not parse moderation response"
      end
  end.

Definition moderate_call (topic phone_number : string) : json * list effect :=
  if Py.truthy phone_number
     && existsb (fun num => Py.endswith num phone_number) emergency_numbers
  then (verdict false "Emergency services number detected", [])
  else if negb (truthy_str GEMINI_API_KEY)
  then (verdict true EmptyString, [])
  else
    (match gemini_post topic phone_number with
     | None => moderation_error RequestException
     | Some response =>
         if negb (Z.eqb (status_code response) 200)
         then verdict true "Moderation service unavailable"
         else match resp_json response with
              | None => moderation_error JSONDecodeError
              | Some result => read_moderation result
              end
     end,
     [GeminiPost topic phone_number]).

(** The [try] block of [trigger_call]. *)
Definition place_call (call_history : gmap string (list pydict)) (req : CallRequest)
    (calls_left : Z) : call_result * gmap string (list pydict) * list effect :=
  let is_admin := truthy_flag (admin req) in
  match bland_post (phone_number req) (topic req) with
  | None =>
      (CallHTTPException 500 (ErrorCallingBland RequestException), call_history,
       [BlandPostCall (phone_number req) (topic req)])
  | Some resp =>
      if ok resp then
        match resp_json resp with
        | None =>
            (CallHTTPException 500 (ErrorCallingBland JSONDecodeError), call_history,
             [BlandPostCall (phone_number req) (topic req)])
        | Some data =>
            let call_id := bc_call_id data in
            let summary := topic req in
            let new_call : pydict :=
              [("topic", JStr (topic req)); ("summary", JStr summary);
               ("status", JStr "success"); ("timestamp", JStr now);
               ("call_id", json_of_str call_id)] in
            (CallReturn
               (CallTriggered call_id (if is_admin then Unlimited else CallsLeft calls_left)),
             append_entry call_history (phone_number req) new_call,
             BlandPostCall (phone_number req) (topic req)
             :: (if supabase && truthy_str (user_id req)
                 then [SupabaseInsertCall (default EmptyString (user_id req))
                         (phone_number req) call_id]
                 else []))
        end
      else
        let new_call : pydict :=
          [("topic", JStr (topic req)); ("status", JStr "error");
           ("timestamp", JStr now); ("error", JStr (resp_text resp))] in
        (CallHTTPException 500
           (ErrorCallingBland (HTTPError 500 (JStr (resp_text resp)))),
         append_entry call_history (phone_number req) new_call,
         [BlandPostCall (phone_number req) (topic req)])
  end.

(** [trigger_call] from the history lookup on. *)
Definition admit_call (call_history : gmap string (list pydict)) (req : CallRequest)
    : call_result * gmap string (list pydict) * list effect :=
  let is_admin := truthy_flag (admin req) in
  let phone_history := default [] (call_history !! phone_number req) in
  let max_calls :=
    if truthy_str (user_id req) then MAX_CALLS_PER_USER else MAX_CALLS_PER_GUEST in
  let current_calls :=
    Z.of_nat (length (List.filter (dict_field_is "status" "success") phone_history)) in
  let calls_left := (max_calls - current_calls)%Z in
  if Z.leb calls_left 0 && negb is_admin
  then (CallReturn CallLimitReached, call_history, [])
  else place_call call_history req calls_left.

Definition trigger_call (call_history : gmap string (list pydict)) (req : CallRequest)
    : call_result * gmap string (list pydict) * list effect :=
  if negb (truthy_str BLAND_API_KEY)
  then (CallHTTPException 500 BlandKeyNotSet, call_history, [])
  else
    let is_admin := truthy_flag (admin req) in
    if negb is_admin then
      let '(moderation_result, sent) := moderate_call (topic req) (phone_number req) in
      let trace := Moderate (topic req) (phone_number req) :: sent in
      match subscript moderation_result "allowed" with
      | None => (CallUnhandled (KeyError "allowed"), call_history, trace)
      | Some allowed =>
          if negb (json_truthy allowed) then
            match subscript moderation_result "reason" with
            | None => (CallUnhandled (KeyError "reason"), call_history, trace)
            | Some reason => (CallReturn (RejectedByModeration reason), call_history, trace)
            end
          else
            let '(result, call_history', sent') := admit_call call_history req in
            (result, call_history', trace ++ sent')
      end
    else admit_call call_history req.

(** The [except Exception as e] clause of [send_sms]. *)
Definition sms_exception (call_history : gmap string (list pydict))
    (phone_number : string) (e : py_exception)
    : sms_result * gmap string (list pydict) :=
  (SmsHTTPException 500 (ErrorSendingSms e),
   append_entry call_history phone_number
     [("type", JStr "sms"); ("status", JStr "exception"); ("timestamp", JStr now);
      ("phone_number", JStr phone_number); ("error", JStr (str_exception e))]).

(** The [try] block of [send_sms]. *)
Definition deliver_sms (call_history : gmap string (list pydict))
    (phone_number message : string) : sms_result * gmap string (list pydict) :=
  match textbelt_post phone_number message with
  | None => sms_exception call_history phone_number RequestException
  | Some resp =>
      match resp_json resp with
      | None => sms_exception call_history phone_number JSONDecodeError
      | Some data =>
          if truthy_flag (tb_success data) then
            (SmsReturn (SmsSent (json_of_option (tb_quotaRemaining data))
                                (json_of_option (tb_textId data))),
             append_entry call_history phone_number
               [("type", JStr "sms"); ("status", JStr "success");
                ("timestamp", JStr now); ("phone_number", JStr phone_number);
                ("message_id", json_of_option (tb_textId data))])
          else
            sms_exception
              (append_entry call_history phone_number
                 [("type", JStr "sms"); ("status", JStr "error");
                  ("timestamp", JStr now); ("phone_number", JStr phone_number);
                  ("error", json_of_option (tb_error data))])
              phone_number
              (HTTPError 400 (json_of_option (tb_error data)))
      end
  end.

Definition send_sms (call_history : gmap string (list pydict)) (req : SMSRequest)
    : sms_result * gmap string (list pydict) * list effect :=
  if negb (truthy_str TEXT_KEY)
  then (SmsHTTPException 500 TextKeyNotSet, call_history, [])
  else
    let is_admin := truthy_flag (sms_admin req) in
    let user_id := sms_user_id req in
    let phone_number := sms_phone_number req in
    let message := sms_message req in
    let deliver h :=
      let '(result, h') := deliver_sms h phone_number message in
      (result, h', [TextbeltPost phone_number message]) in
    if negb is_admin then
      let call_history :=
        match call_history !! phone_number with
        | Some _ => call_history
        | None => <[phone_number := []]> call_history
        end in
      let sms_sent_count :=
        Z.of_nat (length (List.filter (dict_field_is "type" "sms")
                            (default [] (call_history !! phone_number)))) in
      let max_sms := if truthy_str user_id then 10%Z else 3%Z in
      if Z.leb max_sms sms_sent_count
      then (SmsReturn (SmsLimitReached max_sms), call_history, [])
      else deliver call_history
    else deliver call_history.

End Admission.

(** ** Notions used in the statements *)

(** The concatenation of [f"{speaker}: {text}\n"] over a sequence. *)
Fixpoint render (us : list utterance) : string :=
  match us with
  | [] => EmptyString
  | u :: us' => String.append (format_line (speaker u) (text u)) (render us')
  end.

(** A segment the loops get through without raising: a dictionary whose
    text, if it has one, is a string. *)
Definition segment_ok (segment : json) : bool :=
  match segment with
  | JDict fields =>
      match dict_get "text" fields with
      | None => true
      | Some (JStr _) => true
      | Some _ => false
      end
  | _ => false
  end.

(** The fields of such a segment: its text (empty when absent), and
    what it holds under another key. *)
Definition segment_text (segment : json) : string :=
  match segment with
  | JDict fields =>
      match dict_get "text" fields with
      | Some (JStr s) => s
      | _ => EmptyString
      end
  | _ => EmptyString
  end.

Definition segment_field (key : string) (segment : json) : option json :=
  match segment with
  | JDict fields => dict_get key fields
  | _ => None
  end.

(** The speaker of a provider segment as it is printed. *)
Definition segment_speaker (py_str : json -> string) (segment : json) : string :=
  py_format py_str (default (JStr "Unknown") (segment_field "speaker" segment)).

(** A provider segment read as an utterance, fields as they arrived. *)
Definition segment_as_utterance (py_str : json -> string) (segment : json) : utterance :=
  {| speaker := segment_speaker py_str segment; text := segment_text segment |}.

(** The same with the text trimmed. *)
Definition segment_trimmed (py_str : json -> string) (segment : json) : utterance :=
  {| speaker := segment_speaker py_str segment; text := Py.strip (segment_text segment) |}.

(** The segment's text is not empty after trimming. *)
Definition segment_has_text (segment : json) : bool :=
  Py.truthy (Py.strip (segment_text segment)).

(** The segment's text has nothing to trim and is not empty. *)
Definition segment_clean (segment : json) : bool :=
  segment_has_text segment
  && String.eqb (Py.strip (segment_text segment)) (segment_text segment).

(** ["ai"] is the agent, every other code (or none) the user. *)
Definition detail_as_utterance (segment : json) : utterance :=
  {| speaker :=
       if py_eq_str (default JNull (segment_field "from" segment)) "ai"
       then "Agent" else "User";
     text := Py.strip (segment_text segment) |}.

(** The rendering of the sequence a success response carries. *)
Definition render_aligned (py_str : json -> string) (a : aligned_payload)
    : option string :=
  match a with
  | AlignedProvider (JList segments) =>
      Some (render (map (segment_as_utterance py_str) segments))
  | AlignedProvider _ => None
  | AlignedBuilt utterances => Some (render utterances)
  | AlignedCached _ => None
  end.

(** The speaker opposite to [s] in a two-party conversation. *)
Definition opposite (s : string) : string :=
  if String.eqb s "Agent" then "User" else "Agent".

(** Every utterance is the agent's or the user's. *)
Definition two_party (us : list utterance) : Prop :=
  Forall (fun u => speaker u = "Agent" \/ speaker u = "User") us.

(** A trimmed line carries none of the four markers. *)
Definition unmarked (line : string) : bool :=
  negb (Py.startswith "AI:" line || Py.startswith "Agent:" line
        || Py.startswith "Human:" line || Py.startswith "User:" line).

(** Ledger entries by kind and outcome. *)
Definition is_sms (entry : pydict) : bool := dict_field_is "type" "sms" entry.
Definition is_success (entry : pydict) : bool := dict_field_is "status" "success" entry.

(** Prior successful calls, and prior successful text messages, recorded
    against a phone number. *)
Definition successful_calls (call_history : gmap string (list pydict)) (phone : string) : Z :=
  Z.of_nat (length (List.filter (fun e => is_success e && negb (is_sms e))
                      (default [] (call_history !! phone)))).

Definition successful_sms (call_history : gmap string (list pydict)) (phone : string) : Z :=
  Z.of_nat (length (List.filter (fun e => is_success e && is_sms e)
                      (default [] (call_history !! phone)))).

(** Records with [status = success], of either kind. *)
Definition success_records (call_history : gmap string (list pydict)) (phone : string) : Z :=
  Z.of_nat (length (List.filter is_success (default [] (call_history !! phone)))).

(** The restoration step only adds characters: what it answers contains
    the visible characters of its input, in order. *)
Definition only_adds (punctuation_model : punctuation_model_t) : Prop :=
  forall restore text text',
    punctuation_model = Some restore -> restore text = Some text' ->
    Py.subseq (Py.nonspace text) (Py.nonspace text') = true.

(** [data.get(key)] on a call detail that is a dictionary. *)
Definition detail_field (key : string) (data : json) : json :=
  default JNull (segment_field key data).

(** Working through the call detail raises: it is no dictionary; or its
    aligned transcript is truthy and is no list, or is a list with a
    segment that is no dictionary or whose text is no string; or it has
    no aligned transcript and a flat transcript that is truthy and no
    string. *)
Definition detail_raises (data : json) : bool :=
  match data with
  | JDict _ =>
      if json_truthy (detail_field "transcript_aligned" data)
      then match detail_field "transcript_aligned" data with
           | JList segments => negb (forallb segment_ok segments)
           | _ => true
           end
      else if json_truthy (detail_field "transcript" data)
      then match detail_field "transcript" data with
           | JStr _ => false
           | _ => true
           end
      else false
  | _ => true
  end.

(** The call detail is read without raising and holds no transcript the
    endpoint resolves: no aligned segments, and no flat text that yields
    an utterance. *)
Definition detail_unresolved (punctuation_model : punctuation_model_t)
    (data : json) : bool :=
  match data with
  | JDict _ =>
      negb (json_truthy (detail_field "transcript_aligned" data))
      && (if json_truthy (detail_field "transcript" data)
          then match detail_field "transcript" data with
               | JStr transcript =>
                   match CallTranscript.flat_loop
                           (Py.split Py.newline
                              (improve_transcript_readability punctuation_model
                                 transcript)) [] with
                   | Some (_ :: _) => false
                   | _ => true
                   end
               | _ => false
               end
          else true)
  | _ => false
  end.

(** The provider reports the call as still running. *)
Definition in_progress (data : json) : bool :=
  py_eq_str (detail_field "status" data) "in-progress"
  || py_is_false (detail_field "completed" data).

(** ** A table kept as a list, for the examples *)

Definition row_has_id (call_id : string) (row : transcript_row) : bool :=
  py_eq_str (row_call_id row) call_id.

(** The rows are written for the same call. *)
Definition same_call (row row' : transcript_row) : bool :=
  match row_call_id row with
  | JStr call_id => row_has_id call_id row'
  | _ => false
  end.

(** [.single()] raises unless exactly one row matches. *)
#[export] Instance list_store : Store (list transcript_row) := {
  select_single d call_id :=
    match List.filter (row_has_id call_id) d with
    | [row] => SelectData (Some row)
    | _ => SelectRaised
    end;
  upsert d row := Some (List.filter (fun r => negb (same_call row r)) d ++ [row]);
  insert d row := Some (d ++ [row])
}.

(** A closing double quote, for texts that carry JSON. *)
Definition dq : string := String (ascii_of_nat 34) EmptyString.

(** ** Sample environments for the examples *)

Module Sample.

(** A decoder that knows no text, and an encoder that writes a tag. *)
Definition no_loads (s : string) : option json := None.
Definition tag_dumps (j : json) : string := "json".

(** A 200 answer with a decoded body. *)
Definition respond {A : Type} (body : A) : http A :=
  Some {| status_code := 200; resp_text := EmptyString; resp_json := Some body |}.

(** [str] of a decoded value that is no string, as one fixed text. *)
Definition tag_str (value : json) : string := "value".

(** A call detail of a finished call; [JNull] for a field it lacks. *)
Definition detail (transcript segments : json) : json :=
  JDict [("call_id", JStr "c1"); ("status", JStr "completed"); ("completed", JBool true);
         ("transcript", transcript); ("transcript_aligned", segments)].

(** A segment of an aligned transcript. *)
Definition segment (from text : string) : json :=
  JDict [("from", JStr from); ("text", JStr text)].

(** The corrected transcript is empty; the detail has flat text only. *)
Definition flat_provider : bland_api :=
  {| get_corrected := fun _ => respond (JDict []);
     get_detail := fun _ => respond (detail (JStr "Hello there. How are you?") JNull) |}.

(** The detail has three aligned segments, the second one blank, the
    third without a source. *)
Definition segments : list json :=
  [segment "ai" " hi "; segment "user" "  "; JDict [("text", JStr "yes")]].

Definition aligned_provider : bland_api :=
  {| get_corrected := fun _ => respond (JDict []);
     get_detail := fun _ => respond (detail JNull (JList segments)) |}.

(** The corrected transcript has a blank segment and a padded one. *)
Definition corrected_segments : list json :=
  [JDict [("speaker", JStr "assistant"); ("text", JStr EmptyString)];
   JDict [("speaker", JStr "user"); ("text", JStr " hello ")]].

Definition corrected_provider : bland_api :=
  {| get_corrected := fun _ => respond (JDict [("aligned", JList corrected_segments)]);
     get_detail := fun _ => None |}.

(** No request gets through. *)
Definition unreachable_provider : bland_api :=
  {| get_corrected := fun _ => None; get_detail := fun _ => None |}.

(** The call is still running and has no transcript yet. *)
Definition running_provider : bland_api :=
  {| get_corrected := fun _ => None;
     get_detail := fun _ =>
       respond (JDict [("call_id", JStr "c1"); ("status", JStr "in-progress");
                       ("completed", JBool false)]) |}.

(** A table that holds the transcript of call [c1], saved by [u1]. *)
Definition stored_row : transcript_row :=
  {| row_call_id := JStr "c1"; row_user_id := Some "u1";
     row_transcript := Some "Agent: hi"; row_aligned_transcript := None |}.
Definition table : list transcript_row := [stored_row].


(** Exceptions print as one fixed text. *)
Definition str_exception (e : py_exception) : string := "error".

Definition now : string := "2025-01-01T00:00:00".

(** The call provider accepts every call. *)
Definition bland_accepts (phone task : string) : http bland_call :=
  respond {| bc_call_id := Some "call-1" |}.

(** The SMS gateway delivers, or refuses, every message. *)
Definition textbelt_delivers (phone message : string) : http textbelt_data :=
  respond {| tb_success := Some true; tb_textId := Some (JStr "t1");
             tb_quotaRemaining := Some (JNum 40); tb_error := None |}.
Definition textbelt_refuses (phone message : string) : http textbelt_data :=
  respond {| tb_success := Some false; tb_textId := None;
             tb_quotaRemaining := Some (JNum 0);
             tb_error := Some (JStr "Out of quota") |}.

(** The moderation model is not asked (no key is configured). *)
Definition gemini_silent (topic phone : string) : http gemini_result := None.

(** The moderation model answers with a JSON object that has a reason
    but no verdict. *)
Definition reason_only : string :=
  String.append "{" (String.append dq (String.append "reason" (String.append dq
    (String.append ": " (String.append dq (String.append "fine" (String.append dq "}"))))))).
Definition gemini_reason_only (topic phone : string) : http gemini_result :=
  respond {| candidates :=
               Some [{| candidate_content :=
                          Some {| content_parts :=
                                    Some [{| part_text := Some reason_only |}] |} |}] |}.
Definition loads_reason_only (s : string) : option json :=
  if String.eqb s reason_only then Some (JDict [("reason", JStr "fine")]) else None.

Definition guest_sms : SMSRequest :=
  {| sms_phone_number := "5551234"; sms_message := "hello";
     sms_admin := Some false; sms_user_id := None |}.
Definition guest_call : CallRequest :=
  {| phone_number := "5551234"; topic := "weather"; admin := Some false;
     user_id := None |}.

(** Ten successful calls to an emergency number. *)
Definition a_call : pydict :=
  [("topic", JStr "drill"); ("summary", JStr "drill"); ("status", JStr "success");
   ("timestamp", JStr now); ("call_id", JStr "call-0")].
Definition emergency_history : gmap string (list pydict) :=
  {[ "5550911" := replicate 10 a_call ]}.
Definition guest_emergency_call : CallRequest :=
  {| phone_number := "5550911"; topic := "drill"; admin := Some false;
     user_id := None |}.
Definition busy_history : gmap string (list pydict) :=
  {[ "5551234" := replicate 10 a_call ]}.

End Sample.

(** ** Further notions *)

(** Somewhere in the text a character of [[.!?]] is directly followed
    by a space: a place where the normalizer splits. *)
Fixpoint has_boundary (s : string) : bool :=
  match s with
  | EmptyString => false
  | String c s' => (Py.sentence_end c && Py.next_is_space s') || has_boundary s'
  end.

(** The text holds a line break. *)
Fixpoint has_newline (s : string) : bool :=
  match s with
  | EmptyString => false
  | String c s' => Ascii.eqb c Py.newline || has_newline s'
  end.

(** The utterances of unmarked lines spoken in turns, [first] starting. *)
Fixpoint in_turns (first : string) (lines : list string) : list utterance :=
  match lines with
  | [] => []
  | line :: lines' =>
      {| speaker := first; text := Py.strip line |} :: in_turns (opposite first) lines'
  end.

(** The line holds something besides whitespace. *)
Definition line_has_text (line : string) : bool := Py.truthy (Py.strip line).

(** The utterance's text has nothing left to trim. *)
Definition trimmed (u : utterance) : Prop := Py.strip (text u) = text u.

(** The list-backed table with every write failing. *)
Definition read_only_store : Store (list transcript_row) :=
  {| select_single := @select_single _ list_store;
     upsert := fun _ _ => None;
     insert := fun _ _ => None |}.

(** The body says that the call was placed. *)
Definition is_triggered (r : call_result) : bool :=
  match r with
  | CallReturn (CallTriggered _ _) => true
  | _ => false
  end.

(** The entries recorded against a number. *)
Definition entries (call_history : gmap string (list pydict)) (phone : string)
    : list pydict :=
  default [] (call_history !! phone).

(** Records of type [sms], of any outcome. *)
Definition sms_records (call_history : gmap string (list pydict)) (phone : string) : Z :=
  Z.of_nat (length (List.filter is_sms (entries call_history phone))).

(** What a call attempt leaves in the ledger: nothing, or one entry for
    the number called, successful exactly when the call was placed. *)
Definition call_ledger_step (h : gmap string (list pydict)) (req : CallRequest)
    (out : call_result * gmap string (list pydict) * list effect) : Prop :=
  (out.1.2 = h /\ is_triggered out.1.1 = false)
  \/ exists entry,
       out.1.2 = append_entry h (phone_number req) entry
       /\ is_sms entry = false
       /\ is_success entry = is_triggered out.1.1.

(** More sample environments. *)
Module Fixture.

(** The detail's flat transcript is two spaces. *)
Definition blank_provider : bland_api :=
  {| get_corrected := fun _ => None;
     get_detail := fun _ => Sample.respond (Sample.detail (JStr "  ") JNull) |}.

(** The detail's only aligned segment is blank, and the call is
    reported as still running. *)
Definition blank_segments : list json := [Sample.segment "ai" "   "].
Definition blank_detail : json :=
  JDict [("call_id", JStr "c1"); ("status", JStr "in-progress");
         ("completed", JBool false); ("transcript", JStr "hello");
         ("transcript_aligned", JList blank_segments)].
Definition blank_segments_provider : bland_api :=
  {| get_corrected := fun _ => None; get_detail := fun _ => Sample.respond blank_detail |}.

(** The detail of a running call has an aligned segment whose text is
    [null]. *)
Definition null_text_segments : list json :=
  [Sample.segment "ai" "hi"; JDict [("from", JStr "user"); ("text", JNull)]].
Definition null_text_detail : json :=
  JDict [("call_id", JStr "c1"); ("status", JStr "in-progress");
         ("completed", JBool false); ("transcript_aligned", JList null_text_segments)].
Definition null_text_provider : bland_api :=
  {| get_corrected := fun _ => None;
     get_detail := fun _ => Sample.respond null_text_detail |}.

(** A punctuation model that answers the empty text. *)
Definition eats_all : punctuation_model_t := Some (fun _ => Some EmptyString).

(** The moderation service is down. *)
Definition gemini_down (topic phone : string) : http gemini_result :=
  Some {| status_code := 503; resp_text := "unavailable"; resp_json := None |}.

(** The call provider refuses every call. *)
Definition bland_refuses (phone task : string) : http bland_call :=
  Some {| status_code := 402; resp_text := "insufficient balance"; resp_json := None |}.

Definition user_call : CallRequest :=
  {| phone_number := "5551234"; topic := "weather"; admin := Some false;
     user_id := Some "u1" |}.


(** Nine successful calls on record. *)
Definition nine_calls : gmap string (list pydict) :=
  {[ "5551234" := replicate 9 Sample.a_call ]}.

End Fixture.

(** ** More Python string primitives *)

Module PyMore.

(** [str.isalpha] on one character, for code points below 256: the
    ASCII letters, the ordinal indicators, the micro sign and the
    Latin-1 letters. *)
Definition isalpha (c : ascii) : bool :=
  let n := nat_of_ascii c in
  (Nat.leb 65 n && Nat.leb n 90) || (Nat.leb 97 n && Nat.leb n 122)
  || Nat.eqb n 170 || Nat.eqb n 181 || Nat.eqb n 186
  || (Nat.leb 192 n && Nat.leb n 214) || (Nat.leb 216 n && Nat.leb n 246)
  || Nat.leb 248 n.

(** [str.lower] on one character, for code points below 256: [A]..[Z]
    and the Latin-1 capitals move up by 32. *)
Definition lower_char (c : ascii) : ascii :=
  let n := nat_of_ascii c in
  if (Nat.leb 65 n && Nat.leb n 90)
     || (Nat.leb 192 n && Nat.leb n 222 && negb (Nat.eqb n 215))
  then ascii_of_nat (n + 32)
  else c.

(** [s.lower()] *)
Fixpoint lower (s : string) : string :=
  match s with
  | EmptyString => EmptyString
  | String c s' => String (lower_char c) (lower s')
  end.

(** [any(f(c) for c in s)] *)
Fixpoint any_char (f : ascii -> bool) (s : string) : bool :=
  match s with
  | EmptyString => false
  | String c s' => f c || any_char f s'
  end.

(** [sub in s] *)
Fixpoint contains (sub s : string) : bool :=
  Py.startswith sub s
  || match s with
     | EmptyString => false
     | String _ s' => contains sub s'
     end.

End PyMore.

(** ** The remaining provider endpoints *)

Inductive provider_error : Type :=
| ProviderKeyNotSet
| ProviderFailure (e : py_exception).

(** [GET /api/call_details/{call_id}] answers the provider's body. *)
Inductive details_result : Type :=
| DetailsReturn (body : json)
| DetailsHTTPException (status : Z) (detail : provider_error).

Definition get_call_details (BLAND_API_KEY : option string)
    (bland_get : string -> http json) (call_id : string) : details_result :=
  if negb (truthy_str BLAND_API_KEY)
  then DetailsHTTPException 500 ProviderKeyNotSet
  else
    match bland_get call_id with
    | None => DetailsHTTPException 500 (ProviderFailure RequestException)
    | Some resp =>
        if ok resp
        then match resp_json resp with
             | Some body => DetailsReturn body
             | None => DetailsHTTPException 500 (ProviderFailure JSONDecodeError)
             end
        else DetailsHTTPException 500
               (ProviderFailure (HTTPError (status_code resp) (JStr (resp_text resp))))
    end.

(** The body of the provider's answer about a recording. *)
Record recording_data : Type := {
  rec_status : option string;
  rec_url : option string
}.

Inductive recording_response : Type :=
| RecordingUrl (recording_url : string)
| RecordingNotAvailable.

Inductive recording_result : Type :=
| RecordingReturn (body : recording_response)
| RecordingHTTPException (status : Z) (detail : provider_error).

(** [GET /api/call_recording/{call_id}] *)
Definition get_call_recording (BLAND_API_KEY : option string)
    (bland_get : string -> http recording_data) (call_id : string) : recording_result :=
  if negb (truthy_str BLAND_API_KEY)
  then RecordingHTTPException 500 ProviderKeyNotSet
  else
    match bland_get call_id with
    | None => RecordingHTTPException 500 (ProviderFailure RequestException)
    | Some resp =>
        if negb (ok resp)
        then RecordingHTTPException 500
               (ProviderFailure (HTTPError (status_code resp) (JStr (resp_text resp))))
        else
          match resp_json resp with
          | None => RecordingHTTPException 500 (ProviderFailure JSONDecodeError)
          | Some data =>
              let status_ok :=
                match rec_status data with
                | Some s => String.eqb s "success"
                | None => false
                end in
              if status_ok && truthy_str (rec_url data)
              then RecordingReturn (RecordingUrl (default EmptyString (rec_url data)))
              else RecordingReturn RecordingNotAvailable
          end
    end.

(** ** The history endpoints *)

(** The [call_history] table as [get_history] queries it, by user and
    number: [None] when the query raises, otherwise [response.data]. *)
Definition history_query : Type := string -> string -> option (list json).

(** [GET /api/history/{phone_number}] *)
Definition get_history (supabase : option history_query)
    (call_history : gmap string (list pydict)) (phone_number : string)
    (user_id : option string) : list json :=
  let stored :=
    match supabase with
    | Some query =>
        if truthy_str user_id
        then match query (default EmptyString user_id) phone_number with
             | Some ((_ :: _) as data) => Some data
             | _ => None
             end
        else None
    | None => None
    end in
  match stored with
  | Some data => data
  | None =>
      if negb (truthy_str user_id) then []
      else match call_history !! phone_number with
           | None => []
           | Some calls => map JDict calls
           end
  end.

(** [call.get("user_id") == user_id] *)
Definition made_by (user_id : string) (call : pydict) : bool :=
  dict_field_is "user_id" user_id call.

Section UserHistory.
(** [list.sort(key=lambda x: x.get("call_time", ""), reverse=True)], a
    builtin taken as given: [None] when a comparison raises. *)
Variable sort_by_call_time : list pydict -> option (list pydict).

(** [GET /api/history].  [items] are the ledger's items in the order
    the dictionary yields them; [supabase] answers [None] when the query
    raises.  The result is [None] when the sort raises. *)
Definition get_user_history (supabase : option (string -> option (list json)))
    (items : list (string * list pydict)) (user_id : option string)
    : option (list json) :=
  if negb (truthy_str user_id) then Some []
  else
    let user := default EmptyString user_id in
    let fallback :=
      let all_user_calls :=
        fold_left (fun acc item => acc ++ List.filter (made_by user) item.2) items [] in
      sorted ← sort_by_call_time all_user_calls;
      Some (map JDict sorted) in
    match supabase with
    | Some query =>
        match query user with
        | Some ((_ :: _) as data) => Some data
        | Some [] => Some []
        | None => fallback
        end
    | None => fallback
    end.

End UserHistory.

(** ** Name verification *)

Record name_verdict : Type := { isValidName : bool; reason : string }.

Definition common_names : list string :=
  ["john"; "mary"; "james"; "patricia"; "robert"; "jennifer"; "michael"; "linda";
   "william"; "elizabeth"; "david"; "barbara"; "richard"; "susan"; "joseph"; "jessica";
   "thomas"; "sarah"; "chris"; "karen"; "daniel"; "nancy"; "matthew"; "lisa"; "anthony";
   "betty"; "mark"; "dorothy"; "donald"; "sandra"; "steve"; "ashley"; "paul"; "kimberly";
   "andrew"; "donna"; "joshua"; "emily"; "kenneth"; "carol"; "kevin"; "michelle"; "brian"].

Definition profanity : list string :=
  ["fuck"; "shit"; "ass"; "bitch"; "dick"; "pussy"; "cunt"].

Definition keyboard_sequences : list string := ["asdfg"; "qwerty"; "zxcvbn"].

Definition accepted : name_verdict :=
  {| isValidName := true; reason := "Name accepted" |}.

(** The checks on the trimmed name, before any list is looked at. *)
Definition name_shape (name : string) : option name_verdict :=
  if negb (Py.truthy name)
  then Some {| isValidName := false; reason := "Name cannot be empty" |}
  else if Nat.ltb (String.length name) 2
  then Some {| isValidName := false; reason := "Name is too short" |}
  else if Nat.ltb 50 (String.length name)
  then Some {| isValidName := false; reason := "Name is too long" |}
  else if negb (PyMore.any_char PyMore.isalpha name)
  then Some {| isValidName := false; reason := "Name must contain at least one letter" |}
  else None.

(** The lists, looked at on the lowercase name. *)
Definition name_lists (name_lower : string) : name_verdict :=
  if PyMore.contains "dennis" name_lower then accepted
  else if existsb (fun common_name =>
                     PyMore.contains common_name name_lower
                     || PyMore.contains name_lower common_name) common_names
  then accepted
  else if existsb (fun word => PyMore.contains word name_lower) profanity
  then {| isValidName := false; reason := "Please enter an appropriate name" |}
  else if existsb (fun seq => PyMore.contains seq name_lower) keyboard_sequences
  then {| isValidName := false; reason := "Please enter a real name" |}
  else if String.eqb name_lower "adsfdsfsdf"
  then {| isValidName := false; reason := "Please enter a real name" |}
  else accepted.

(** [POST /api/verify-name], up to the [return] that is always reached. *)
Definition verify_name (raw : string) : name_verdict :=
  let name := Py.strip raw in
  match name_shape name with
  | Some verdict => verdict
  | None => name_lists (PyMore.lower name)
  end.

(** No entry of the ledger carries a [user_id] key. *)
Definition no_user_ids (call_history : gmap string (list pydict)) : Prop :=
  forall phone, Forall (fun e => dict_get "user_id" e = None) (entries call_history phone).

(** A descending stable sort on [call_time], for the examples: entries
    are put behind those with a key at least as large. *)
Module SortExample.

Definition call_time_key (entry : pydict) : option string :=
  match dict_get "call_time" entry with
  | None => Some EmptyString
  | Some (JStr s) => Some s
  | Some _ => None
  end.

Fixpoint insert_desc (k : string) (e : pydict) (sorted : list (string * pydict))
    : list (string * pydict) :=
  match sorted with
  | [] => [(k, e)]
  | (k', e') :: rest =>
      if String.ltb k' k then (k, e) :: sorted else (k', e') :: insert_desc k e rest
  end.

Fixpoint keyed (l : list pydict) : option (list (string * pydict)) :=
  match l with
  | [] => Some []
  | e :: l' =>
      k ← call_time_key e;
      rest ← keyed l';
      Some ((k, e) :: rest)
  end.

Definition sort_by_call_time (l : list pydict) : option (list pydict) :=
  pairs ← keyed l;
  Some (map snd (fold_left (fun acc p => insert_desc p.1 p.2 acc) pairs [])).

End SortExample.

(** The moderation service gave nothing a verdict can be read from: the
    request raised, the status is not 200, the body does not decode, the
    answer has no text to index, the text has no [{...}] or what is
    between the braces is not JSON. *)
Definition moderation_unreadable (json_loads : string -> option json)
    (answer : http gemini_result) : Prop :=
  answer = None
  \/ (exists response,
        answer = Some response
        /\ (status_code response <> 200%Z
            \/ resp_json response = None
            \/ exists result,
                 resp_json response = Some result
                 /\ (answer_text result = None
                     \/ exists text,
                          answer_text result = Some text
                          /\ (re_search_braces text = None
                              \/ exists group0,
                                   re_search_braces text = Some group0
                                   /\ json_loads group0 = None)))).

(** ** The text a line contributes *)

(** [s] without the prefix [p], when it starts with it. *)
Fixpoint remove_prefix (p s : string) : option string :=
  match p with
  | EmptyString => Some s
  | String a p' =>
      match s with
      | EmptyString => None
      | String b s' => if Ascii.eqb a b then remove_prefix p' s' else None
      end
  end.

(** A trimmed line without its marker, if it carries one. *)
Definition after_marker (line : string) : string :=
  match remove_prefix "AI:" line with
  | Some rest => rest
  | None =>
      match remove_prefix "Agent:" line with
      | Some rest => rest
      | None =>
          match remove_prefix "Human:" line with
          | Some rest => rest
          | None => default line (remove_prefix "User:" line)
          end
      end
  end.

(** The text of the utterance a line gives: the line trimmed, its
    marker removed, and trimmed again. *)
Definition line_text (line : string) : string :=
  Py.strip (after_marker (Py.strip line)).

(** The rows the endpoints hand to the table: for a corrected
    transcript, and for a sequence they built from the call detail. *)
Definition corrected_row (json_dumps : json -> string) (call_id : string)
    (user_id : option string) (concat_transcript : string) (aligned : json)
    : transcript_row :=
  {| row_call_id := JStr call_id;
     row_user_id := user_id;
     row_transcript := Some concat_transcript;
     row_aligned_transcript := Some (json_dumps aligned) |}.

Definition built_row (json_dumps : json -> string) (call_id : json)
    (user_id : option string) (transcript : string) (aligned : list utterance)
    : transcript_row :=
  {| row_call_id := call_id;
     row_user_id := user_id;
     row_transcript := Some transcript;
     row_aligned_transcript := Some (json_dumps (JList (map json_of_utterance aligned))) |}.

(** The call-detail request fails with [cause]. *)
Definition detail_failure (bland : bland_api) (call_id : string)
    (cause : transcript_failure) : Prop :=
  match cause with
  | RequestRaised => get_detail bland call_id = None
  | DetailNotOk status body =>
      exists resp, get_detail bland call_id = Some resp /\ ok resp = false
                   /\ status = status_code resp /\ body = resp_text resp
  | BodyNotJson =>
      exists resp, get_detail bland call_id = Some resp /\ ok resp = true
                   /\ resp_json resp = None
  | PayloadRaised =>
      exists resp data, get_detail bland call_id = Some resp /\ ok resp = true
                        /\ resp_json resp = Some data /\ detail_raises data = true
  end.

(** * Properties *)

(** ** Strings *)

#[local] Arguments String.append !_ _ : simpl nomatch.

Lemma append_assoc (a b c : string) :
  String.append (String.append a b) c = String.append a (String.append b c).
Proof. induction a as [|x a IH]; simpl; [reflexivity | now rewrite IH]. Qed.

Lemma append_empty_r (a : string) : String.append a EmptyString = a.
Proof. induction a as [|x a IH]; simpl; [reflexivity | now rewrite IH]. Qed.

Lemma nonspace_app (a b : string) :
  Py.nonspace (String.append a b) = String.append (Py.nonspace a) (Py.nonspace b).
Proof.
  induction a as [|x a IH]; simpl; [reflexivity |].
  destruct (Py.isspace x); simpl; now rewrite IH.
Qed.

Lemma subseq_refl (s : string) : Py.subseq s s = true.
Proof.
  induction s as [|c s IH]; simpl; [reflexivity |].
  now rewrite Ascii.eqb_refl.
Qed.

Lemma re_split_sentences_nonempty (in_match : bool) (s : string) :
  Py.re_split_sentences in_match s <> [].
Proof.
  revert in_match. induction s as [|c s IH]; intros in_match; simpl; [discriminate |].
  destruct (in_match && Ascii.eqb c " "); [apply IH |].
  destruct (Py.sentence_end c && Py.next_is_space s); [discriminate |].
  specialize (IH false). destruct (Py.re_split_sentences false s); [contradiction | discriminate].
Qed.

Lemma join_cons (sep p : string) (ps : list string) :
  ps <> [] -> Py.join sep (p :: ps) = String.append p (String.append sep (Py.join sep ps)).
Proof. destruct ps; [contradiction | reflexivity]. Qed.

Lemma join_push_front (sep : string) (c : ascii) (ps : list string) :
  ps <> [] -> Py.join sep (Py.push_front c ps) = String c (Py.join sep ps).
Proof.
  destruct ps as [|p ps]; [contradiction |]. intros _.
  destruct ps; reflexivity.
Qed.

Lemma sentence_end_not_space (c : ascii) :
  Py.sentence_end c = true -> Py.isspace c = false.
Proof.
  unfold Py.sentence_end. intros H.
  apply orb_prop in H as [H | H]; [apply orb_prop in H as [H | H] |];
    apply Ascii.eqb_eq in H; subst c; reflexivity.
Qed.

(** Splitting into sentences and joining with newlines keeps every
    character that is not whitespace, in order. *)
Lemma nonspace_split_join (s : string) (in_match : bool) :
  Py.nonspace (Py.join Py.nl (Py.re_split_sentences in_match s)) = Py.nonspace s.
Proof.
  revert in_match. induction s as [|c s IH]; intros in_match; [reflexivity |].
  cbn [Py.re_split_sentences].
  destruct (in_match && Ascii.eqb c " ") eqn:Hskip.
  - apply andb_prop in Hskip as [_ Hc]. apply Ascii.eqb_eq in Hc. subst c.
    rewrite IH. reflexivity.
  - destruct (Py.sentence_end c && Py.next_is_space s) eqn:Hend.
    + apply andb_prop in Hend as [Hc _].
      rewrite join_cons by apply re_split_sentences_nonempty.
      cbn [String.append Py.nonspace]. rewrite (sentence_end_not_space _ Hc).
      rewrite nonspace_app, IH. reflexivity.
    + rewrite join_push_front by apply re_split_sentences_nonempty.
      cbn [Py.nonspace]. now rewrite IH.
Qed.

(** ** Text normalizer *)

Lemma improve_keeps_restored (pm : punctuation_model_t) (text : string) :
  Py.nonspace (improve_transcript_readability pm text)
  = Py.nonspace (restore_punctuation pm text).
Proof. unfold improve_transcript_readability. apply nonspace_split_join. Qed.

Lemma restore_punctuation_degrades (pm : punctuation_model_t) (text : string) :
  pm = None \/ (exists restore, pm = Some restore /\ restore text = None) ->
  restore_punctuation pm text = text.
Proof.
  intros [-> | (restore & -> & Hfail)]; unfold restore_punctuation; [reflexivity |].
  now rewrite Hfail.
Qed.

(** C8, as amended.  The normalizer always answers a string: an absent
    or failing punctuation step leaves the text as it was, and the split
    only replaces runs of spaces behind [.], [!] or [?] by a newline, so
    the output holds the non-whitespace characters of the text it
    splits, in order.  It therefore holds every non-whitespace character
    of the input when the punctuation step is absent or fails; when the
    step succeeds it does so only if that step itself only adds
    characters (the model is outside this repository), and what the
    model leaves out stays out. *)
Theorem normalizer_preserves_content (pm : punctuation_model_t) (text : string) :
  (exists out, improve_transcript_readability pm text = out
     /\ Py.nonspace out = Py.nonspace (restore_punctuation pm text))
  /\ (pm = None \/ (exists restore, pm = Some restore /\ restore text = None) ->
      improve_transcript_readability pm text
        = Py.join Py.nl (Py.re_split_sentences false text)
      /\ Py.nonspace (improve_transcript_readability pm text) = Py.nonspace text)
  /\ (only_adds pm ->
      Py.subseq (Py.nonspace text)
        (Py.nonspace (improve_transcript_readability pm text)) = true).
Proof.
  split; [| split].
  - eexists. split; [reflexivity | apply improve_keeps_restored].
  - intros Hdeg. split.
    + unfold improve_transcript_readability.
      now rewrite (restore_punctuation_degrades _ _ Hdeg).
    + rewrite improve_keeps_restored. now rewrite (restore_punctuation_degrades _ _ Hdeg).
  - intros Hadds. rewrite improve_keeps_restored. unfold restore_punctuation.
    destruct pm as [restore|]; [| apply subseq_refl].
    destruct (restore text) as [text'|] eqn:Hr; [| apply subseq_refl].
    eapply Hadds; [reflexivity | exact Hr].
Qed.

Lemma only_adds_absent : only_adds None.
Proof. intros restore text text' Hnone. discriminate Hnone. Qed.

(** A restoration step that puts a full stop at the end. *)
Lemma only_adds_full_stop : only_adds (Some (fun t => Some (String.append t "."))).
Proof.
  intros restore text text' [= <-] [= <-].
  rewrite nonspace_app. cbn [Py.nonspace]. cbn.
  induction (Py.nonspace text) as [|c s IH]; [reflexivity |].
  cbn. now rewrite Ascii.eqb_refl.
Qed.

Lemma normalizer_preserves_content_witness :
  improve_transcript_readability None "Hello there. How can I help? I need a refund."
  = String.append "Hello there." (String.append Py.nl
      (String.append "How can I help?" (String.append Py.nl "I need a refund.")))
  /\ Py.subseq (Py.nonspace "so it goes. fine")
       (Py.nonspace (improve_transcript_readability
                       (Some (fun t => Some (String.append t "."))) "so it goes. fine"))
     = true.
Proof.
  split.
  - destruct (normalizer_preserves_content None
                "Hello there. How can I help? I need a refund.") as (_ & Hdeg & _).
    destruct (Hdeg (or_introl eq_refl)) as [-> _]. reflexivity.
  - destruct (normalizer_preserves_content (Some (fun t => Some (String.append t ".")))
                "so it goes. fine") as (_ & _ & Hadds).
    exact (Hadds only_adds_full_stop).
Defined.

(** A punctuation model that answers the empty text succeeds, and the
    normalizer's output then holds none of the characters of its
    input. *)
Lemma punctuation_step_may_drop_characters :
  (exists restore, Fixture.eats_all = Some restore
                   /\ restore "Hello there." = Some EmptyString)
  /\ improve_transcript_readability Fixture.eats_all "Hello there." = EmptyString
  /\ Py.subseq (Py.nonspace "Hello there.")
       (Py.nonspace (improve_transcript_readability Fixture.eats_all "Hello there."))
     = false
  /\ ~ only_adds Fixture.eats_all.
Proof.
  split; [eexists; split; reflexivity |]. split; [reflexivity |]. split; [reflexivity |].
  intros Hadds.
  specialize (Hadds (fun _ => Some EmptyString) "a" EmptyString eq_refl eq_refl).
  discriminate Hadds.
Qed.

(** ** The alignment loops *)

Lemma render_app (us vs : list utterance) :
  render (us ++ vs) = String.append (render us) (render vs).
Proof.
  induction us as [|u us IH]; simpl; [reflexivity |].
  now rewrite IH, append_assoc.
Qed.

(** One pass of the loop over the corrected transcript raises unless
    the segment is a dictionary with a string (or no) text; otherwise it
    appends one line when the segment has text. *)
Lemma corrected_step_spec (py_str : json -> string) (segment : json) (concat : string) :
  CallTranscript.corrected_step py_str concat segment
  = if segment_ok segment
    then Some (if segment_has_text segment
               then String.append concat (render [segment_trimmed py_str segment])
               else concat)
    else None.
Proof.
  unfold CallTranscript.corrected_step, segment_ok, segment_has_text, segment_trimmed,
    segment_speaker, segment_text, segment_field.
  destruct segment as [| b | n | s | items | fields]; try reflexivity.
  cbn [py_get_or mbind option_bind].
  destruct (dict_get "text" fields) as [[| b | n | s | items | fields']|];
    cbn [default from_option id py_strip mbind option_bind]; try reflexivity.
  - destruct (Py.truthy (Py.strip s)); [| reflexivity].
    cbn [render speaker text]. now rewrite append_empty_r.
Qed.

(** The loop over the corrected transcript gets through exactly when
    every segment is such a dictionary, and then appends one line per
    segment that has text, with the text trimmed. *)
Lemma corrected_loop_spec (py_str : json -> string) (segments : list json)
    (concat : string) :
  CallTranscript.corrected_loop py_str segments concat
  = if forallb segment_ok segments
    then Some (String.append concat
                 (render (map (segment_trimmed py_str)
                            (List.filter segment_has_text segments))))
    else None.
Proof.
  revert concat. induction segments as [|seg segments IH]; intros concat.
  - cbn. now rewrite append_empty_r.
  - cbn [CallTranscript.corrected_loop forallb List.filter].
    rewrite corrected_step_spec.
    destruct (segment_ok seg); [| reflexivity].
    cbn [mbind option_bind andb]. rewrite IH.
    destruct (forallb segment_ok segments); [| reflexivity].
    destruct (segment_has_text seg); [| reflexivity].
    cbn [map render]. now rewrite append_empty_r, append_assoc.
Qed.

Lemma detail_step_spec (segment : json) (aligned : list utterance) (concat : string) :
  CallTranscript.detail_step (aligned, concat) segment
  = if segment_ok segment
    then Some (if segment_has_text segment
               then (aligned ++ [detail_as_utterance segment],
                     String.append concat (render [detail_as_utterance segment]))
               else (aligned, concat))
    else None.
Proof.
  unfold CallTranscript.detail_step, segment_ok, segment_has_text, detail_as_utterance,
    segment_text, segment_field.
  destruct segment as [| b | n | s | items | fields]; try reflexivity.
  cbn [py_get py_get_or mbind option_bind].
  destruct (dict_get "text" fields) as [[| b | n | s | items | fields']|];
    cbn [default from_option id py_strip mbind option_bind]; try reflexivity.
  - destruct (Py.truthy (Py.strip s)); [| reflexivity].
    cbn [render speaker text]. now rewrite append_empty_r.
Qed.

(** The loop over [transcript_aligned] gets through exactly when every
    segment is such a dictionary; it then keeps the segments that have
    text, in order, and builds the flat string from the same ones. *)
Lemma detail_loop_spec (segments : list json) (aligned : list utterance)
    (concat : string) :
  CallTranscript.detail_loop segments (aligned, concat)
  = if forallb segment_ok segments
    then Some (aligned ++ map detail_as_utterance (List.filter segment_has_text segments),
               String.append concat
                 (render (map detail_as_utterance
                            (List.filter segment_has_text segments))))
    else None.
Proof.
  revert aligned concat.
  induction segments as [|seg segments IH]; intros aligned concat.
  - cbn. now rewrite app_nil_r, append_empty_r.
  - cbn [CallTranscript.detail_loop forallb List.filter].
    rewrite detail_step_spec.
    destruct (segment_ok seg); [| reflexivity].
    cbn [mbind option_bind andb].
    destruct (segment_has_text seg); rewrite IH;
      (destruct (forallb segment_ok segments); [| reflexivity]); [| reflexivity].
    cbn [map render]. rewrite <- app_assoc.
    now rewrite append_empty_r, append_assoc.
Qed.

(** A truthy value whose iteration gets through the loop body is a
    list: the characters of a string and the keys of a dictionary are
    no dictionaries. *)
Lemma iterated_segments_list (value : json) (segments : list json) :
  json_truthy value = true -> py_iter value = Some segments ->
  forallb segment_ok segments = true -> value = JList segments.
Proof.
  destruct value as [| b | n | s | items | fields]; cbn [py_iter]; try discriminate.
  - destruct s as [|c s]; [discriminate |]. intros _ [= <-]. discriminate.
  - intros _ [= <-]. reflexivity.
  - destruct fields as [|field fields]; [discriminate |]. intros _ [= <-]. discriminate.
Qed.

Lemma filter_all_length {A : Type} (f : A -> bool) (l : list A) :
  length (List.filter f l) = length l <-> (forall x, In x l -> f x = true).
Proof.
  split.
  - intros Hlen x Hx. apply filter_length_forallb in Hlen.
    rewrite forallb_forall in Hlen. now apply Hlen.
  - intros Hall. induction l as [|y l IH]; simpl; [reflexivity |].
    rewrite (Hall y) by now left. simpl. f_equal. apply IH.
    intros x Hx. apply Hall. now right.
Qed.

(** ** The loop over the lines of a flat transcript *)

Lemma startswith_prefix (p s : string) :
  Py.startswith p s = true -> exists rest, s = String.append p rest.
Proof.
  revert s. induction p as [|a p IH]; intros s Hs; simpl in *.
  - now exists s.
  - destruct s as [|b s]; [discriminate |].
    apply andb_prop in Hs as [Hab Hs]. apply Ascii.eqb_eq in Hab. subst b.
    destruct (IH _ Hs) as [rest ->]. now exists rest.
Qed.

Lemma startswith_append (p rest : string) : Py.startswith p (String.append p rest) = true.
Proof.
  induction p as [|a p IH]; simpl; [reflexivity |].
  now rewrite Ascii.eqb_refl, IH.
Qed.

Lemma flat_loop_app (lines lines' : list string) (aligned : list utterance) :
  CallTranscript.flat_loop (lines ++ lines') aligned
  = CallTranscript.flat_loop lines aligned ≫= CallTranscript.flat_loop lines'.
Proof.
  revert aligned. induction lines as [|l lines IH]; intros aligned; simpl; [reflexivity |].
  destruct (CallTranscript.flat_step aligned l) as [aligned'|]; simpl; [apply IH | reflexivity].
Qed.

(** One more line after [lines]: one step from what [lines] gave. *)
Lemma flat_loop_snoc (lines : list string) (line : string) (before : list utterance) :
  CallTranscript.flat_loop lines [] = Some before ->
  CallTranscript.flat_loop (lines ++ [line]) [] = CallTranscript.flat_step before line.
Proof.
  intros Hb. rewrite flat_loop_app, Hb. simpl.
  now destruct (CallTranscript.flat_step before line).
Qed.

Lemma flat_step_blank (aligned : list utterance) (line : string) :
  Py.strip line = EmptyString -> CallTranscript.flat_step aligned line = Some aligned.
Proof. intros H. unfold CallTranscript.flat_step. now rewrite H. Qed.

Lemma flat_step_agent (aligned : list utterance) (line rest : string) :
  Py.strip line = String.append "AI:" rest \/ Py.strip line = String.append "Agent:" rest ->
  CallTranscript.flat_step aligned line
  = Some (aligned ++ [{| speaker := "Agent"; text := Py.strip rest |}]).
Proof.
  intros [H | H]; unfold CallTranscript.flat_step; rewrite H; reflexivity.
Qed.

Lemma flat_step_user (aligned : list utterance) (line rest : string) :
  Py.strip line = String.append "Human:" rest \/ Py.strip line = String.append "User:" rest ->
  CallTranscript.flat_step aligned line
  = Some (aligned ++ [{| speaker := "User"; text := Py.strip rest |}]).
Proof.
  intros [H | H]; unfold CallTranscript.flat_step; rewrite H; reflexivity.
Qed.

Lemma flat_step_unmarked (aligned : list utterance) (line : string) :
  Py.strip line <> EmptyString -> unmarked (Py.strip line) = true ->
  CallTranscript.flat_step aligned line
  = Some (aligned ++
            [{| speaker := match last aligned with
                           | None => "Agent"
                           | Some previous => opposite (speaker previous)
                           end;
                text := Py.strip line |}]).
Proof.
  intros Hne Hun. unfold CallTranscript.flat_step, unmarked in *.
  destruct (Py.strip line) as [|c l] eqn:Hl; [contradiction |].
  cbn [Py.truthy negb].
  apply negb_true_iff in Hun.
  apply orb_false_elim in Hun as [Hun Huser].
  apply orb_false_elim in Hun as [Hagent Hhuman].
  rewrite Hagent, Hhuman, Huser. cbn [orb].
  destruct (last aligned); reflexivity.
Qed.

(** A step never raises, and it keeps the speakers within the two
    parties. *)
Lemma flat_step_total (aligned : list utterance) (line : string) :
  two_party aligned ->
  exists aligned', CallTranscript.flat_step aligned line = Some aligned'
                   /\ two_party aligned'.
Proof.
  intros Hparty.
  assert (Hsnoc : forall s t, s = "Agent" \/ s = "User" ->
                    two_party (aligned ++ [{| speaker := s; text := t |}])).
  { intros s t Hs. apply Forall_app. split; [exact Hparty |].
    constructor; [exact Hs | constructor]. }
  destruct (Py.strip line) as [|c l] eqn:Hl.
  { exists aligned. split; [now apply flat_step_blank | exact Hparty]. }
  destruct (Py.startswith "AI:" (Py.strip line)) eqn:Hai.
  { destruct (startswith_prefix _ _ Hai) as [rest Hrest].
    eexists. split; [apply (flat_step_agent _ _ rest); now left | apply Hsnoc; now left]. }
  destruct (Py.startswith "Agent:" (Py.strip line)) eqn:Hagent.
  { destruct (startswith_prefix _ _ Hagent) as [rest Hrest].
    eexists. split; [apply (flat_step_agent _ _ rest); now right | apply Hsnoc; now left]. }
  destruct (Py.startswith "Human:" (Py.strip line)) eqn:Hhuman.
  { destruct (startswith_prefix _ _ Hhuman) as [rest Hrest].
    eexists. split; [apply (flat_step_user _ _ rest); now left | apply Hsnoc; now right]. }
  destruct (Py.startswith "User:" (Py.strip line)) eqn:Huser.
  { destruct (startswith_prefix _ _ Huser) as [rest Hrest].
    eexists. split; [apply (flat_step_user _ _ rest); now right | apply Hsnoc; now right]. }
  eexists. split.
  - apply flat_step_unmarked; [rewrite Hl; discriminate |].
    unfold unmarked. now rewrite Hai, Hagent, Hhuman, Huser.
  - apply Hsnoc. destruct (last aligned) as [previous|]; [| now left].
    unfold opposite. destruct (String.eqb (speaker previous) "Agent"); [now right | now left].
Qed.

Lemma flat_loop_total (lines : list string) (aligned : list utterance) :
  two_party aligned ->
  exists aligned', CallTranscript.flat_loop lines aligned = Some aligned'
                   /\ two_party aligned'.
Proof.
  revert aligned. induction lines as [|l lines IH]; intros aligned Hparty; simpl.
  - now exists aligned.
  - destruct (flat_step_total aligned l Hparty) as (a1 & -> & Hp1). simpl. now apply IH.
Qed.

(** Among the two parties, [opposite] exchanges them. *)
Lemma opposite_two_party (s : string) :
  s = "Agent" \/ s = "User" -> opposite s <> s /\ (opposite s = "Agent" \/ opposite s = "User").
Proof. intros [-> | ->]; (split; [discriminate | auto]). Qed.

(** C6. The loop over the lines of a flat transcript never raises, and
    line by line: a blank line adds nothing; a line that starts (after
    trimming) with [AI:] or [Agent:] adds an Agent utterance, one that
    starts with [Human:] or [User:] a User utterance, the marker removed
    and the rest trimmed; an unmarked line adds an Agent utterance when
    nothing came before and otherwise an utterance of the speaker
    opposite to the latest one.  On [Agent: hi / User: hello / bye] the
    result is Agent hi, User hello, Agent bye. *)
Theorem flat_aligner_rules :
  (forall lines, exists aligned,
      CallTranscript.flat_loop lines [] = Some aligned /\ two_party aligned)
  /\ (forall lines line before,
        CallTranscript.flat_loop lines [] = Some before ->
        (Py.strip line = EmptyString ->
         CallTranscript.flat_loop (lines ++ [line]) [] = Some before)
        /\ (forall rest,
              Py.strip line = String.append "AI:" rest
              \/ Py.strip line = String.append "Agent:" rest ->
              CallTranscript.flat_loop (lines ++ [line]) []
              = Some (before ++ [{| speaker := "Agent"; text := Py.strip rest |}]))
        /\ (forall rest,
              Py.strip line = String.append "Human:" rest
              \/ Py.strip line = String.append "User:" rest ->
              CallTranscript.flat_loop (lines ++ [line]) []
              = Some (before ++ [{| speaker := "User"; text := Py.strip rest |}]))
        /\ (Py.strip line <> EmptyString -> unmarked (Py.strip line) = true ->
            before = [] ->
            CallTranscript.flat_loop (lines ++ [line]) []
            = Some [{| speaker := "Agent"; text := Py.strip line |}])
        /\ (Py.strip line <> EmptyString -> unmarked (Py.strip line) = true ->
            forall previous, last before = Some previous ->
              CallTranscript.flat_loop (lines ++ [line]) []
              = Some (before ++ [{| speaker := opposite (speaker previous);
                                    text := Py.strip line |}])
              /\ opposite (speaker previous) <> speaker previous))
  /\ CallTranscript.flat_loop
       (Py.split Py.newline
          (String.append "Agent: hi" (String.append Py.nl
             (String.append "User: hello" (String.append Py.nl "bye"))))) []
     = Some [{| speaker := "Agent"; text := "hi" |};
             {| speaker := "User"; text := "hello" |};
             {| speaker := "Agent"; text := "bye" |}].
Proof.
  split; [| split].
  - intros lines. apply flat_loop_total. constructor.
  - intros lines line before Hb.
    rewrite (flat_loop_snoc _ line _ Hb).
    split; [apply flat_step_blank |].
    split; [intros rest; apply flat_step_agent |].
    split; [intros rest; apply flat_step_user |].
    split.
    + intros Hne Hun ->. now rewrite flat_step_unmarked.
    + intros Hne Hun previous Hlast. rewrite flat_step_unmarked, Hlast by assumption.
      split; [reflexivity |].
      destruct (flat_loop_total lines [] ltac:(constructor)) as (b & Hb' & Hparty).
      rewrite Hb in Hb'. injection Hb' as <-.
      apply opposite_two_party.
      unfold two_party in Hparty. rewrite Forall_forall in Hparty. apply Hparty.
      apply last_Some in Hlast as [l' ->]. apply elem_of_app. right. apply list_elem_of_singleton.
      reflexivity.
  - reflexivity.
Qed.

Lemma flat_aligner_rules_witness :
  CallTranscript.flat_loop ["Agent: hi"; "User: hello"] []
  = Some [{| speaker := "Agent"; text := "hi" |}; {| speaker := "User"; text := "hello" |}]
  /\ CallTranscript.flat_loop (["Agent: hi"; "User: hello"] ++ ["  bye "]) []
     = Some ([{| speaker := "Agent"; text := "hi" |}; {| speaker := "User"; text := "hello" |}]
             ++ [{| speaker := "Agent"; text := "bye" |}]).
Proof.
  split; [reflexivity |].
  destruct flat_aligner_rules as (_ & Hrules & _).
  destruct (Hrules ["Agent: hi"; "User: hello"] "  bye "
              [{| speaker := "Agent"; text := "hi" |}; {| speaker := "User"; text := "hello" |}]
              eq_refl) as (_ & _ & _ & _ & Hnext).
  destruct (Hnext ltac:(discriminate) eq_refl {| speaker := "User"; text := "hello" |} eq_refl)
    as [Hres _].
  exact Hres.
Defined.

(** ** The transcript endpoint *)

Section TranscriptProperties.
Context {db : Type} `{Store db}.
Variable json_loads : string -> option json.
Variable json_dumps : json -> string.
Variable py_str : json -> string.
Variable punctuation_model : punctuation_model_t.
Variable BLAND_API_KEY : option string.
Variable bland : bland_api.

Abbreviation get_call_transcript :=
  (CallTranscript.get_call_transcript json_loads json_dumps py_str punctuation_model
     BLAND_API_KEY bland).
Abbreviation stored_transcript := (CallTranscript.stored_transcript json_loads).
Abbreviation corrected_transcript :=
  (CallTranscript.corrected_transcript json_dumps py_str bland).
Abbreviation regular_transcript :=
  (CallTranscript.regular_transcript json_dumps punctuation_model bland).
Abbreviation read_detail := (CallTranscript.read_detail json_dumps punctuation_model).

(** The requests sent, and what was left of the table, by the block
    that answered. *)
Lemma endpoint_by_block (supabase : option db) (call_id : string)
    (user_id : option string) :
  get_call_transcript supabase call_id user_id
  = if negb (truthy_str BLAND_API_KEY)
    then (HTTPException 500 ApiKeyNotSet, supabase, [])
    else match stored_transcript supabase call_id user_id with
         | Some body => (Return body, supabase, [])
         | None =>
             match corrected_transcript supabase call_id user_id with
             | Some (body, supabase') =>
                 (Return body, supabase', [BlandGetCorrected call_id])
             | None =>
                 ((regular_transcript supabase call_id user_id).1,
                  (regular_transcript supabase call_id user_id).2,
                  [BlandGetCorrected call_id; BlandGetDetail call_id])
             end
         end.
Proof.
  unfold CallTranscript.get_call_transcript.
  destruct (negb (truthy_str BLAND_API_KEY)); [reflexivity |].
  destruct (stored_transcript _ _ _); [reflexivity |].
  destruct (corrected_transcript _ _ _) as [[body s]|]; [reflexivity |].
  now destruct (regular_transcript _ _ _).
Qed.

(** What the first block answers when it answers. *)
Lemma stored_transcript_inv (supabase : option db) (call_id : string)
    (user_id : option string) (body : transcript_response) :
  stored_transcript supabase call_id user_id = Some body ->
  exists d data loaded,
    supabase = Some d /\ truthy_str user_id = true
    /\ select_single d call_id = SelectData (Some data)
    /\ body = Success (row_transcript data) (AlignedCached loaded).
Proof.
  unfold CallTranscript.stored_transcript.
  destruct supabase as [d|]; [| discriminate].
  destruct (truthy_str user_id); [| discriminate].
  destruct (select_single d call_id) as [|[data|]] eqn:Hsel; try discriminate.
  destruct (truthy_str (row_aligned_transcript data)).
  - destruct (json_loads _) as [loaded|]; [| discriminate].
    intros [= <-]. exists d, data, (Some loaded). auto.
  - intros [= <-]. exists d, data, None. auto.
Qed.


(** Without a usable [user_id] the stored transcript is never looked
    up. *)
Lemma anonymous_skips_cache (supabase : option db) (call_id : string)
    (user_id : option string) :
  truthy_str user_id = false -> stored_transcript supabase call_id user_id = None.
Proof.
  intros Huser. unfold CallTranscript.stored_transcript. rewrite Huser.
  now destruct supabase.
Qed.

Lemma pending_or_unavailable_spec (data : json) :
  CallTranscript.pending_or_unavailable data
  = match data with
    | JDict _ => Some (if in_progress data then Pending else Unavailable)
    | _ => None
    end.
Proof.
  destruct data as [| b | n | s | items | fields]; try reflexivity.
  unfold CallTranscript.pending_or_unavailable, in_progress, detail_field, segment_field.
  cbn [py_get mbind option_bind].
  destruct (py_eq_str (default JNull (dict_get "status" fields)) "in-progress");
    reflexivity.
Qed.

(** What the third block does with a decoded call detail. *)
Lemma read_detail_spec (supabase : option db) (user_id : option string) (data : json) :
  read_detail supabase user_id data
  = if detail_raises data then None
    else if json_truthy (detail_field "transcript_aligned" data)
    then match detail_field "transcript_aligned" data with
         | JList segments =>
             let us := map detail_as_utterance (List.filter segment_has_text segments) in
             Some (Success (Some (render us)) (AlignedBuilt us),
                   CallTranscript.save_transcript supabase user_id insert
                     (built_row json_dumps (detail_field "call_id" data) user_id
                        (render us) us))
         | _ => None
         end
    else if json_truthy (detail_field "transcript" data)
    then match detail_field "transcript" data with
         | JStr transcript =>
             let improved :=
               improve_transcript_readability punctuation_model transcript in
             match CallTranscript.flat_loop (Py.split Py.newline improved) [] with
             | Some ((_ :: _) as us) =>
                 Some (Success (Some improved) (AlignedBuilt us),
                       CallTranscript.save_transcript supabase user_id insert
                         (built_row json_dumps (detail_field "call_id" data) user_id
                            improved us))
             | _ => Some (if in_progress data then Pending else Unavailable, supabase)
             end
         | _ => None
         end
    else Some (if in_progress data then Pending else Unavailable, supabase).
Proof.
  destruct data as [| b | n | s | items | fields]; try reflexivity.
  unfold CallTranscript.read_detail. rewrite pending_or_unavailable_spec.
  unfold detail_raises, detail_field, segment_field.
  cbn [py_get py_get_or mbind option_bind].
  destruct (dict_get "transcript_aligned" fields) as [aligned|];
    cbn [default from_option id].
  - destruct (json_truthy aligned) eqn:Htruthy.
    + destruct (py_iter aligned) as [segments|] eqn:Hiter; cbn [mbind option_bind].
      * rewrite detail_loop_spec.
        destruct (forallb segment_ok segments) eqn:Hok.
        -- rewrite (iterated_segments_list aligned segments Htruthy Hiter Hok).
           rewrite Hok. reflexivity.
        -- destruct aligned as [| b | n | s | items | fields']; try reflexivity.
           cbn in Hiter. injection Hiter as ->. rewrite Hok. reflexivity.
      * destruct aligned as [| b | n | s | items | fields']; try discriminate;
          reflexivity.
    + destruct (dict_get "transcript" fields) as [transcript|];
        cbn [default from_option id]; [| reflexivity].
      destruct (json_truthy transcript); [| reflexivity].
      destruct transcript as [| b | n | s | items | fields']; reflexivity.
  - cbn [json_truthy].
    destruct (dict_get "transcript" fields) as [transcript|];
      cbn [default from_option id]; [| reflexivity].
    destruct (json_truthy transcript); [| reflexivity].
    destruct transcript as [| b | n | s | items | fields']; reflexivity.
Qed.

Lemma regular_transcript_read (supabase : option db) (call_id : string)
    (user_id : option string) (resp : response json) (data : json) :
  get_detail bland call_id = Some resp -> ok resp = true -> resp_json resp = Some data ->
  regular_transcript supabase call_id user_id
  = match read_detail supabase user_id data with
    | Some (body, supabase') => (Return body, supabase')
    | None => (HTTPException 500 (ErrorGettingTranscript PayloadRaised), supabase)
    end.
Proof.
  intros Hget Hok Hjson. unfold CallTranscript.regular_transcript.
  now rewrite Hget, Hok, Hjson.
Qed.

(** A decoded call detail raises, resolves to nothing, or resolves to a
    sequence the endpoint builds, and these exclude one another. *)
Lemma read_detail_cases (supabase : option db) (user_id : option string) (data : json) :
  (detail_raises data = true /\ detail_unresolved punctuation_model data = false
   /\ read_detail supabase user_id data = None)
  \/ (detail_raises data = false /\ detail_unresolved punctuation_model data = true
      /\ read_detail supabase user_id data
         = Some (if in_progress data then Pending else Unavailable, supabase))
  \/ (detail_raises data = false /\ detail_unresolved punctuation_model data = false
      /\ exists t us,
           read_detail supabase user_id data
           = Some (Success (Some t) (AlignedBuilt us),
                   CallTranscript.save_transcript supabase user_id insert
                     (built_row json_dumps (detail_field "call_id" data) user_id t us))).
Proof.
  rewrite read_detail_spec.
  destruct data as [| b | n | s | items | fields]; try (left; repeat split; reflexivity).
  unfold detail_raises, detail_unresolved.
  destruct (json_truthy (detail_field "transcript_aligned" (JDict fields))).
  - destruct (detail_field "transcript_aligned" (JDict fields))
      as [| b | n | s | segments | fields']; try (left; repeat split; reflexivity).
    destruct (forallb segment_ok segments); cbn [negb andb].
    + right. right. repeat split. eauto.
    + left. repeat split.
  - cbn [negb andb].
    destruct (json_truthy (detail_field "transcript" (JDict fields)));
      [| right; left; repeat split].
    destruct (detail_field "transcript" (JDict fields))
      as [| b | n | transcript | items | fields']; try (left; repeat split; reflexivity).
    cbv zeta.
    destruct (CallTranscript.flat_loop _ []) as [[|u us]|].
    + right. left. repeat split.
    + right. right. repeat split. eauto.
    + right. left. repeat split.
Qed.

(** What the third block answers, by the shape of the call detail. *)
Lemma regular_transcript_failed (supabase : option db) (call_id : string)
    (user_id : option string) :
  get_detail bland call_id = None
  \/ (exists resp, get_detail bland call_id = Some resp
                   /\ (ok resp = false \/ resp_json resp = None)) ->
  exists cause,
    cause <> PayloadRaised
    /\ regular_transcript supabase call_id user_id
       = (HTTPException 500 (ErrorGettingTranscript cause), supabase).
Proof.
  unfold CallTranscript.regular_transcript.
  intros [-> | (resp & -> & [Hok | Hjson])].
  - exists RequestRaised. split; [discriminate | reflexivity].
  - rewrite Hok. cbn. eexists. split; [| reflexivity]. discriminate.
  - destruct (ok resp); cbn [negb]; [rewrite Hjson |];
      (eexists; split; [| reflexivity]; discriminate).
Qed.

Lemma regular_transcript_raises (supabase : option db) (call_id : string)
    (user_id : option string) (resp : response json) (data : json) :
  get_detail bland call_id = Some resp -> ok resp = true -> resp_json resp = Some data ->
  detail_raises data = true ->
  regular_transcript supabase call_id user_id
  = (HTTPException 500 (ErrorGettingTranscript PayloadRaised), supabase).
Proof.
  intros Hget Hok Hjson Hraises.
  rewrite (regular_transcript_read supabase call_id user_id resp data Hget Hok Hjson).
  destruct (read_detail_cases supabase user_id data)
    as [(_ & _ & ->) | [(Hno & _) | (Hno & _)]]; [reflexivity | congruence | congruence].
Qed.

Lemma regular_transcript_unresolved (supabase : option db) (call_id : string)
    (user_id : option string) (resp : response json) (data : json) :
  get_detail bland call_id = Some resp -> ok resp = true -> resp_json resp = Some data ->
  detail_unresolved punctuation_model data = true ->
  regular_transcript supabase call_id user_id
  = (Return (if in_progress data then Pending else Unavailable), supabase).
Proof.
  intros Hget Hok Hjson Hun.
  rewrite (regular_transcript_read supabase call_id user_id resp data Hget Hok Hjson).
  destruct (read_detail_cases supabase user_id data)
    as [(_ & Hno & _) | [(_ & _ & ->) | (_ & Hno & _)]];
    [congruence | reflexivity | congruence].
Qed.

Lemma regular_transcript_resolved (supabase : option db) (call_id : string)
    (user_id : option string) (resp : response json) (data : json) :
  get_detail bland call_id = Some resp -> ok resp = true -> resp_json resp = Some data ->
  detail_raises data = false -> detail_unresolved punctuation_model data = false ->
  exists t us,
    regular_transcript supabase call_id user_id
    = (Return (Success (Some t) (AlignedBuilt us)),
       CallTranscript.save_transcript supabase user_id insert
         (built_row json_dumps (detail_field "call_id" data) user_id t us)).
Proof.
  intros Hget Hok Hjson Hraises Hun.
  rewrite (regular_transcript_read supabase call_id user_id resp data Hget Hok Hjson).
  destruct (read_detail_cases supabase user_id data)
    as [(Hno & _) | [(_ & Hno & _) | (_ & _ & t & us & ->)]];
    [congruence | congruence | eauto].
Qed.

(** The third block answers a success body, a pending body, an
    unavailable body or an HTTP 500 error; the pending body exactly for
    an unresolved detail of a running call, and the error of a payload
    that raises exactly for a detail whose reading raises. *)
Lemma regular_transcript_cases (supabase : option db) (call_id : string)
    (user_id : option string) :
  let r := (regular_transcript supabase call_id user_id).1 in
  ((exists t a, r = Return (Success t a)) \/ r = Return Pending \/ r = Return Unavailable
   \/ exists cause, r = HTTPException 500 (ErrorGettingTranscript cause))
  /\ (r = Return Pending
      <-> exists resp data,
            get_detail bland call_id = Some resp /\ ok resp = true
            /\ resp_json resp = Some data
            /\ detail_unresolved punctuation_model data = true
            /\ in_progress data = true)
  /\ (r = HTTPException 500 (ErrorGettingTranscript PayloadRaised)
      <-> exists resp data,
            get_detail bland call_id = Some resp /\ ok resp = true
            /\ resp_json resp = Some data /\ detail_raises data = true).
Proof.
  cbv zeta.
  assert (Hfailed : forall cause,
             cause <> PayloadRaised ->
             regular_transcript supabase call_id user_id
             = (HTTPException 500 (ErrorGettingTranscript cause), supabase) ->
             (forall resp data,
                 get_detail bland call_id = Some resp -> ok resp = true ->
                 resp_json resp = Some data -> False) ->
             ((exists t a, (regular_transcript supabase call_id user_id).1
                           = Return (Success t a))
              \/ (regular_transcript supabase call_id user_id).1 = Return Pending
              \/ (regular_transcript supabase call_id user_id).1 = Return Unavailable
              \/ exists cause0, (regular_transcript supabase call_id user_id).1
                                = HTTPException 500 (ErrorGettingTranscript cause0))
             /\ ((regular_transcript supabase call_id user_id).1 = Return Pending
                 <-> exists resp data,
                       get_detail bland call_id = Some resp /\ ok resp = true
                       /\ resp_json resp = Some data
                       /\ detail_unresolved punctuation_model data = true
                       /\ in_progress data = true)
             /\ ((regular_transcript supabase call_id user_id).1
                 = HTTPException 500 (ErrorGettingTranscript PayloadRaised)
                 <-> exists resp data,
                       get_detail bland call_id = Some resp /\ ok resp = true
                       /\ resp_json resp = Some data /\ detail_raises data = true)).
  { intros cause Hcause -> Hnone. cbn [fst].
    split; [eauto 6 |]. split.
    - split; [discriminate |].
      intros (resp & data & Hg & Ho & Hj & _). exfalso. eauto.
    - split; [intros [= Hc]; now contradiction Hcause |].
      intros (resp & data & Hg & Ho & Hj & _). exfalso. eauto. }
  destruct (get_detail bland call_id) as [resp|] eqn:Hget.
  2: { destruct (regular_transcript_failed supabase call_id user_id (or_introl Hget))
         as (cause & Hcause & Hreg).
       apply (Hfailed cause Hcause Hreg). intros ? ? Hg. discriminate Hg. }
  destruct (ok resp) eqn:Hok.
  2: { destruct (regular_transcript_failed supabase call_id user_id)
         as (cause & Hcause & Hreg); [right; eauto |].
       apply (Hfailed cause Hcause Hreg). intros ? ? [= <-]. congruence. }
  destruct (resp_json resp) as [data|] eqn:Hjson.
  2: { destruct (regular_transcript_failed supabase call_id user_id)
         as (cause & Hcause & Hreg); [right; eauto |].
       apply (Hfailed cause Hcause Hreg). intros ? ? [= <-] _. congruence. }
  clear Hfailed.
  assert (Hsame : forall resp0 data0,
             Some resp = Some resp0 -> resp_json resp0 = Some data0 -> data0 = data).
  { intros resp0 data0 [= <-] Hj. congruence. }
  destruct (detail_raises data) eqn:Hraises.
  { rewrite (regular_transcript_raises supabase call_id user_id resp data)
      by assumption.
    cbn [fst]. split; [eauto 6 |]. split.
    - split; [discriminate |].
      intros (resp0 & data0 & Hg & _ & Hj & Hun & _).
      rewrite (Hsame _ _ Hg Hj) in Hun.
      destruct (read_detail_cases supabase user_id data)
        as [(_ & Hno & _) | [(Hno & _) | (Hno & _)]]; congruence.
    - split; [intros _; exists resp, data; auto | reflexivity]. }
  destruct (detail_unresolved punctuation_model data) eqn:Hun.
  - rewrite (regular_transcript_unresolved supabase call_id user_id resp data)
      by assumption.
    cbn [fst]. split; [destruct (in_progress data); auto |]. split.
    + destruct (in_progress data) eqn:Hin.
      * split; [intros _; exists resp, data; auto | reflexivity].
      * split; [discriminate |].
        intros (resp0 & data0 & Hg & _ & Hj & _ & Hin0).
        rewrite (Hsame _ _ Hg Hj) in Hin0. congruence.
    + split; [destruct (in_progress data); discriminate |].
      intros (resp0 & data0 & Hg & _ & Hj & Hr).
      rewrite (Hsame _ _ Hg Hj) in Hr. congruence.
  - destruct (regular_transcript_resolved supabase call_id user_id resp data)
      as (t & us & ->); try assumption.
    cbn [fst]. split; [eauto |]. split.
    + split; [discriminate |].
      intros (resp0 & data0 & Hg & _ & Hj & Hun0 & _).
      rewrite (Hsame _ _ Hg Hj) in Hun0. congruence.
    + split; [discriminate |].
      intros (resp0 & data0 & Hg & _ & Hj & Hr).
      rewrite (Hsame _ _ Hg Hj) in Hr. congruence.
Qed.

(** What the second block answers when it answers. *)
Lemma corrected_transcript_inv (supabase supabase' : option db) (call_id : string)
    (user_id : option string) (body : transcript_response) :
  corrected_transcript supabase call_id user_id = Some (body, supabase') ->
  exists resp corrected_data segments,
    get_corrected bland call_id = Some resp /\ ok resp = true
    /\ resp_json resp = Some corrected_data
    /\ py_get corrected_data "aligned" = Some (JList segments) /\ segments <> []
    /\ forallb segment_ok segments = true
    /\ let flat :=
         render (map (segment_trimmed py_str) (List.filter segment_has_text segments)) in
       body = Success (Some flat) (AlignedProvider (JList segments))
       /\ supabase' = CallTranscript.save_transcript supabase user_id upsert
                        (corrected_row json_dumps call_id user_id flat (JList segments)).
Proof.
  unfold CallTranscript.corrected_transcript.
  destruct (get_corrected bland call_id) as [resp|]; [| discriminate].
  destruct (ok resp) eqn:Hok; [| discriminate].
  destruct (resp_json resp) as [cd|] eqn:Hjson; [| discriminate].
  cbn [mbind option_bind].
  destruct (py_get cd "aligned") as [aligned|] eqn:Hal; [| discriminate].
  cbn [mbind option_bind].
  destruct (json_truthy aligned) eqn:Htruthy; [| discriminate].
  destruct (py_iter aligned) as [segments|] eqn:Hiter; [| discriminate].
  cbn [mbind option_bind]. rewrite corrected_loop_spec.
  destruct (forallb segment_ok segments) eqn:Hsegs; [| discriminate].
  cbn [mbind option_bind String.append].
  pose proof (iterated_segments_list aligned segments Htruthy Hiter Hsegs) as ->.
  intros [= <- <-]. exists resp, cd, segments.
  split; [reflexivity |]. split; [exact Hok |]. split; [exact Hjson |].
  split; [exact Hal |].
  split; [intros ->; discriminate Htruthy |].
  split; [exact Hsegs |]. split; reflexivity.
Qed.

(** When the second block answers. *)
Lemma corrected_transcript_served (supabase : option db) (call_id : string)
    (user_id : option string) (resp : response json) (corrected_data : json)
    (segments : list json) :
  get_corrected bland call_id = Some resp -> ok resp = true ->
  resp_json resp = Some corrected_data ->
  py_get corrected_data "aligned" = Some (JList segments) -> segments <> [] ->
  corrected_transcript supabase call_id user_id
  = if forallb segment_ok segments
    then let flat :=
           render (map (segment_trimmed py_str)
                     (List.filter segment_has_text segments)) in
         Some (Success (Some flat) (AlignedProvider (JList segments)),
               CallTranscript.save_transcript supabase user_id upsert
                 (corrected_row json_dumps call_id user_id flat (JList segments)))
    else None.
Proof.
  intros Hget Hok Hjson Hal Hne. unfold CallTranscript.corrected_transcript.
  rewrite Hget, Hok, Hjson. cbn [mbind option_bind]. rewrite Hal.
  cbn [mbind option_bind].
  destruct segments as [|seg segments]; [contradiction |].
  cbn [json_truthy py_iter mbind option_bind]. rewrite corrected_loop_spec.
  destruct (forallb segment_ok (seg :: segments)); reflexivity.
Qed.

(** What the third block answers when it answers a success body. *)
Lemma regular_transcript_inv (supabase supabase' : option db) (call_id : string)
    (user_id : option string) (t : option string) (a : aligned_payload) :
  regular_transcript supabase call_id user_id = (Return (Success t a), supabase') ->
  exists resp data us flat,
    get_detail bland call_id = Some resp /\ ok resp = true /\ resp_json resp = Some data
    /\ detail_raises data = false
    /\ a = AlignedBuilt us /\ t = Some flat
    /\ (if json_truthy (detail_field "transcript_aligned" data)
        then exists segments,
               detail_field "transcript_aligned" data = JList segments
               /\ forallb segment_ok segments = true
               /\ us = map detail_as_utterance (List.filter segment_has_text segments)
               /\ flat = render us
        else exists transcript,
               detail_field "transcript" data = JStr transcript
               /\ flat = improve_transcript_readability punctuation_model transcript
               /\ CallTranscript.flat_loop (Py.split Py.newline flat) [] = Some us
               /\ us <> [])
    /\ supabase' = CallTranscript.save_transcript supabase user_id insert
                     (built_row json_dumps (detail_field "call_id" data) user_id flat us).
Proof.
  unfold CallTranscript.regular_transcript.
  destruct (get_detail bland call_id) as [resp|]; [| discriminate].
  destruct (ok resp) eqn:Hok; cbn [negb]; [| discriminate].
  destruct (resp_json resp) as [data|] eqn:Hjson; [| discriminate].
  rewrite read_detail_spec.
  destruct (detail_raises data) eqn:Hraises; [discriminate |].
  destruct (json_truthy (detail_field "transcript_aligned" data)) eqn:Haligned.
  - destruct (detail_field "transcript_aligned" data)
      as [| b | n | s | segments | fields] eqn:Hfield; try discriminate.
    cbv zeta. intros [= <- <- <-].
    exists resp, data. do 2 eexists.
    split; [reflexivity |]. split; [exact Hok |]. split; [exact Hjson |].
    split; [exact Hraises |]. split; [reflexivity |]. split; [reflexivity |].
    rewrite Hfield, Haligned. split; [| reflexivity].
    exists segments. split; [reflexivity |]. split; [| split; reflexivity].
    revert Hraises. unfold detail_raises.
    destruct data as [| b | n | s | items | fields]; try discriminate.
    rewrite Hfield, Haligned. now destruct (forallb segment_ok segments).
  - destruct (json_truthy (detail_field "transcript" data)) eqn:Htranscript.
    2: { destruct (in_progress data); discriminate. }
    destruct (detail_field "transcript" data)
      as [| b | n | transcript | items | fields] eqn:Hfield; try discriminate.
    cbv zeta.
    destruct (CallTranscript.flat_loop _ []) as [[|u us]|] eqn:Hflat;
      try (destruct (in_progress data); discriminate).
    intros [= <- <- <-].
    exists resp, data. do 2 eexists.
    split; [reflexivity |]. split; [exact Hok |]. split; [exact Hjson |].
    split; [exact Hraises |]. split; [reflexivity |]. split; [reflexivity |].
    rewrite Haligned. split; [| reflexivity].
    exists transcript. split; [exact Hfield |]. split; [reflexivity |].
    split; [exact Hflat | discriminate].
Qed.

(** The third block raises with [cause] exactly when the call-detail
    request fails with it. *)
Lemma regular_transcript_error (supabase : option db) (call_id : string)
    (user_id : option string) (cause : transcript_failure) :
  (regular_transcript supabase call_id user_id).1
  = HTTPException 500 (ErrorGettingTranscript cause)
  <-> detail_failure bland call_id cause.
Proof.
  destruct (regular_transcript_cases supabase call_id user_id) as (_ & _ & Hpayload).
  cbv zeta in Hpayload.
  destruct cause as [| | status body |]; [| | | exact Hpayload]; clear Hpayload;
    unfold CallTranscript.regular_transcript, detail_failure;
    (destruct (get_detail bland call_id) as [resp|];
     [destruct (ok resp) eqn:Hok; cbn [negb];
      [destruct (resp_json resp) as [data|] eqn:Hjson;
       [destruct (read_detail supabase user_id data) as [[body' s]|] |] |] |]);
    cbn [fst].
  all: split; try discriminate; try reflexivity.
  all: try (intros (resp0 & [= <-] & Hrest); destruct Hrest as (H1 & H2); congruence).
  all: try (intros [= <- <-]; exists resp; auto).
  all: try (intros _; exists resp; auto).
  all: try (intros (resp0 & [= <-] & _ & -> & ->); reflexivity).
Qed.

(** C7, as amended.  A request ends in one of four ways: a success
    body, a pending body, an unavailable body (status [error]), or an
    HTTP 500 error.  The error has one of five causes: no API key; or,
    with nothing served from the table or the corrected transcript, the
    call-detail request raised, was refused, did not decode, or gave a
    body whose reading raises (a detail that is no dictionary, an
    aligned transcript that is no list of dictionaries with string
    texts, a flat transcript that is no string).  The pending body is
    the answer exactly when the key is set, nothing was served from the
    table or from the corrected transcript, the call detail arrived, its
    reading does not raise and resolves to no transcript, and it reports
    status [in-progress] or [completed] false.  Its status differs from
    those of the other two bodies. *)
Theorem transcript_outcomes (supabase : option db) (call_id : string)
    (user_id : option string) :
  let r := (get_call_transcript supabase call_id user_id).1.1 in
  ((exists t a, r = Return (Success t a)) \/ r = Return Pending \/ r = Return Unavailable
   \/ r = HTTPException 500 ApiKeyNotSet
   \/ exists cause, r = HTTPException 500 (ErrorGettingTranscript cause))
  /\ (r = HTTPException 500 ApiKeyNotSet <-> truthy_str BLAND_API_KEY = false)
  /\ (forall cause,
        r = HTTPException 500 (ErrorGettingTranscript cause)
        <-> truthy_str BLAND_API_KEY = true
            /\ stored_transcript supabase call_id user_id = None
            /\ corrected_transcript supabase call_id user_id = None
            /\ detail_failure bland call_id cause)
  /\ (r = Return Pending
      <-> truthy_str BLAND_API_KEY = true
          /\ stored_transcript supabase call_id user_id = None
          /\ corrected_transcript supabase call_id user_id = None
          /\ exists resp data,
               get_detail bland call_id = Some resp /\ ok resp = true
               /\ resp_json resp = Some data
               /\ detail_raises data = false
               /\ detail_unresolved punctuation_model data = true
               /\ in_progress data = true)
  /\ (forall t a, response_status Pending <> response_status (Success t a))
  /\ response_status Pending <> response_status Unavailable.
Proof.
  cbv zeta. rewrite endpoint_by_block.
  destruct (regular_transcript_cases supabase call_id user_id) as (Hshape & Hpending & _).
  cbv zeta in Hshape, Hpending.
  pose proof (regular_transcript_error supabase call_id user_id) as Herror.
  destruct (truthy_str BLAND_API_KEY); cbn [negb].
  2: { cbn. split; [auto 6 |]. split; [split; reflexivity |].
       split; [intros cause; split; [discriminate | intros [? _]; discriminate] |].
       split; [split; [discriminate | intros [? _]; discriminate] |].
       split; discriminate. }
  destruct (stored_transcript supabase call_id user_id) as [body|] eqn:Hstored.
  { destruct (stored_transcript_inv _ _ _ _ Hstored) as (d & data & loaded & _ & _ & _ & ->).
    cbn. split; [eauto 6 |]. split; [split; discriminate |].
    split; [intros cause; split; [discriminate | intros (_ & ? & _); discriminate] |].
    split; [split; [discriminate | intros (_ & ? & _); discriminate] |].
    split; discriminate. }
  destruct (corrected_transcript supabase call_id user_id) as [[body s]|] eqn:Hcorr.
  { destruct (corrected_transcript_inv _ _ _ _ _ Hcorr)
      as (resp & cd & segments & _ & _ & _ & _ & _ & _ & Hbody).
    cbv zeta in Hbody. destruct Hbody as [-> _].
    cbn. split; [eauto 6 |]. split; [split; discriminate |].
    split; [intros cause; split; [discriminate | intros (_ & _ & ? & _); discriminate] |].
    split; [split; [discriminate | intros (_ & _ & ? & _); discriminate] |].
    split; discriminate. }
  cbn [fst snd].
  split; [destruct Hshape as [? | [? | [? | ?]]]; auto 6 |].
  split.
  { split; [| discriminate].
    intros Hr. rewrite Hr in Hshape.
    destruct Hshape as [(? & ? & ?) | [? | [? | (? & ?)]]]; discriminate. }
  split.
  { intros cause. rewrite Herror. split; [auto | intros (_ & _ & _ & Hd); exact Hd]. }
  split; [| split; discriminate].
  rewrite Hpending. split.
  - intros (resp & data & Hget & Hok & Hjson & Hun & Hin).
    repeat (split; [reflexivity |]). exists resp, data.
    repeat (split; [assumption |]). split; [| auto].
    destruct (read_detail_cases supabase user_id data)
      as [(_ & Hno & _) | [(Hyes & _) | (_ & Hno & _)]]; congruence.
  - intros (_ & _ & _ & resp & data & Hget & Hok & Hjson & _ & Hun & Hin).
    exists resp, data. auto.
Qed.

Lemma clean_segments_render (segments : list json) :
  forallb segment_clean segments = true ->
  map (segment_trimmed py_str) (List.filter segment_has_text segments)
  = map (segment_as_utterance py_str) segments.
Proof.
  induction segments as [|seg segments IH]; [reflexivity |].
  cbn [forallb List.filter map]. intros Hall.
  apply andb_prop in Hall as [Hseg Hall]. unfold segment_clean in Hseg.
  apply andb_prop in Hseg as [Htext Htrim]. rewrite Htext. cbn [map].
  rewrite (IH Hall). f_equal.
  unfold segment_trimmed, segment_as_utterance.
  apply String.eqb_eq in Htrim. now rewrite Htrim.
Qed.

(** C2, as amended.  For a transcript resolved from a live source:
    from the aligned field of the call detail, the flat string is the
    concatenation of [speaker: text] lines over the returned sequence;
    from the corrected transcript, it is that concatenation over the
    returned segments that have text, with the text trimmed, hence over
    the whole returned list when every segment is already trimmed and
    not empty; from the flat field, it is the normalizer's output, from
    whose lines the returned sequence is built.  What goes to the table
    is fixed as well: the corrected transcript is upserted, a built
    sequence inserted, in a row that carries the returned flat string
    and the encoding of the returned sequence; the table afterwards is
    what that one write leaves (the table as it was when there is no
    client, no user id, or the write raises). *)
Theorem flat_string_and_sequence (supabase supabase' : option db) (call_id : string)
    (user_id : option string) (t : option string) (a : aligned_payload)
    (trace : list effect) :
  get_call_transcript supabase call_id user_id = (Return (Success t a), supabase', trace) ->
  trace <> [] ->
  match a with
  | AlignedProvider aligned =>
      exists segments flat,
        aligned = JList segments /\ t = Some flat
        /\ flat = render (map (segment_trimmed py_str)
                            (List.filter segment_has_text segments))
        /\ (forallb segment_clean segments = true -> t = render_aligned py_str a)
        /\ supabase' = CallTranscript.save_transcript supabase user_id upsert
                         (corrected_row json_dumps call_id user_id flat aligned)
  | AlignedBuilt us =>
      exists resp data flat,
        get_detail bland call_id = Some resp /\ resp_json resp = Some data
        /\ t = Some flat
        /\ (if json_truthy (detail_field "transcript_aligned" data)
            then t = render_aligned py_str a
            else exists transcript,
                   detail_field "transcript" data = JStr transcript
                   /\ flat = improve_transcript_readability punctuation_model transcript
                   /\ CallTranscript.flat_loop (Py.split Py.newline flat) [] = Some us)
        /\ supabase' = CallTranscript.save_transcript supabase user_id insert
                         (built_row json_dumps (detail_field "call_id" data) user_id
                            flat us)
  | AlignedCached _ => False
  end.
Proof.
  rewrite endpoint_by_block.
  destruct (truthy_str BLAND_API_KEY); cbn [negb]; [| discriminate].
  destruct (stored_transcript supabase call_id user_id) as [body|].
  { intros [= _ _ <-] Htrace. now contradiction Htrace. }
  destruct (corrected_transcript supabase call_id user_id) as [[body s]|] eqn:Hcorr.
  { intros [= -> -> <-] _.
    apply corrected_transcript_inv in Hcorr
      as (resp & cd & segments & _ & _ & _ & _ & _ & _ & Hbody).
    cbv zeta in Hbody. destruct Hbody as [[= -> ->] ->].
    exists segments. eexists. split; [reflexivity |]. split; [reflexivity |].
    split; [reflexivity |]. split; [| reflexivity].
    intros Hclean. cbn [render_aligned]. now rewrite clean_segments_render. }
  destruct (regular_transcript supabase call_id user_id) as [r s] eqn:Hreg.
  cbn [fst snd]. intros [= -> -> <-] _.
  apply regular_transcript_inv in Hreg
    as (resp & data & us & flat & Hget & _ & Hjson & _ & -> & -> & Hshape & ->).
  exists resp, data, flat. split; [exact Hget |]. split; [exact Hjson |].
  split; [reflexivity |]. split; [| reflexivity].
  destruct (json_truthy (detail_field "transcript_aligned" data)).
  - destruct Hshape as (segments & _ & _ & _ & ->). reflexivity.
  - destruct Hshape as (transcript & Hfield & Hflat & Hloop & _). eauto.
Qed.

(** C5, as amended.  When the call detail carries aligned segments, the
    returned sequence consists of exactly the segments whose trimmed
    text is not empty, in order: it is no longer than the input, and as
    long exactly when no segment is blank.  (A list with a segment that
    is no dictionary, or whose text is no string, gives no sequence but
    an HTTP 500 error.)  The corrected transcript, in contrast, is
    returned as the provider sent it. *)
Theorem aligned_field_drops_blank_segments (supabase : option db) (call_id : string)
    (user_id : option string) :
  (forall resp data segments,
      truthy_str BLAND_API_KEY = true ->
      stored_transcript supabase call_id user_id = None ->
      corrected_transcript supabase call_id user_id = None ->
      get_detail bland call_id = Some resp -> ok resp = true ->
      resp_json resp = Some data ->
      py_get data "transcript_aligned" = Some (JList segments) -> segments <> [] ->
      let us := map detail_as_utterance (List.filter segment_has_text segments) in
      (get_call_transcript supabase call_id user_id).1.1
      = (if forallb segment_ok segments
         then Return (Success (Some (render us)) (AlignedBuilt us))
         else HTTPException 500 (ErrorGettingTranscript PayloadRaised))
      /\ (length us <= length segments)%nat
      /\ (length us = length segments
          <-> forall seg, In seg segments -> segment_has_text seg = true))
  /\ (forall resp corrected_data segments,
        truthy_str BLAND_API_KEY = true ->
        stored_transcript supabase call_id user_id = None ->
        get_corrected bland call_id = Some resp -> ok resp = true ->
        resp_json resp = Some corrected_data ->
        py_get corrected_data "aligned" = Some (JList segments) -> segments <> [] ->
        forallb segment_ok segments = true ->
        exists t,
          (get_call_transcript supabase call_id user_id).1.1
          = Return (Success t (AlignedProvider (JList segments)))).
Proof.
  split.
  - intros resp data segments Hkey Hstored Hcorr Hget Hok Hjson Hal Hne us.
    split; [| split].
    + rewrite endpoint_by_block, Hkey, Hstored, Hcorr. cbn [negb fst].
      rewrite (regular_transcript_read supabase call_id user_id resp data Hget Hok Hjson).
      rewrite read_detail_spec.
      destruct data as [| b | n | s | items | fields]; try discriminate.
      injection Hal as Hal.
      assert (Hfield : detail_field "transcript_aligned" (JDict fields) = JList segments)
        by exact Hal.
      unfold detail_raises. rewrite Hfield.
      destruct segments as [|seg segments]; [contradiction |].
      cbn [json_truthy].
      destruct (forallb segment_ok (seg :: segments)); reflexivity.
    + subst us. rewrite length_map. apply filter_length_le.
    + subst us. rewrite length_map. apply filter_all_length.
  - intros resp cd segments Hkey Hstored Hget Hok Hjson Hal Hne Hsegs.
    rewrite endpoint_by_block, Hkey, Hstored. cbn [negb].
    rewrite (corrected_transcript_served supabase call_id user_id resp cd segments)
      by assumption.
    rewrite Hsegs. cbv zeta. eexists. reflexivity.
Qed.

End TranscriptProperties.
(** ** The endpoint on the sample environments *)

Example flat_field_example :
  CallTranscript.get_call_transcript Sample.no_loads Sample.tag_dumps Sample.tag_str None
    (Some "key") Sample.flat_provider (Some Sample.table) "c2" (Some "u1")
  = (Return (Success (Some (String.append "Hello there." (String.append Py.nl "How are you?")))
               (AlignedBuilt [{| speaker := "Agent"; text := "Hello there." |};
                              {| speaker := "User"; text := "How are you?" |}])),
     Some (Sample.table
           ++ [{| row_call_id := JStr "c1"; row_user_id := Some "u1";
                  row_transcript :=
                    Some (String.append "Hello there." (String.append Py.nl "How are you?"));
                  row_aligned_transcript := Some "json" |}]),
     [BlandGetCorrected "c2"; BlandGetDetail "c2"]).
Proof. reflexivity. Qed.

Example aligned_field_example :
  CallTranscript.get_call_transcript Sample.no_loads Sample.tag_dumps Sample.tag_str None
    (Some "key") Sample.aligned_provider (None : option (list transcript_row)) "c1" None
  = (Return (Success (Some (String.append "Agent: hi" (String.append Py.nl
                              (String.append "User: yes" Py.nl))))
               (AlignedBuilt [{| speaker := "Agent"; text := "hi" |};
                              {| speaker := "User"; text := "yes" |}])),
     None, [BlandGetCorrected "c1"; BlandGetDetail "c1"]).
Proof. reflexivity. Qed.

(** The same call asked about by a user, with the table at hand. *)
Example aligned_field_stored_example :
  CallTranscript.get_call_transcript Sample.no_loads Sample.tag_dumps Sample.tag_str None
    (Some "key") Sample.aligned_provider (Some Sample.table) "c2" (Some "u1")
  = (Return (Success (Some (String.append "Agent: hi" (String.append Py.nl
                              (String.append "User: yes" Py.nl))))
               (AlignedBuilt [{| speaker := "Agent"; text := "hi" |};
                              {| speaker := "User"; text := "yes" |}])),
     Some (Sample.table
           ++ [{| row_call_id := JStr "c1"; row_user_id := Some "u1";
                  row_transcript :=
                    Some (String.append "Agent: hi" (String.append Py.nl
                            (String.append "User: yes" Py.nl)));
                  row_aligned_transcript := Some "json" |}]),
     [BlandGetCorrected "c2"; BlandGetDetail "c2"]).
Proof. reflexivity. Qed.

Example corrected_example :
  CallTranscript.get_call_transcript Sample.no_loads Sample.tag_dumps Sample.tag_str None
    (Some "key") Sample.corrected_provider (None : option (list transcript_row)) "c1" None
  = (Return (Success (Some (String.append "user: hello" Py.nl))
               (AlignedProvider (JList Sample.corrected_segments))),
     None, [BlandGetCorrected "c1"]).
Proof. reflexivity. Qed.

Example cached_example :
  CallTranscript.get_call_transcript Sample.no_loads Sample.tag_dumps Sample.tag_str None
    (Some "key") Sample.unreachable_provider (Some Sample.table) "c1" (Some "u2")
  = (Return (Success (Some "Agent: hi") (AlignedCached None)), Some Sample.table, []).
Proof. reflexivity. Qed.

Example pending_example :
  CallTranscript.get_call_transcript Sample.no_loads Sample.tag_dumps Sample.tag_str None
    (Some "key") Sample.running_provider (None : option (list transcript_row)) "c1" None
  = (Return Pending, None, [BlandGetCorrected "c1"; BlandGetDetail "c1"]).
Proof. reflexivity. Qed.

(** A segment whose text is [null] makes the loop raise: the request
    for a call that is still running ends in an HTTP 500 error. *)
Example null_text_example :
  CallTranscript.get_call_transcript Sample.no_loads Sample.tag_dumps Sample.tag_str None
    (Some "key") Fixture.null_text_provider (Some Sample.table) "c2" (Some "u1")
  = (HTTPException 500 (ErrorGettingTranscript PayloadRaised), Some Sample.table,
     [BlandGetCorrected "c2"; BlandGetDetail "c2"]).
Proof. reflexivity. Qed.

(** Bodies of the wrong kind: a detail that is a list, a flat
    transcript that is a number, an aligned transcript that is a
    dictionary or a string make the third block raise; a corrected
    transcript that is a string makes the second block fall through. *)
Example malformed_bodies :
  CallTranscript.read_detail Sample.tag_dumps None (None : option (list transcript_row))
    None (JList []) = None
  /\ CallTranscript.read_detail Sample.tag_dumps None
       (None : option (list transcript_row)) None (JDict [("transcript", JNum 5)]) = None
  /\ CallTranscript.read_detail Sample.tag_dumps None
       (None : option (list transcript_row)) None
       (JDict [("transcript_aligned", JDict [("from", JStr "ai")])]) = None
  /\ CallTranscript.read_detail Sample.tag_dumps None
       (None : option (list transcript_row)) None
       (JDict [("transcript_aligned", JStr "hi")]) = None
  /\ CallTranscript.read_detail Sample.tag_dumps None
       (None : option (list transcript_row)) None
       (JDict [("transcript_aligned", JList []); ("transcript", JStr EmptyString)])
     = Some (Unavailable, None)
  /\ CallTranscript.corrected_transcript Sample.tag_dumps Sample.tag_str
       {| get_corrected := fun _ => Sample.respond (JDict [("aligned", JStr "hi")]);
          get_detail := fun _ => None |}
       (None : option (list transcript_row)) "c1" None = None.
Proof. repeat split. Qed.



(** On the flat field the returned string is the normalized text, not
    the concatenation of the returned sequence; on the corrected
    transcript the returned list keeps the blank and the padded
    segment that the flat string leaves out or trims. *)
Lemma flat_string_diverges :
  (exists t a s trace,
      CallTranscript.get_call_transcript Sample.no_loads Sample.tag_dumps Sample.tag_str
        None (Some "key") Sample.flat_provider (None : option (list transcript_row))
        "c1" None
      = (Return (Success (Some t) a), s, trace)
      /\ trace <> [] /\ render_aligned Sample.tag_str a <> Some t)
  /\ (exists t a s trace,
        CallTranscript.get_call_transcript Sample.no_loads Sample.tag_dumps Sample.tag_str
          None (Some "key") Sample.corrected_provider
          (None : option (list transcript_row)) "c1" None
        = (Return (Success (Some t) a), s, trace)
        /\ trace <> [] /\ render_aligned Sample.tag_str a <> Some t).
Proof.
  split; do 4 eexists; (split; [reflexivity |]); split; discriminate.
Qed.

Lemma flat_string_and_sequence_witness :
  Some (String.append "Agent: hi" (String.append Py.nl (String.append "User: yes" Py.nl)))
  = render_aligned Sample.tag_str
      (AlignedBuilt [{| speaker := "Agent"; text := "hi" |};
                     {| speaker := "User"; text := "yes" |}])
  /\ Some (Sample.table
           ++ [built_row Sample.tag_dumps (JStr "c1") (Some "u1")
                 (String.append "Agent: hi" (String.append Py.nl
                    (String.append "User: yes" Py.nl)))
                 [{| speaker := "Agent"; text := "hi" |};
                  {| speaker := "User"; text := "yes" |}]])
     = CallTranscript.save_transcript (Some Sample.table) (Some "u1") insert
         (built_row Sample.tag_dumps (JStr "c1") (Some "u1")
            (String.append "Agent: hi" (String.append Py.nl
               (String.append "User: yes" Py.nl)))
            [{| speaker := "Agent"; text := "hi" |};
             {| speaker := "User"; text := "yes" |}]).
Proof.
  destruct (flat_string_and_sequence Sample.no_loads Sample.tag_dumps Sample.tag_str None
              (Some "key") Sample.aligned_provider (Some Sample.table) _ "c2" (Some "u1")
              _ _ _ aligned_field_stored_example ltac:(discriminate))
    as (resp & data & flat & Hget & Hjson & Hflat & Hshape & Hsave).
  cbn in Hget. injection Hget as <-. cbn in Hjson. injection Hjson as <-.
  injection Hflat as <-.
  split; [exact Hshape | exact Hsave].
Defined.

(** The corrected transcript comes back with both of its segments,
    although the first has no text after trimming. *)
Lemma corrected_path_keeps_blank_segments :
  exists t returned,
    (CallTranscript.get_call_transcript Sample.no_loads Sample.tag_dumps Sample.tag_str
       None (Some "key") Sample.corrected_provider
       (None : option (list transcript_row)) "c1" None).1.1
    = Return (Success t (AlignedProvider (JList returned)))
    /\ length returned = length Sample.corrected_segments
    /\ exists seg, In seg Sample.corrected_segments /\ segment_has_text seg = false.
Proof.
  do 2 eexists. split; [reflexivity |]. split; [reflexivity |].
  eexists. split; [left; reflexivity | reflexivity].
Qed.

Lemma aligned_field_drops_blank_segments_witness :
  (CallTranscript.get_call_transcript Sample.no_loads Sample.tag_dumps Sample.tag_str None
     (Some "key") Sample.aligned_provider (None : option (list transcript_row))
     "c1" None).1.1
  = Return (Success
              (Some (render (map detail_as_utterance
                               (List.filter segment_has_text Sample.segments))))
              (AlignedBuilt (map detail_as_utterance
                               (List.filter segment_has_text Sample.segments))))
  /\ (length (map detail_as_utterance (List.filter segment_has_text Sample.segments))
      <= length Sample.segments)%nat.
Proof.
  destruct (aligned_field_drops_blank_segments Sample.no_loads Sample.tag_dumps
              Sample.tag_str None (Some "key") Sample.aligned_provider
              (None : option (list transcript_row)) "c1" None) as [Hfield _].
  destruct (Hfield {| status_code := 200; resp_text := EmptyString;
                      resp_json := Some (Sample.detail JNull (JList Sample.segments)) |}
              (Sample.detail JNull (JList Sample.segments)) Sample.segments
              eq_refl eq_refl eq_refl eq_refl eq_refl eq_refl eq_refl ltac:(discriminate))
    as (Hres & Hle & _).
  split; [exact Hres | exact Hle].
Defined.

(** Without an API key the request ends in an HTTP 500 error, which is
    none of the three bodies; so does a refused call-detail request, and
    so does the request for a running call whose detail has a segment
    with a [null] text. *)
Lemma server_error_is_a_fourth_outcome :
  let r := (CallTranscript.get_call_transcript Sample.no_loads Sample.tag_dumps
              Sample.tag_str None None Sample.unreachable_provider
              (None : option (list transcript_row)) "c1" None).1.1 in
  let r' := (CallTranscript.get_call_transcript Sample.no_loads Sample.tag_dumps
               Sample.tag_str None (Some "key") Sample.unreachable_provider
               (None : option (list transcript_row)) "c1" None).1.1 in
  let r'' := (CallTranscript.get_call_transcript Sample.no_loads Sample.tag_dumps
                Sample.tag_str None (Some "key") Fixture.null_text_provider
                (None : option (list transcript_row)) "c1" None).1.1 in
  r = HTTPException 500 ApiKeyNotSet
  /\ r' = HTTPException 500 (ErrorGettingTranscript RequestRaised)
  /\ r'' = HTTPException 500 (ErrorGettingTranscript PayloadRaised)
  /\ in_progress Fixture.null_text_detail = true
  /\ ~ ((exists t a, r = Return (Success t a)) \/ r = Return Pending
        \/ r = Return Unavailable)
  /\ ~ ((exists t a, r' = Return (Success t a)) \/ r' = Return Pending
        \/ r' = Return Unavailable)
  /\ ~ ((exists t a, r'' = Return (Success t a)) \/ r'' = Return Pending
        \/ r'' = Return Unavailable).
Proof.
  cbv zeta. split; [reflexivity |]. split; [reflexivity |]. split; [reflexivity |].
  split; [reflexivity |].
  repeat split; intros [(t & a & Hr) | [Hr | Hr]]; discriminate Hr.
Qed.

(** ** The two transcript endpoints *)

Section EndpointsAgree.
Context {db : Type} `{Store db}.
Variable json_loads : string -> option json.
Variable json_dumps : json -> string.
Variable py_str : json -> string.
Variable punctuation_model : punctuation_model_t.
Variable BLAND_API_KEY : option string.
Variable bland : bland_api.

(** Block by block, the two functions do the same. *)
Lemma stored_transcript_agree (supabase : option db) (call_id : string)
    (user_id : option string) :
  CallTranscript.stored_transcript json_loads supabase call_id user_id
  = CorrectedTranscript.stored_transcript json_loads supabase call_id user_id.
Proof.
  unfold CallTranscript.stored_transcript, CorrectedTranscript.stored_transcript.
  destruct supabase as [d|]; [| reflexivity].
  destruct (truthy_str user_id); [| reflexivity].
  destruct (select_single d call_id) as [|[data|]]; reflexivity.
Qed.

Lemma corrected_loop_agree (segments : list json) (concat : string) :
  CallTranscript.corrected_loop py_str segments concat
  = CorrectedTranscript.corrected_loop py_str segments concat.
Proof.
  revert concat. induction segments as [|seg segments IH]; intros concat;
    [reflexivity |].
  cbn [CallTranscript.corrected_loop CorrectedTranscript.corrected_loop].
  change (CorrectedTranscript.corrected_step py_str concat seg)
    with (CallTranscript.corrected_step py_str concat seg).
  destruct (CallTranscript.corrected_step py_str concat seg) as [concat'|];
    [| reflexivity].
  cbn. apply IH.
Qed.

Lemma detail_loop_agree (segments : list json) (acc : list utterance * string) :
  CallTranscript.detail_loop segments acc = CorrectedTranscript.detail_loop segments acc.
Proof.
  revert acc. induction segments as [|seg segments IH]; intros acc; [reflexivity |].
  cbn [CallTranscript.detail_loop CorrectedTranscript.detail_loop].
  change (CorrectedTranscript.detail_step acc seg)
    with (CallTranscript.detail_step acc seg).
  destruct (CallTranscript.detail_step acc seg) as [acc'|]; [| reflexivity].
  cbn. apply IH.
Qed.

Lemma flat_loop_agree (lines : list string) (aligned : list utterance) :
  CallTranscript.flat_loop lines aligned = CorrectedTranscript.flat_loop lines aligned.
Proof.
  revert aligned. induction lines as [|line lines IH]; intros aligned; [reflexivity |].
  cbn [CallTranscript.flat_loop CorrectedTranscript.flat_loop].
  change (CorrectedTranscript.flat_step aligned line)
    with (CallTranscript.flat_step aligned line).
  destruct (CallTranscript.flat_step aligned line) as [aligned'|]; [| reflexivity].
  cbn. apply IH.
Qed.

Lemma corrected_transcript_agree (supabase : option db) (call_id : string)
    (user_id : option string) :
  CallTranscript.corrected_transcript json_dumps py_str bland supabase call_id user_id
  = CorrectedTranscript.corrected_transcript json_dumps py_str bland
      supabase call_id user_id.
Proof.
  unfold CallTranscript.corrected_transcript, CorrectedTranscript.corrected_transcript.
  destruct (get_corrected bland call_id) as [resp|]; [| reflexivity].
  destruct (ok resp); [| reflexivity].
  destruct (resp_json resp) as [corrected_data|]; [| reflexivity].
  cbn [mbind option_bind].
  destruct (py_get corrected_data "aligned") as [aligned|]; [| reflexivity].
  cbn [mbind option_bind].
  destruct (json_truthy aligned); [| reflexivity].
  destruct (py_iter aligned) as [segments|]; [| reflexivity].
  cbn [mbind option_bind]. rewrite corrected_loop_agree. reflexivity.
Qed.

Lemma read_detail_agree (supabase : option db) (user_id : option string) (data : json) :
  CallTranscript.read_detail json_dumps punctuation_model supabase user_id data
  = CorrectedTranscript.read_detail json_dumps punctuation_model supabase user_id data.
Proof.
  unfold CallTranscript.read_detail, CorrectedTranscript.read_detail.
  destruct (py_get data "transcript_aligned") as [aligned|]; [| reflexivity].
  cbn [mbind option_bind].
  destruct (json_truthy aligned).
  - destruct (py_get_or data "transcript_aligned" (JList []) ≫= py_iter)
      as [segments|]; [| reflexivity].
    cbn [mbind option_bind]. rewrite detail_loop_agree. reflexivity.
  - destruct (py_get data "transcript") as [transcript|]; [| reflexivity].
    cbn [mbind option_bind].
    destruct (json_truthy transcript); [| reflexivity].
    destruct (py_get_or data "transcript" (JStr EmptyString)) as [text|];
      [| reflexivity].
    cbn [mbind option_bind].
    destruct (improve_transcript_readability_of punctuation_model text)
      as [improved|]; [| reflexivity].
    cbn [mbind option_bind]. rewrite flat_loop_agree. reflexivity.
Qed.

Lemma regular_transcript_agree (supabase : option db) (call_id : string)
    (user_id : option string) :
  CallTranscript.regular_transcript json_dumps punctuation_model bland
    supabase call_id user_id
  = CorrectedTranscript.regular_transcript json_dumps punctuation_model bland
      supabase call_id user_id.
Proof.
  unfold CallTranscript.regular_transcript, CorrectedTranscript.regular_transcript.
  destruct (get_detail bland call_id) as [resp|]; [| reflexivity].
  destruct (ok resp); cbn [negb]; [| reflexivity].
  destruct (resp_json resp) as [data|]; [| reflexivity].
  rewrite read_detail_agree. reflexivity.
Qed.

(** C10. The two endpoints answer alike: on every table, key, provider,
    call id and user id they give the same response or error, leave the
    same table behind, and send the same requests. *)
Theorem transcript_endpoints_agree (supabase : option db) (call_id : string)
    (user_id : option string) :
  CallTranscript.get_call_transcript json_loads json_dumps py_str punctuation_model
    BLAND_API_KEY bland supabase call_id user_id
  = CorrectedTranscript.get_call_corrected_transcript json_loads json_dumps py_str
      punctuation_model BLAND_API_KEY bland supabase call_id user_id.
Proof.
  unfold CallTranscript.get_call_transcript,
    CorrectedTranscript.get_call_corrected_transcript.
  destruct (truthy_str BLAND_API_KEY); cbn [negb]; [| reflexivity].
  rewrite stored_transcript_agree.
  destruct (CorrectedTranscript.stored_transcript json_loads supabase call_id user_id)
    as [body|]; [reflexivity |].
  rewrite corrected_transcript_agree.
  destruct (CorrectedTranscript.corrected_transcript json_dumps py_str bland
              supabase call_id user_id) as [[body supabase']|]; [reflexivity |].
  rewrite regular_transcript_agree. reflexivity.
Qed.

End EndpointsAgree.

(** ** The ledger: what the quotas count *)

Example sms_then_call :
  let h1 := (send_sms Sample.str_exception (Some "text-key") Sample.textbelt_delivers
               Sample.now ∅ Sample.guest_sms).1.2 in
  h1 !! "5551234"
  = Some [[("type", JStr "sms"); ("status", JStr "success"); ("timestamp", JStr Sample.now);
           ("phone_number", JStr "5551234"); ("message_id", JStr "t1")]].
Proof. vm_compute. reflexivity. Qed.

(** C1 on the code: the quotas do not count what the statement says.
    After one delivered text message and no call, a guest's first call
    reports 9 calls left, not 10: the message's record has status
    [success] and is counted as a call.  After two refused text messages
    (four records of type [sms], none successful) a guest's third
    message is turned away at the limit of 3. *)
Theorem quota_counts_other_records :
  let h1 := (send_sms Sample.str_exception (Some "text-key") Sample.textbelt_delivers
               Sample.now ∅ Sample.guest_sms).1.2 in
  let h2 := (send_sms Sample.str_exception (Some "text-key") Sample.textbelt_refuses
               Sample.now
               (send_sms Sample.str_exception (Some "text-key") Sample.textbelt_refuses
                  Sample.now ∅ Sample.guest_sms).1.2
               Sample.guest_sms).1.2 in
  (successful_calls h1 "5551234" = 0%Z
   /\ (trigger_call Sample.no_loads Sample.str_exception (Some "key") None false
         Sample.gemini_silent Sample.bland_accepts Sample.now h1 Sample.guest_call).1.1
      = CallReturn (CallTriggered (Some "call-1") (CallsLeft 9))
   /\ (MAX_CALLS_PER_GUEST - successful_calls h1 "5551234" = 10)%Z)
  /\ (successful_sms h2 "5551234" = 0%Z
      /\ length (default [] (h2 !! "5551234")) = 4%nat
      /\ (send_sms Sample.str_exception (Some "text-key") Sample.textbelt_delivers
            Sample.now h2 Sample.guest_sms).1.1
         = SmsReturn (SmsLimitReached 3)).
Proof. vm_compute. repeat split. Qed.

(** ** Moderation *)

Section AdmissionProperties.
Variable json_loads : string -> option json.
Variable str_exception : py_exception -> string.
Variable BLAND_API_KEY GEMINI_API_KEY : option string.
Variable supabase : bool.
Variable gemini_post : string -> string -> http gemini_result.
Variable bland_post : string -> string -> http bland_call.
Variable now : string.

Abbreviation moderate_call' :=
  (moderate_call json_loads str_exception GEMINI_API_KEY gemini_post).
Abbreviation trigger_call' :=
  (trigger_call json_loads str_exception BLAND_API_KEY GEMINI_API_KEY supabase
     gemini_post bland_post now).
Abbreviation admit_call' := (admit_call supabase bland_post now).
Abbreviation place_call' := (place_call supabase bland_post now).

(** Where the moderation request fails, or its answer holds nothing
    that decodes, the verdict is [allowed = True]. *)
Lemma moderation_fails_open (topic phone : string) :
  (Py.truthy phone && existsb (fun num => Py.endswith num phone) emergency_numbers) = false ->
  truthy_str GEMINI_API_KEY = true ->
  gemini_post topic phone = None
  \/ (exists response,
        gemini_post topic phone = Some response
        /\ (status_code response <> 200%Z
            \/ resp_json response = None
            \/ exists result,
                 resp_json response = Some result
                 /\ (answer_text result = None
                     \/ exists answer,
                          answer_text result = Some answer
                          /\ (re_search_braces answer = None
                              \/ exists group0,
                                   re_search_braces answer = Some group0
                                   /\ json_loads group0 = None)))) ->
  subscript (moderate_call' topic phone).1 "allowed" = Some (JBool true).
Proof.
  intros Hnum Hkey Hfail. unfold moderate_call. rewrite Hnum, Hkey. cbn [negb fst].
  destruct Hfail as [-> | (response & -> & Hfail)]; [reflexivity |].
  destruct (Z.eqb_spec (status_code response) 200) as [Hst | Hst]; cbn [negb];
    [| reflexivity].
  destruct Hfail as [Hne | [-> | (result & -> & Hfail)]];
    [contradiction | reflexivity |].
  unfold read_moderation.
  destruct Hfail as [-> | (answer & -> & [-> | (group0 & -> & ->)])]; reflexivity.
Qed.


(** ** Admission to a call *)


(** The limit check counts every record with status [success]. *)
Lemma admit_call_spec (h : gmap string (list pydict)) (req : CallRequest) :
  let max_calls :=
    if truthy_str (user_id req) then MAX_CALLS_PER_USER else MAX_CALLS_PER_GUEST in
  let calls_left := (max_calls - success_records h (phone_number req))%Z in
  admit_call' h req
  = if Z.leb calls_left 0 && negb (truthy_flag (admin req))
    then (CallReturn CallLimitReached, h, [])
    else place_call' h req calls_left.
Proof. reflexivity. Qed.

Ltac not_in_trace :=
  let Hin := fresh "Hin" in
  intros Hin;
  repeat (apply elem_of_cons in Hin as [Hin | Hin]; [discriminate Hin |]);
  now apply elem_of_nil in Hin.

(** Placing a call sends the call request first and never asks the
    moderation model. *)
Lemma place_call_trace (h : gmap string (list pydict)) (req : CallRequest)
    (calls_left : Z) :
  (BlandPostCall (phone_number req) (topic req) ∈ (place_call' h req calls_left).2)
  /\ forall t p, (Moderate t p ∉ (place_call' h req calls_left).2)
                 /\ (GeminiPost t p ∉ (place_call' h req calls_left).2).
Proof.
  unfold place_call.
  destruct (bland_post (phone_number req) (topic req)) as [resp|]; cbn [snd].
  2: { split; [apply list_elem_of_here |]. intros t p. split; not_in_trace. }
  destruct (ok resp); [destruct (resp_json resp) as [data|] |]; cbn [snd].
  2,3: split; [apply list_elem_of_here |]; intros t p; split; not_in_trace.
  split; [apply list_elem_of_here |]. intros t p.
  destruct (supabase && truthy_str (user_id req)); split; not_in_trace.
Qed.

Lemma place_call_accepted (h : gmap string (list pydict)) (req : CallRequest)
    (calls_left : Z) (resp : response bland_call) (data : bland_call) :
  bland_post (phone_number req) (topic req) = Some resp -> ok resp = true ->
  resp_json resp = Some data ->
  (place_call' h req calls_left).1.1
  = CallReturn (CallTriggered (bc_call_id data)
                  (if truthy_flag (admin req) then Unlimited else CallsLeft calls_left)).
Proof. intros Hpost Hok Hjson. unfold place_call. now rewrite Hpost, Hok, Hjson. Qed.



End AdmissionProperties.




(** C9 on the code: a 200 answer whose text holds a JSON object without
    the [allowed] key is returned as it is, so [moderate_call] gives no
    [allowed = True], and the guest's call ends in an unhandled
    [KeyError] before any call is placed. *)
Theorem moderation_answer_without_verdict :
  let moderation :=
    (moderate_call Sample.loads_reason_only Sample.str_exception (Some "gemini-key")
       Sample.gemini_reason_only "weather" "5551234").1 in
  re_search_braces Sample.reason_only = Some Sample.reason_only
  /\ moderation = JDict [("reason", JStr "fine")]
  /\ subscript moderation "allowed" = None
  /\ trigger_call Sample.loads_reason_only Sample.str_exception (Some "key")
       (Some "gemini-key") false Sample.gemini_reason_only Sample.bland_accepts
       Sample.now ∅ Sample.guest_call
     = (CallUnhandled (KeyError "allowed"), ∅,
        [Moderate "weather" "5551234"; GeminiPost "weather" "5551234"]).
Proof. vm_compute. repeat split. Qed.

(** ** End to end: unmarked flat text *)

Example refund_example :
  CallTranscript.flat_loop
    (Py.split Py.newline
       (improve_transcript_readability None
          "Hello there. How can I help? I need a refund.")) []
  = Some [{| speaker := "Agent"; text := "Hello there." |};
          {| speaker := "User"; text := "How can I help?" |};
          {| speaker := "Agent"; text := "I need a refund." |}].
Proof. reflexivity. Qed.

(** * Further properties *)

(** ** Trimming *)

Lemma rstrip_cons (c : ascii) (s : string) :
  Py.rstrip (String c s)
  = match Py.rstrip s with
    | EmptyString => if Py.isspace c then EmptyString else String c EmptyString
    | String d r => String c (String d r)
    end.
Proof. reflexivity. Qed.

Lemma rstrip_idempotent (s : string) : Py.rstrip (Py.rstrip s) = Py.rstrip s.
Proof.
  induction s as [|c s IH]; [reflexivity |].
  rewrite rstrip_cons. destruct (Py.rstrip s) as [|d r] eqn:Hr.
  - destruct (Py.isspace c) eqn:Hc; [reflexivity |]. cbn. now rewrite Hc.
  - rewrite rstrip_cons, IH. reflexivity.
Qed.

Lemma lstrip_head (s : string) :
  match Py.lstrip s with
  | EmptyString => True
  | String c _ => Py.isspace c = false
  end.
Proof.
  induction s as [|c s IH]; [exact I |].
  cbn [Py.lstrip]. destruct (Py.isspace c) eqn:Hc; [exact IH | exact Hc].
Qed.

Lemma rstrip_keeps_head (c : ascii) (s : string) :
  Py.isspace c = false -> exists r, Py.rstrip (String c s) = String c r.
Proof.
  intros Hc. rewrite rstrip_cons. destruct (Py.rstrip s) as [|d r].
  - rewrite Hc. now exists EmptyString.
  - now exists (String d r).
Qed.

(** Trimming a trimmed text changes nothing. *)
Lemma strip_idempotent (s : string) : Py.strip (Py.strip s) = Py.strip s.
Proof.
  unfold Py.strip. pose proof (lstrip_head s) as Hhead.
  destruct (Py.lstrip s) as [|c l] eqn:Hl; [reflexivity |].
  destruct (rstrip_keeps_head c l Hhead) as [r Hr].
  rewrite Hr. cbn [Py.lstrip]. rewrite Hhead, <- Hr. apply rstrip_idempotent.
Qed.

Lemma nonspace_empty_lstrip (s : string) :
  Py.nonspace s = EmptyString -> Py.lstrip s = EmptyString.
Proof.
  induction s as [|c s IH]; [reflexivity |].
  cbn [Py.nonspace Py.lstrip]. destruct (Py.isspace c); [exact IH | discriminate].
Qed.

Lemma nonspace_empty_strip (s : string) :
  Py.nonspace s = EmptyString -> Py.strip s = EmptyString.
Proof. intros Hs. unfold Py.strip. now rewrite (nonspace_empty_lstrip s Hs). Qed.

(** ** The normalizer leaves no place to split *)

Lemma split_sentences_head (s : string) :
  Py.next_is_space (Py.join Py.nl (Py.re_split_sentences false s)) = Py.next_is_space s.
Proof.
  destruct s as [|c s]; [reflexivity |].
  cbn [Py.re_split_sentences andb].
  destruct (Py.sentence_end c && Py.next_is_space s) eqn:Hend.
  - rewrite join_cons by apply re_split_sentences_nonempty. reflexivity.
  - rewrite join_push_front by apply re_split_sentences_nonempty. reflexivity.
Qed.

Lemma split_sentences_no_boundary (s : string) (in_match : bool) :
  has_boundary (Py.join Py.nl (Py.re_split_sentences in_match s)) = false.
Proof.
  revert in_match. induction s as [|c s IH]; intros in_match; [reflexivity |].
  cbn [Py.re_split_sentences].
  destruct (in_match && Ascii.eqb c " "); [apply IH |].
  destruct (Py.sentence_end c && Py.next_is_space s) eqn:Hend.
  - rewrite join_cons by apply re_split_sentences_nonempty.
    cbn [String.append has_boundary Py.nl Py.next_is_space].
    rewrite IH. cbn. now rewrite andb_false_r.
  - rewrite join_push_front by apply re_split_sentences_nonempty.
    cbn [has_boundary]. rewrite split_sentences_head, Hend, IH. reflexivity.
Qed.

Lemma split_sentences_whole (s : string) :
  has_boundary s = false -> Py.re_split_sentences false s = [s].
Proof.
  induction s as [|c s IH]; [reflexivity |].
  cbn [has_boundary Py.re_split_sentences andb]. intros Hb.
  apply orb_false_elim in Hb as [Hend Hrest].
  rewrite Hend, (IH Hrest). reflexivity.
Qed.

(** X1. Whatever the punctuation step does, the text the normalizer
    answers has no [.], [!] or [?] directly followed by a space.
    Without the punctuation model the texts it leaves unchanged are
    exactly those with no such place, and normalizing a normalized text
    changes nothing. *)
Theorem normalizer_is_a_closure (pm : punctuation_model_t) (text : string) :
  has_boundary (improve_transcript_readability pm text) = false
  /\ (improve_transcript_readability None text = text <-> has_boundary text = false)
  /\ improve_transcript_readability None (improve_transcript_readability None text)
     = improve_transcript_readability None text.
Proof.
  assert (Hfix : forall t, has_boundary t = false ->
                   improve_transcript_readability None t = t).
  { intros t Ht. unfold improve_transcript_readability, restore_punctuation.
    now rewrite (split_sentences_whole t Ht). }
  split; [apply split_sentences_no_boundary |].
  split.
  - split; [| apply Hfix].
    intros Hsame. rewrite <- Hsame. apply split_sentences_no_boundary.
  - apply Hfix. apply split_sentences_no_boundary.
Qed.

(** ** The lines the aligner walks are the sentences *)

Lemma split_without_newline (s : string) :
  has_newline s = false -> Py.split Py.newline s = [s].
Proof.
  induction s as [|c s IH]; [reflexivity |].
  cbn [has_newline Py.split]. intros Hs.
  apply orb_false_elim in Hs as [Hc Hs]. rewrite Hc, (IH Hs). reflexivity.
Qed.

Lemma split_line_then_rest (p rest : string) :
  has_newline p = false ->
  Py.split Py.newline (String.append p (String.append Py.nl rest))
  = p :: Py.split Py.newline rest.
Proof.
  induction p as [|c p IH]; intros Hp.
  - cbn. now rewrite Ascii.eqb_refl.
  - cbn [has_newline] in Hp. apply orb_false_elim in Hp as [Hc Hp].
    cbn [String.append Py.split]. rewrite Hc, (IH Hp). reflexivity.
Qed.

Lemma split_join_lines (pieces : list string) :
  pieces <> [] -> Forall (fun p => has_newline p = false) pieces ->
  Py.split Py.newline (Py.join Py.nl pieces) = pieces.
Proof.
  induction pieces as [|p pieces IH]; [contradiction |].
  intros _ Hall. apply Forall_cons in Hall as [Hp Hall].
  destruct pieces as [|q pieces].
  - cbn [Py.join]. now apply split_without_newline.
  - rewrite join_cons by discriminate.
    rewrite split_line_then_rest by exact Hp.
    f_equal. apply IH; [discriminate | exact Hall].
Qed.

Lemma push_front_no_newline (c : ascii) (pieces : list string) :
  Ascii.eqb c Py.newline = false ->
  Forall (fun p => has_newline p = false) pieces ->
  Forall (fun p => has_newline p = false) (Py.push_front c pieces).
Proof.
  intros Hc Hall. destruct pieces as [|p pieces]; cbn [Py.push_front].
  - constructor; [| constructor]. cbn. now rewrite Hc.
  - apply Forall_cons in Hall as [Hp Hall]. constructor; [| exact Hall].
    cbn. now rewrite Hc, Hp.
Qed.

Lemma sentences_without_newline (s : string) (in_match : bool) :
  has_newline s = false ->
  Forall (fun p => has_newline p = false) (Py.re_split_sentences in_match s).
Proof.
  revert in_match. induction s as [|c s IH]; intros in_match Hs.
  - constructor; [reflexivity | constructor].
  - cbn [has_newline] in Hs. apply orb_false_elim in Hs as [Hc Hs].
    cbn [Py.re_split_sentences].
    destruct (in_match && Ascii.eqb c " "); [now apply IH |].
    destruct (Py.sentence_end c && Py.next_is_space s).
    + constructor; [cbn; now rewrite Hc | now apply IH].
    + apply push_front_no_newline; [exact Hc | now apply IH].
Qed.

(** X2. When the text to split holds no line break, splitting the
    normalizer's answer at newlines gives back the sentences it joined:
    the aligner walks exactly one line per sentence. *)
Theorem lines_are_the_sentences (pm : punctuation_model_t) (text : string) :
  has_newline (restore_punctuation pm text) = false ->
  Py.split Py.newline (improve_transcript_readability pm text)
  = Py.re_split_sentences false (restore_punctuation pm text).
Proof.
  intros Hnl. unfold improve_transcript_readability.
  apply split_join_lines; [apply re_split_sentences_nonempty |].
  now apply sentences_without_newline.
Qed.

Lemma lines_are_the_sentences_witness :
  Py.split Py.newline
    (improve_transcript_readability None "Hello there. How can I help? I need a refund.")
  = Py.re_split_sentences false
      (restore_punctuation None "Hello there. How can I help? I need a refund.").
Proof.
  apply (lines_are_the_sentences None "Hello there. How can I help? I need a refund.").
  reflexivity.
Defined.

(** ** Unmarked lines are spoken in turns *)

Lemma flat_loop_in_turns (lines : list string) (aligned : list utterance) :
  Forall (fun l => line_has_text l = true /\ unmarked (Py.strip l) = true) lines ->
  CallTranscript.flat_loop lines aligned
  = Some (aligned ++ in_turns (match last aligned with
                               | None => "Agent"
                               | Some previous => opposite (speaker previous)
                               end) lines).
Proof.
  revert aligned. induction lines as [|l lines IH]; intros aligned Hall.
  - cbn. now rewrite app_nil_r.
  - apply Forall_cons in Hall as [[Htext Hun] Hall].
    cbn [CallTranscript.flat_loop].
    rewrite flat_step_unmarked; [| | exact Hun].
    2: { unfold line_has_text in Htext. intros Hempty. rewrite Hempty in Htext.
         discriminate Htext. }
    cbn [mbind option_bind]. rewrite (IH _ Hall), last_snoc.
    cbn [speaker in_turns]. rewrite <- app_assoc. reflexivity.
Qed.

Lemma in_turns_lookup (first : string) (lines : list string) (i : nat) (line : string) :
  first = "Agent" \/ first = "User" ->
  lines !! i = Some line ->
  in_turns first lines !! i
  = Some {| speaker := if Nat.even i then first else opposite first;
            text := Py.strip line |}.
Proof.
  revert first i. induction lines as [|l lines IH]; intros first i Hfirst Hi;
    [discriminate Hi |].
  destruct i as [|i]; cbn [in_turns].
  - injection Hi as ->. reflexivity.
  - cbn in Hi. cbn [lookup list_lookup].
    change ((in_turns (opposite first) lines) !! i
            = Some {| speaker := if Nat.even (S i) then first else opposite first;
                      text := Py.strip line |}).
    rewrite (IH (opposite first) i); [| | exact Hi].
    2: { destruct Hfirst as [-> | ->]; [now right | now left]. }
    f_equal. f_equal.
    assert (Hback : opposite (opposite first) = first)
      by (destruct Hfirst as [-> | ->]; reflexivity).
    rewrite Hback.
    destruct i as [|i]; [reflexivity |].
    change (Nat.even (S (S i))) with (Nat.even i).
    rewrite Nat.even_succ, <- Nat.negb_even. now destruct (Nat.even i).
Qed.

(** X3. When no line of a flat transcript is blank or carries a marker,
    the speakers alternate from the first line on: the utterance of line
    [i] (counted from 0) is the trimmed line, spoken by the agent when
    [i] is even and by the user when it is odd. *)
Theorem unmarked_lines_alternate (lines : list string) :
  Forall (fun l => line_has_text l = true /\ unmarked (Py.strip l) = true) lines ->
  exists aligned,
    CallTranscript.flat_loop lines [] = Some aligned
    /\ length aligned = length lines
    /\ forall i line,
         lines !! i = Some line ->
         aligned !! i
         = Some {| speaker := if Nat.even i then "Agent" else "User";
                   text := Py.strip line |}.
Proof.
  intros Hall. exists (in_turns "Agent" lines).
  split; [exact (flat_loop_in_turns lines [] Hall) |].
  split.
  - clear Hall. generalize "Agent". induction lines as [|l lines IH]; intros first;
      [reflexivity |].
    cbn [in_turns length]. now rewrite IH.
  - intros i line Hi. rewrite (in_turns_lookup "Agent" lines i line); auto.
Qed.

Lemma unmarked_lines_alternate_witness :
  exists aligned,
    CallTranscript.flat_loop ["line1"; " line2"; "line3 "] [] = Some aligned
    /\ length aligned = 3%nat
    /\ forall i line,
         ["line1"; " line2"; "line3 "] !! i = Some line ->
         aligned !! i
         = Some {| speaker := if Nat.even i then "Agent" else "User";
                   text := Py.strip line |}.
Proof.
  apply (unmarked_lines_alternate ["line1"; " line2"; "line3 "]).
  repeat constructor.
Defined.

(** ** One utterance per line that has text *)

Lemma flat_step_adds (aligned : list utterance) (line : string) :
  Forall trimmed aligned ->
  exists aligned',
    CallTranscript.flat_step aligned line = Some aligned'
    /\ length aligned' = (length aligned + (if line_has_text line then 1 else 0))%nat
    /\ Forall trimmed aligned'.
Proof.
  intros Htrim. unfold line_has_text.
  assert (Hsnoc : forall s t, Py.strip t = t ->
                    length (aligned ++ [{| speaker := s; text := t |}])
                    = (length aligned + 1)%nat
                    /\ Forall trimmed (aligned ++ [{| speaker := s; text := t |}])).
  { intros s t Ht. split; [rewrite length_app; reflexivity |].
    apply Forall_app. split; [exact Htrim |]. constructor; [exact Ht | constructor]. }
  destruct (Py.strip line) as [|c l] eqn:Hl.
  { exists aligned. split; [now apply flat_step_blank |].
    split; [cbn; lia | exact Htrim]. }
  cbn [Py.truthy].
  destruct (Py.startswith "AI:" (Py.strip line)) eqn:Hai.
  { destruct (startswith_prefix _ _ Hai) as [rest Hrest].
    eexists. split; [apply (flat_step_agent _ _ rest); now left |].
    apply Hsnoc, strip_idempotent. }
  destruct (Py.startswith "Agent:" (Py.strip line)) eqn:Hagent.
  { destruct (startswith_prefix _ _ Hagent) as [rest Hrest].
    eexists. split; [apply (flat_step_agent _ _ rest); now right |].
    apply Hsnoc, strip_idempotent. }
  destruct (Py.startswith "Human:" (Py.strip line)) eqn:Hhuman.
  { destruct (startswith_prefix _ _ Hhuman) as [rest Hrest].
    eexists. split; [apply (flat_step_user _ _ rest); now left |].
    apply Hsnoc, strip_idempotent. }
  destruct (Py.startswith "User:" (Py.strip line)) eqn:Huser.
  { destruct (startswith_prefix _ _ Huser) as [rest Hrest].
    eexists. split; [apply (flat_step_user _ _ rest); now right |].
    apply Hsnoc, strip_idempotent. }
  eexists. split.
  - apply flat_step_unmarked; [rewrite Hl; discriminate |].
    unfold unmarked. now rewrite Hai, Hagent, Hhuman, Huser.
  - apply Hsnoc, strip_idempotent.
Qed.

Lemma flat_loop_adds (lines : list string) (aligned : list utterance) :
  Forall trimmed aligned ->
  exists aligned',
    CallTranscript.flat_loop lines aligned = Some aligned'
    /\ length aligned'
       = (length aligned + length (List.filter line_has_text lines))%nat
    /\ Forall trimmed aligned'.
Proof.
  revert aligned. induction lines as [|l lines IH]; intros aligned Htrim.
  - exists aligned. split; [reflexivity |]. split; [cbn; lia | exact Htrim].
  - destruct (flat_step_adds aligned l Htrim) as (a1 & Hstep & Hlen1 & Htrim1).
    destruct (IH a1 Htrim1) as (a2 & Hloop & Hlen2 & Htrim2).
    exists a2. split; [cbn [CallTranscript.flat_loop]; rewrite Hstep; exact Hloop |].
    split; [| exact Htrim2].
    rewrite Hlen2, Hlen1. cbn [List.filter]. destruct (line_has_text l); cbn; lia.
Qed.

Lemma remove_prefix_append (p rest : string) :
  remove_prefix p (String.append p rest) = Some rest.
Proof.
  induction p as [|a p IH]; [reflexivity |].
  cbn [String.append remove_prefix]. now rewrite Ascii.eqb_refl.
Qed.

Lemma remove_prefix_none (p s : string) :
  Py.startswith p s = false -> remove_prefix p s = None.
Proof.
  revert s. induction p as [|a p IH]; intros s; [discriminate |].
  destruct s as [|b s]; [reflexivity |].
  cbn [Py.startswith remove_prefix].
  destruct (Ascii.eqb a b); [apply IH | reflexivity].
Qed.

(** One pass of the loop keeps what it has and adds at most one
    utterance: none for a blank line, one with the line's text for any
    other. *)
Lemma flat_step_appends (aligned : list utterance) (line : string) :
  exists added,
    CallTranscript.flat_step aligned line = Some (aligned ++ added)
    /\ map text added = if line_has_text line then [line_text line] else [].
Proof.
  unfold line_has_text, line_text, after_marker.
  destruct (Py.strip line) as [|c l] eqn:Hl.
  { exists []. rewrite app_nil_r. split; [now apply flat_step_blank | reflexivity]. }
  rewrite <- Hl. replace (Py.truthy (Py.strip line)) with true by now rewrite Hl.
  destruct (Py.startswith "AI:" (Py.strip line)) eqn:Hai.
  { destruct (startswith_prefix _ _ Hai) as [rest Hrest].
    eexists. split; [apply (flat_step_agent _ _ rest); now left |].
    rewrite Hrest, remove_prefix_append. reflexivity. }
  rewrite (remove_prefix_none _ _ Hai).
  destruct (Py.startswith "Agent:" (Py.strip line)) eqn:Hagent.
  { destruct (startswith_prefix _ _ Hagent) as [rest Hrest].
    eexists. split; [apply (flat_step_agent _ _ rest); now right |].
    rewrite Hrest, remove_prefix_append. reflexivity. }
  rewrite (remove_prefix_none _ _ Hagent).
  destruct (Py.startswith "Human:" (Py.strip line)) eqn:Hhuman.
  { destruct (startswith_prefix _ _ Hhuman) as [rest Hrest].
    eexists. split; [apply (flat_step_user _ _ rest); now left |].
    rewrite Hrest, remove_prefix_append. reflexivity. }
  rewrite (remove_prefix_none _ _ Hhuman).
  destruct (Py.startswith "User:" (Py.strip line)) eqn:Huser.
  { destruct (startswith_prefix _ _ Huser) as [rest Hrest].
    eexists. split; [apply (flat_step_user _ _ rest); now right |].
    rewrite Hrest, remove_prefix_append. reflexivity. }
  rewrite (remove_prefix_none _ _ Huser).
  eexists. split.
  - apply flat_step_unmarked; [rewrite Hl; discriminate |].
    unfold unmarked. now rewrite Hai, Hagent, Hhuman, Huser.
  - cbn [map text default from_option id]. now rewrite strip_idempotent.
Qed.

Lemma flat_loop_appends (lines : list string) (aligned : list utterance) :
  exists added,
    CallTranscript.flat_loop lines aligned = Some (aligned ++ added)
    /\ map text added = map line_text (List.filter line_has_text lines).
Proof.
  revert aligned. induction lines as [|l lines IH]; intros aligned.
  - exists []. rewrite app_nil_r. split; reflexivity.
  - destruct (flat_step_appends aligned l) as (a1 & Hstep & Htext1).
    destruct (IH (aligned ++ a1)) as (a2 & Hloop & Htext2).
    exists (a1 ++ a2). split.
    + cbn [CallTranscript.flat_loop]. rewrite Hstep. cbn.
      rewrite Hloop. now rewrite app_assoc.
    + rewrite map_app, Htext1, Htext2. cbn [List.filter].
      destruct (line_has_text l); reflexivity.
Qed.

(** X4. From any state, the loop over the lines of a flat transcript
    keeps the utterances it has and adds, in the order of the lines,
    exactly one utterance for each line that holds something besides
    whitespace, and none for the others.  The text of an added utterance
    is the text of its line: the line trimmed, its marker removed, and
    trimmed again; so every added text is trimmed. *)
Theorem one_utterance_per_line_with_text (lines : list string)
    (aligned : list utterance) :
  exists added,
    CallTranscript.flat_loop lines aligned = Some (aligned ++ added)
    /\ map text added = map line_text (List.filter line_has_text lines)
    /\ length added = length (List.filter line_has_text lines)
    /\ (length added <= length lines)%nat
    /\ Forall trimmed added.
Proof.
  destruct (flat_loop_appends lines aligned) as (added & Hloop & Htext).
  exists added. split; [exact Hloop |]. split; [exact Htext |].
  assert (Hlen : length added = length (List.filter line_has_text lines)).
  { rewrite <- (length_map text added), Htext. apply length_map. }
  split; [exact Hlen |]. split; [rewrite Hlen; apply filter_length_le |].
  apply Forall_forall. intros u Hu.
  assert (Hin : text u ∈ map text added) by (apply list_elem_of_fmap; eauto).
  rewrite Htext in Hin. apply list_elem_of_fmap in Hin as (l & Hl & _).
  unfold trimmed. rewrite Hl. apply strip_idempotent.
Qed.

(** ** The transcript endpoint, further *)

Section TranscriptFurther.
Context {db : Type} `{Store db}.
Variable json_loads : string -> option json.
Variable json_dumps : json -> string.
Variable py_str : json -> string.
Variable punctuation_model : punctuation_model_t.
Variable BLAND_API_KEY : option string.
Variable bland : bland_api.

Abbreviation endpoint :=
  (CallTranscript.get_call_transcript json_loads json_dumps py_str punctuation_model
     BLAND_API_KEY bland).

Lemma save_transcript_guard (supabase : option db) (user_id : option string)
    (write : db -> transcript_row -> option db) (row : transcript_row) :
  truthy_str user_id = false \/ supabase = None ->
  CallTranscript.save_transcript supabase user_id write row = supabase.
Proof.
  intros [Huser | ->]; unfold CallTranscript.save_transcript; [| reflexivity].
  rewrite Huser. now destruct supabase.
Qed.

Lemma regular_transcript_table (supabase : option db) (call_id : string)
    (user_id : option string) :
  (CallTranscript.regular_transcript json_dumps punctuation_model bland
     supabase call_id user_id).2 = supabase
  \/ exists t a row,
       (CallTranscript.regular_transcript json_dumps punctuation_model bland
          supabase call_id user_id)
       = (Return (Success t a),
          CallTranscript.save_transcript supabase user_id insert row).
Proof.
  unfold CallTranscript.regular_transcript.
  destruct (get_detail bland call_id) as [resp|]; [| now left].
  destruct (ok resp); cbn [negb]; [| now left].
  destruct (resp_json resp) as [data|]; [| now left].
  destruct (read_detail_cases json_dumps punctuation_model supabase user_id data)
    as [(_ & _ & ->) | [(_ & _ & ->) | (_ & _ & t & us & ->)]];
    [now left | now left | right; eauto].
Qed.

(** X5. The table is written only when a live source resolved a
    transcript for a request that carries a user id: a request without
    one, a request served from the table, and every request that ends
    pending, unavailable or in error leave the table as it was. *)
Theorem table_written_only_on_live_success (supabase : option db) (call_id : string)
    (user_id : option string) :
  (truthy_str user_id = false -> (endpoint supabase call_id user_id).1.2 = supabase)
  /\ (supabase = None -> (endpoint supabase call_id user_id).1.2 = None)
  /\ ((endpoint supabase call_id user_id).2 = [] ->
      (endpoint supabase call_id user_id).1.2 = supabase)
  /\ ((forall t a, (endpoint supabase call_id user_id).1.1 <> Return (Success t a)) ->
      (endpoint supabase call_id user_id).1.2 = supabase).
Proof.
  rewrite endpoint_by_block.
  destruct (negb (truthy_str BLAND_API_KEY)); [cbn; auto |].
  destruct (CallTranscript.stored_transcript json_loads supabase call_id user_id)
    as [body|]; [cbn; auto |].
  destruct (CallTranscript.corrected_transcript json_dumps py_str bland
              supabase call_id user_id) as [[body s]|] eqn:Hcorr.
  - apply corrected_transcript_inv in Hcorr
      as (resp & cd & segments & _ & _ & _ & _ & _ & _ & Hbody).
    cbv zeta in Hbody. destruct Hbody as [-> ->].
    cbn [fst snd].
    split; [intros Huser; apply save_transcript_guard; now left |].
    split; [intros ->; reflexivity |].
    split; [discriminate |].
    intros Hnot. exfalso. eapply Hnot. reflexivity.
  - cbn [fst snd].
    destruct (regular_transcript_table supabase call_id user_id)
      as [Hsame | (t & a & row & Hreg)].
    + rewrite Hsame. repeat split; auto.
    + rewrite Hreg. cbn [fst snd].
      split; [intros Huser; apply save_transcript_guard; now left |].
      split; [intros ->; reflexivity |].
      split; [discriminate |].
      intros Hnot. exfalso. eapply Hnot. reflexivity.
Qed.

(** X7. At most two requests go to the provider, always for the call
    asked about and always the corrected transcript first: none when the
    key is missing or the table answered, one when the corrected
    transcript resolved, two otherwise. *)
Theorem provider_request_discipline (supabase : option db) (call_id : string)
    (user_id : option string) :
  ((endpoint supabase call_id user_id).2 = []
   <-> truthy_str BLAND_API_KEY = false
       \/ CallTranscript.stored_transcript json_loads supabase call_id user_id <> None)
  /\ ((endpoint supabase call_id user_id).2 = [BlandGetCorrected call_id]
      <-> truthy_str BLAND_API_KEY = true
          /\ CallTranscript.stored_transcript json_loads supabase call_id user_id = None
          /\ CallTranscript.corrected_transcript json_dumps py_str bland
               supabase call_id user_id <> None)
  /\ ((endpoint supabase call_id user_id).2 = []
      \/ (endpoint supabase call_id user_id).2 = [BlandGetCorrected call_id]
      \/ (endpoint supabase call_id user_id).2
         = [BlandGetCorrected call_id; BlandGetDetail call_id]).
Proof.
  rewrite endpoint_by_block.
  destruct (truthy_str BLAND_API_KEY); cbn [negb].
  2: { cbn. split; [split; auto |]. split; [| auto].
       split; [discriminate | intros [Hk _]; discriminate Hk]. }
  destruct (CallTranscript.stored_transcript json_loads supabase call_id user_id)
    as [body|].
  { cbn. split; [split; [intros _; right; discriminate | reflexivity] |].
    split; [| auto]. split; [discriminate | intros (_ & Hs & _); discriminate Hs]. }
  destruct (CallTranscript.corrected_transcript json_dumps py_str bland
              supabase call_id user_id) as [[body s]|]; cbn [snd].
  - split; [split; [discriminate | intros [Hk | Hs]; [discriminate Hk | now contradiction Hs]] |].
    split; [| auto]. split; [intros _; repeat split; discriminate | reflexivity].
  - split; [split; [discriminate | intros [Hk | Hs]; [discriminate Hk | now contradiction Hs]] |].
    split; [| auto].
    split; [discriminate | intros (_ & _ & Hc); now contradiction Hc].
Qed.

End TranscriptFurther.

Lemma table_written_only_on_live_success_witness :
  (CallTranscript.get_call_transcript Sample.no_loads Sample.tag_dumps Sample.tag_str None
     (Some "key") Sample.flat_provider (Some Sample.table) "c1" None).1.2
  = Some Sample.table.
Proof.
  destruct (table_written_only_on_live_success Sample.no_loads Sample.tag_dumps
              Sample.tag_str None (Some "key") Sample.flat_provider
              (Some Sample.table) "c1" None)
    as [Hanonymous _].
  exact (Hanonymous eq_refl).
Defined.

(** ** Failing writes do not show *)

(** The body the third block answers does not depend on the table. *)
Lemma read_detail_body {db : Type} (store store' : Store db)
    (json_dumps : json -> string) (punctuation_model : punctuation_model_t)
    (supabase : option db) (user_id : option string) (data : json) :
  option_map fst
    (@CallTranscript.read_detail db store json_dumps punctuation_model
       supabase user_id data)
  = option_map fst
      (@CallTranscript.read_detail db store' json_dumps punctuation_model
         supabase user_id data).
Proof.
  rewrite !read_detail_spec.
  destruct (detail_raises data); [reflexivity |].
  destruct (json_truthy (detail_field "transcript_aligned" data)).
  - destruct (detail_field "transcript_aligned" data); reflexivity.
  - destruct (json_truthy (detail_field "transcript" data)); [| reflexivity].
    destruct (detail_field "transcript" data); try reflexivity.
    cbv zeta. destruct (CallTranscript.flat_loop _ []) as [[|u us]|]; reflexivity.
Qed.

(** X6. What the endpoint answers, and what it asks of the provider,
    does not depend on how the table's writes go: two tables that answer
    lookups alike give the same response and the same requests, whether
    their upserts and inserts succeed, fail or do something else. *)
Theorem writes_do_not_show {db : Type} (store store' : Store db)
    (json_loads : string -> option json) (json_dumps py_str : json -> string)
    (punctuation_model : punctuation_model_t) (BLAND_API_KEY : option string)
    (bland : bland_api) (supabase : option db) (call_id : string)
    (user_id : option string) :
  (forall d c, @select_single db store d c = @select_single db store' d c) ->
  (@CallTranscript.get_call_transcript db store json_loads json_dumps py_str
     punctuation_model BLAND_API_KEY bland supabase call_id user_id).1.1
  = (@CallTranscript.get_call_transcript db store' json_loads json_dumps py_str
       punctuation_model BLAND_API_KEY bland supabase call_id user_id).1.1
  /\ (@CallTranscript.get_call_transcript db store json_loads json_dumps py_str
        punctuation_model BLAND_API_KEY bland supabase call_id user_id).2
     = (@CallTranscript.get_call_transcript db store' json_loads json_dumps py_str
          punctuation_model BLAND_API_KEY bland supabase call_id user_id).2.
Proof.
  intros Hselect.
  rewrite !endpoint_by_block.
  destruct (negb (truthy_str BLAND_API_KEY)); [split; reflexivity |].
  assert (Hstored : @CallTranscript.stored_transcript db store json_loads
                      supabase call_id user_id
                    = @CallTranscript.stored_transcript db store' json_loads
                        supabase call_id user_id).
  { unfold CallTranscript.stored_transcript.
    destruct supabase as [d|]; [| reflexivity]. now rewrite Hselect. }
  rewrite Hstored.
  destruct (@CallTranscript.stored_transcript db store' json_loads supabase call_id user_id);
    [split; reflexivity |].
  assert (Hregular : (@CallTranscript.regular_transcript db store json_dumps
                        punctuation_model bland supabase call_id user_id).1
                     = (@CallTranscript.regular_transcript db store' json_dumps
                          punctuation_model bland supabase call_id user_id).1).
  { unfold CallTranscript.regular_transcript.
    destruct (get_detail bland call_id) as [resp|]; [| reflexivity].
    destruct (ok resp); cbn [negb]; [| reflexivity].
    destruct (resp_json resp) as [data|]; [| reflexivity].
    pose proof (read_detail_body store store' json_dumps punctuation_model
                  supabase user_id data) as Hbody.
    destruct (@CallTranscript.read_detail db store _ _ _ _ _) as [[body s]|],
             (@CallTranscript.read_detail db store' _ _ _ _ _) as [[body' s']|];
      cbn in Hbody; try discriminate Hbody; [| reflexivity].
    injection Hbody as <-. reflexivity. }
  unfold CallTranscript.corrected_transcript.
  destruct (get_corrected bland call_id) as [cresp|];
    [| cbn [fst snd]; split; [exact Hregular | reflexivity]].
  destruct (ok cresp); [| cbn [fst snd]; split; [exact Hregular | reflexivity]].
  destruct (resp_json cresp) as [cd|]; cbn [mbind option_bind];
    [| cbn [fst snd]; split; [exact Hregular | reflexivity]].
  destruct (py_get cd "aligned") as [aligned|]; cbn [mbind option_bind];
    [| cbn [fst snd]; split; [exact Hregular | reflexivity]].
  destruct (json_truthy aligned);
    [| cbn [fst snd]; split; [exact Hregular | reflexivity]].
  destruct (py_iter aligned) as [segments|]; cbn [mbind option_bind];
    [| cbn [fst snd]; split; [exact Hregular | reflexivity]].
  destruct (CallTranscript.corrected_loop py_str segments EmptyString) as [concat|];
    cbn [mbind option_bind fst snd]; split; reflexivity || exact Hregular.
Qed.

Lemma writes_do_not_show_witness :
  (@CallTranscript.get_call_transcript _ list_store Sample.no_loads Sample.tag_dumps
     Sample.tag_str None (Some "key") Sample.flat_provider (Some Sample.table)
     "c2" (Some "u1")).1.1
  = (@CallTranscript.get_call_transcript _ read_only_store Sample.no_loads
       Sample.tag_dumps Sample.tag_str None (Some "key") Sample.flat_provider
       (Some Sample.table) "c2" (Some "u1")).1.1.
Proof.
  destruct (writes_do_not_show list_store read_only_store Sample.no_loads
              Sample.tag_dumps Sample.tag_str None (Some "key") Sample.flat_provider
              (Some Sample.table) "c2" (Some "u1") (fun d c => eq_refl))
    as [Hsame _].
  exact Hsame.
Defined.

(** ** Transcripts with nothing in them *)

Lemma split_pieces_blank (sep : ascii) (s : string) :
  Py.nonspace s = EmptyString ->
  Forall (fun p => Py.nonspace p = EmptyString) (Py.split sep s).
Proof.
  induction s as [|c s IH]; intros Hs.
  - constructor; [reflexivity | constructor].
  - cbn [Py.nonspace] in Hs. destruct (Py.isspace c) eqn:Hc; [| discriminate Hs].
    cbn [Py.split]. destruct (Ascii.eqb c sep).
    + constructor; [reflexivity | now apply IH].
    + specialize (IH Hs). destruct (Py.split sep s) as [|p ps]; cbn [Py.push_front].
      * constructor; [cbn; now rewrite Hc | constructor].
      * apply Forall_cons in IH as [Hp Hps].
        constructor; [cbn; now rewrite Hc | exact Hps].
Qed.

Lemma flat_loop_blank_lines (lines : list string) (aligned : list utterance) :
  Forall (fun p => Py.nonspace p = EmptyString) lines ->
  CallTranscript.flat_loop lines aligned = Some aligned.
Proof.
  induction lines as [|l lines IH]; intros Hall; [reflexivity |].
  apply Forall_cons in Hall as [Hl Hall].
  cbn [CallTranscript.flat_loop].
  rewrite flat_step_blank by now apply nonspace_empty_strip.
  cbn. now apply IH.
Qed.

Lemma filter_none {A : Type} (f : A -> bool) (l : list A) :
  (forall x, In x l -> f x = false) -> List.filter f l = [].
Proof.
  induction l as [|y l IH]; intros Hall; [reflexivity |].
  cbn [List.filter]. rewrite (Hall y) by now left.
  apply IH. intros x Hx. apply Hall. now right.
Qed.

Lemma flat_loop_clean (lines : list string) (us : list utterance) :
  CallTranscript.flat_loop lines [] = Some us -> two_party us /\ Forall trimmed us.
Proof.
  intros Hflat.
  destruct (flat_loop_total lines [] ltac:(constructor)) as (a1 & Ha1 & Hparty).
  destruct (flat_loop_adds lines [] ltac:(constructor)) as (a2 & Ha2 & _ & Htrim).
  rewrite Hflat in Ha1, Ha2. injection Ha1 as <-. injection Ha2 as <-.
  split; [exact Hparty | exact Htrim].
Qed.

Section EmptyTranscripts.
Context {db : Type} `{Store db}.
Variable json_loads : string -> option json.
Variable json_dumps : json -> string.
Variable py_str : json -> string.
Variable punctuation_model : punctuation_model_t.
Variable BLAND_API_KEY : option string.
Variable bland : bland_api.

Abbreviation endpoint' :=
  (CallTranscript.get_call_transcript json_loads json_dumps py_str punctuation_model
     BLAND_API_KEY bland).

(** X8. A flat transcript that is nothing but whitespace once the
    punctuation step is through resolves to no transcript: with no
    aligned segments in the call detail, the answer is pending for a
    running call and unavailable otherwise, and the table is left as it
    was. *)
Theorem blank_transcript_resolves_nothing (supabase : option db) (call_id : string)
    (user_id : option string) (resp : response json) (data : json)
    (transcript : string) :
  truthy_str BLAND_API_KEY = true ->
  CallTranscript.stored_transcript json_loads supabase call_id user_id = None ->
  CallTranscript.corrected_transcript json_dumps py_str bland
    supabase call_id user_id = None ->
  get_detail bland call_id = Some resp -> ok resp = true -> resp_json resp = Some data ->
  json_truthy (detail_field "transcript_aligned" data) = false ->
  py_get data "transcript" = Some (JStr transcript) ->
  Py.nonspace (restore_punctuation punctuation_model transcript) = EmptyString ->
  endpoint' supabase call_id user_id
  = (Return (if in_progress data then Pending else Unavailable), supabase,
     [BlandGetCorrected call_id; BlandGetDetail call_id]).
Proof.
  intros Hkey Hstored Hcorr Hget Hok Hjson Haligned Htr Hblank.
  rewrite endpoint_by_block, Hkey, Hstored, Hcorr. cbn [negb].
  rewrite (regular_transcript_unresolved json_dumps punctuation_model bland
             supabase call_id user_id resp data Hget Hok Hjson); [reflexivity |].
  destruct data as [| b | n | s | items | fields]; try discriminate Htr.
  injection Htr as Htr.
  assert (Hfield : detail_field "transcript" (JDict fields) = JStr transcript)
    by exact Htr.
  unfold detail_unresolved. rewrite Haligned, Hfield. cbn [negb andb].
  assert (Hloop : CallTranscript.flat_loop
                    (Py.split Py.newline
                       (improve_transcript_readability punctuation_model transcript)) []
                  = Some []).
  { apply flat_loop_blank_lines, split_pieces_blank.
    now rewrite improve_keeps_restored. }
  rewrite Hloop. now destruct (json_truthy (JStr transcript)).
Qed.

(** X9. A non-empty list of aligned segments in the call detail decides
    the answer, and the flat transcript field and the call status are
    not looked at: the answer is a success exactly when every segment is
    a dictionary whose text, if it has one, is a string, and an HTTP 500
    error otherwise.  When every such segment is blank, the answer is a
    success with the empty string and the empty sequence, never
    pending. *)
Theorem blank_segments_still_succeed (supabase : option db) (call_id : string)
    (user_id : option string) (resp : response json) (data : json)
    (segments : list json) :
  truthy_str BLAND_API_KEY = true ->
  CallTranscript.stored_transcript json_loads supabase call_id user_id = None ->
  CallTranscript.corrected_transcript json_dumps py_str bland
    supabase call_id user_id = None ->
  get_detail bland call_id = Some resp -> ok resp = true -> resp_json resp = Some data ->
  py_get data "transcript_aligned" = Some (JList segments) -> segments <> [] ->
  ((exists t us,
       (endpoint' supabase call_id user_id).1.1
       = Return (Success (Some t) (AlignedBuilt us)))
   <-> forallb segment_ok segments = true)
  /\ ((endpoint' supabase call_id user_id).1.1
      = HTTPException 500 (ErrorGettingTranscript PayloadRaised)
      <-> forallb segment_ok segments = false)
  /\ (forallb segment_ok segments = true ->
      (forall seg, In seg segments -> segment_has_text seg = false) ->
      (endpoint' supabase call_id user_id).1.1
      = Return (Success (Some EmptyString) (AlignedBuilt []))).
Proof.
  intros Hkey Hstored Hcorr Hget Hok Hjson Haligned Hne.
  assert (Hres : (endpoint' supabase call_id user_id).1.1
                 = if forallb segment_ok segments
                   then Return (Success
                                  (Some (render (map detail_as_utterance
                                                   (List.filter segment_has_text segments))))
                                  (AlignedBuilt (map detail_as_utterance
                                                   (List.filter segment_has_text segments))))
                   else HTTPException 500 (ErrorGettingTranscript PayloadRaised)).
  { rewrite endpoint_by_block, Hkey, Hstored, Hcorr. cbn [negb fst].
    rewrite (regular_transcript_read json_dumps punctuation_model bland
               supabase call_id user_id resp data Hget Hok Hjson).
    rewrite read_detail_spec.
    destruct data as [| b | n | s | items | fields]; try discriminate Haligned.
    injection Haligned as Haligned.
    assert (Hfield : detail_field "transcript_aligned" (JDict fields) = JList segments)
      by exact Haligned.
    unfold detail_raises. rewrite Hfield.
    destruct segments as [|seg segments]; [contradiction |].
    cbn [json_truthy].
    destruct (forallb segment_ok (seg :: segments)); reflexivity. }
  rewrite Hres. destruct (forallb segment_ok segments).
  - split; [split; [reflexivity | eauto] |].
    split; [split; discriminate |].
    intros _ Hblank. now rewrite (filter_none _ _ Hblank).
  - split; [split; [intros (t & us & Hr); discriminate Hr | discriminate] |].
    split; [split; reflexivity |]. discriminate.
Qed.

(** X10. Every sequence the endpoint builds itself, from aligned
    segments or from flat text, names only the two speakers [Agent] and
    [User] and holds trimmed texts. *)
Theorem built_sequences_are_clean (supabase supabase' : option db) (call_id : string)
    (user_id : option string) (t : option string) (us : list utterance)
    (trace : list effect) :
  endpoint' supabase call_id user_id
  = (Return (Success t (AlignedBuilt us)), supabase', trace) ->
  two_party us /\ Forall trimmed us.
Proof.
  rewrite endpoint_by_block.
  destruct (negb (truthy_str BLAND_API_KEY)); [discriminate |].
  destruct (CallTranscript.stored_transcript json_loads supabase call_id user_id)
    as [body|] eqn:Hstored.
  { intros [= -> _ _].
    apply stored_transcript_inv in Hstored as (d & row & loaded & _ & _ & _ & Hbody).
    discriminate Hbody. }
  destruct (CallTranscript.corrected_transcript json_dumps py_str bland
              supabase call_id user_id) as [[body s]|] eqn:Hcorr.
  { intros [= -> _ _].
    apply corrected_transcript_inv in Hcorr
      as (resp & cd & segments & _ & _ & _ & _ & _ & _ & Hbody).
    cbv zeta in Hbody. destruct Hbody as [Hbody _]. discriminate Hbody. }
  destruct (CallTranscript.regular_transcript json_dumps punctuation_model bland
              supabase call_id user_id) as [r s] eqn:Hreg.
  cbn [fst snd]. intros [= -> -> _].
  apply regular_transcript_inv in Hreg
    as (resp & data & us' & flat & _ & _ & _ & _ & [= <-] & _ & Hshape & _).
  destruct (json_truthy (detail_field "transcript_aligned" data)).
  - destruct Hshape as (segments & _ & _ & -> & _). split.
    + apply Forall_forall. intros u Hu. apply list_elem_of_fmap in Hu as (seg' & -> & _).
      unfold detail_as_utterance. cbn [speaker].
      destruct (py_eq_str _ "ai"); [now left | now right].
    + apply Forall_forall. intros u Hu. apply list_elem_of_fmap in Hu as (seg' & -> & _).
      unfold trimmed, detail_as_utterance. cbn [text]. apply strip_idempotent.
  - destruct Hshape as (transcript & _ & _ & Hflat & _).
    exact (flat_loop_clean _ _ Hflat).
Qed.

End EmptyTranscripts.

Lemma blank_transcript_resolves_nothing_witness :
  CallTranscript.get_call_transcript Sample.no_loads Sample.tag_dumps Sample.tag_str None
    (Some "key") Fixture.blank_provider (Some Sample.table) "c9" (Some "u1")
  = (Return (if in_progress (Sample.detail (JStr "  ") JNull)
             then Pending else Unavailable),
     Some Sample.table, [BlandGetCorrected "c9"; BlandGetDetail "c9"]).
Proof.
  apply (blank_transcript_resolves_nothing Sample.no_loads Sample.tag_dumps
           Sample.tag_str None (Some "key") Fixture.blank_provider (Some Sample.table)
           "c9" (Some "u1")
           {| status_code := 200; resp_text := EmptyString;
              resp_json := Some (Sample.detail (JStr "  ") JNull) |}
           (Sample.detail (JStr "  ") JNull) "  ");
    reflexivity.
Defined.

Lemma blank_segments_still_succeed_witness :
  (CallTranscript.get_call_transcript Sample.no_loads Sample.tag_dumps Sample.tag_str None
     (Some "key") Fixture.blank_segments_provider (None : option (list transcript_row))
     "c1" None).1.1
  = Return (Success (Some EmptyString) (AlignedBuilt [])).
Proof.
  destruct (blank_segments_still_succeed Sample.no_loads Sample.tag_dumps Sample.tag_str
              None (Some "key") Fixture.blank_segments_provider
              (None : option (list transcript_row)) "c1" None
              {| status_code := 200; resp_text := EmptyString;
                 resp_json := Some Fixture.blank_detail |}
              Fixture.blank_detail Fixture.blank_segments
              eq_refl eq_refl eq_refl eq_refl eq_refl eq_refl eq_refl
              ltac:(discriminate)) as (_ & _ & Hblank).
  apply Hblank; [reflexivity |]. intros seg [<- | []]. reflexivity.
Defined.

Lemma built_sequences_are_clean_witness :
  two_party [{| speaker := "Agent"; text := "hi" |}; {| speaker := "User"; text := "yes" |}]
  /\ Forall trimmed
       [{| speaker := "Agent"; text := "hi" |}; {| speaker := "User"; text := "yes" |}].
Proof.
  exact (built_sequences_are_clean Sample.no_loads Sample.tag_dumps Sample.tag_str None
           (Some "key") Sample.aligned_provider None None "c1" None _ _ _
           aligned_field_example).
Defined.

(** ** The ledger *)

Lemma lookup_append_entry (h : gmap string (list pydict)) (phone phone' : string)
    (entry : pydict) :
  entries (append_entry h phone entry) phone'
  = if decide (phone = phone') then entries h phone ++ [entry] else entries h phone'.
Proof.
  unfold entries, append_entry. rewrite lookup_insert.
  destruct (decide (phone = phone')); reflexivity.
Qed.

Lemma success_records_entries (h : gmap string (list pydict)) (phone : string) :
  success_records h phone = Z.of_nat (length (List.filter is_success (entries h phone))).
Proof. reflexivity. Qed.

Lemma success_records_append (h : gmap string (list pydict)) (phone phone' : string)
    (entry : pydict) :
  success_records (append_entry h phone entry) phone'
  = (success_records h phone'
     + if bool_decide (phone = phone') && is_success entry then 1 else 0)%Z.
Proof.
  rewrite !success_records_entries, lookup_append_entry.
  destruct (decide (phone = phone')) as [-> | Hne].
  - rewrite bool_decide_eq_true_2 by reflexivity. cbn [andb].
    rewrite List.filter_app, length_app. cbn [List.filter].
    destruct (is_success entry); cbn [length]; lia.
  - rewrite bool_decide_eq_false_2 by exact Hne. cbn [andb]. lia.
Qed.

Lemma sms_records_append (h : gmap string (list pydict)) (phone phone' : string)
    (entry : pydict) :
  sms_records (append_entry h phone entry) phone'
  = (sms_records h phone'
     + if bool_decide (phone = phone') && is_sms entry then 1 else 0)%Z.
Proof.
  unfold sms_records. rewrite lookup_append_entry.
  destruct (decide (phone = phone')) as [-> | Hne].
  - rewrite bool_decide_eq_true_2 by reflexivity. cbn [andb].
    rewrite List.filter_app, length_app. cbn [List.filter].
    destruct (is_sms entry); cbn [length]; lia.
  - rewrite bool_decide_eq_false_2 by exact Hne. cbn [andb]. lia.
Qed.

(** ** Calls and the ledger *)

Section AdmissionFurther.
Variable json_loads : string -> option json.
Variable str_exception : py_exception -> string.
Variable BLAND_API_KEY GEMINI_API_KEY TEXT_KEY : option string.
Variable supabase : bool.
Variable gemini_post : string -> string -> http gemini_result.
Variable bland_post : string -> string -> http bland_call.
Variable textbelt_post : string -> string -> http textbelt_data.
Variable now : string.

Abbreviation moderate :=
  (moderate_call json_loads str_exception GEMINI_API_KEY gemini_post).
Abbreviation trigger :=
  (trigger_call json_loads str_exception BLAND_API_KEY GEMINI_API_KEY supabase
     gemini_post bland_post now).
Abbreviation admission := (admit_call supabase bland_post now).
Abbreviation place := (place_call supabase bland_post now).
Abbreviation sms := (send_sms str_exception TEXT_KEY textbelt_post now).

Lemma place_ledger (h : gmap string (list pydict)) (req : CallRequest) (n : Z) :
  call_ledger_step h req (place h req n).
Proof.
  unfold call_ledger_step, place_call.
  destruct (bland_post (phone_number req) (topic req)) as [resp|]; [| now left].
  destruct (ok resp); [destruct (resp_json resp) as [data|]; [| now left] |];
    right; eexists; cbn [fst snd]; (split; [reflexivity |]); split; reflexivity.
Qed.

Lemma admit_ledger (h : gmap string (list pydict)) (req : CallRequest) :
  call_ledger_step h req (admission h req).
Proof.
  rewrite admit_call_spec. cbv zeta.
  destruct (_ && _); [now left | apply place_ledger].
Qed.

Lemma trigger_ledger (h : gmap string (list pydict)) (req : CallRequest) :
  call_ledger_step h req (trigger h req).
Proof.
  unfold trigger_call.
  destruct (negb (truthy_str BLAND_API_KEY)); [now left |].
  destruct (negb (truthy_flag (admin req))); [| apply admit_ledger].
  destruct (moderate (topic req) (phone_number req)) as [m sent].
  destruct (subscript m "allowed") as [allowed|]; [| now left].
  destruct (negb (json_truthy allowed)).
  - destruct (subscript m "reason"); now left.
  - pose proof (admit_ledger h req) as Hstep.
    destruct (admission h req) as [[r h'] sent']. exact Hstep.
Qed.

(** X11. A call attempt only ever adds to the ledger: the entries of
    every other number stay as they were, and the number called keeps
    its entries and gains at most one, which is never of type [sms]. *)
Theorem call_ledger_only_grows (h : gmap string (list pydict)) (req : CallRequest)
    (phone : string) :
  exists added,
    entries (trigger h req).1.2 phone = entries h phone ++ added
    /\ (length added <= 1)%nat
    /\ (phone <> phone_number req -> added = [])
    /\ Forall (fun e => is_sms e = false) added.
Proof.
  destruct (trigger_ledger h req) as [[-> _] | (entry & -> & Hsms & _)].
  - exists []. rewrite app_nil_r. repeat split; auto.
  - rewrite lookup_append_entry.
    destruct (decide (phone_number req = phone)) as [<- | Hne].
    + exists [entry]. split; [reflexivity |]. split; [cbn; lia |].
      split; [intros Hne; now contradiction Hne | now constructor].
    + exists []. rewrite app_nil_r. repeat split; auto.
Qed.

(** X12. The count of successful records that the call limit looks at
    goes up by exactly one, for the number called, when the call is
    placed, and stays as it was in every other case: a refused request,
    a moderation refusal, a provider failure or a missing key use up
    nothing. *)
Theorem quota_used_iff_triggered (h : gmap string (list pydict)) (req : CallRequest)
    (phone : string) :
  success_records (trigger h req).1.2 phone
  = (success_records h phone
     + if bool_decide (phone_number req = phone) && is_triggered (trigger h req).1.1
       then 1 else 0)%Z.
Proof.
  destruct (trigger_ledger h req) as [[-> ->] | (entry & -> & _ & <-)].
  - rewrite andb_false_r. lia.
  - apply success_records_append.
Qed.

Lemma trigger_when_allowed (h : gmap string (list pydict)) (req : CallRequest)
    (allowed : json) :
  truthy_str BLAND_API_KEY = true -> truthy_flag (admin req) = false ->
  subscript (moderate (topic req) (phone_number req)).1 "allowed" = Some allowed ->
  json_truthy allowed = true ->
  (trigger h req).1.1 = (admission h req).1.1 /\ (trigger h req).1.2 = (admission h req).1.2.
Proof.
  intros Hkey Hadmin Hsub Hallowed. unfold trigger_call. rewrite Hkey, Hadmin.
  cbn [negb].
  destruct (moderate (topic req) (phone_number req)) as [m sent]. cbn [fst] in Hsub.
  rewrite Hsub, Hallowed. cbn [negb].
  now destruct (admission h req) as [[r' h1] s1].
Qed.

(** X13. The number a placed call reports as left is the number that
    was left before it.  When a guest or user request is answered with
    [calls_left = n], then [1 <= n], and the same request sent again,
    with moderation and provider answering as before, is answered with
    [calls_left = n - 1] if [n] exceeds 1 and is turned away at the limit
    if [n] is 1. *)
Theorem calls_left_counts_down (h h' : gmap string (list pydict)) (req : CallRequest)
    (call_id : option string) (n : Z) (trace : list effect) :
  trigger h req = (CallReturn (CallTriggered call_id (CallsLeft n)), h', trace) ->
  (1 <= n)%Z
  /\ n = ((if truthy_str (user_id req) then MAX_CALLS_PER_USER else MAX_CALLS_PER_GUEST)
          - success_records h (phone_number req))%Z
  /\ (trigger h' req).1.1
     = if Z.leb n 1 then CallReturn CallLimitReached
       else CallReturn (CallTriggered call_id (CallsLeft (n - 1))).
Proof.
  intros Hrun.
  assert (Hcount : success_records (trigger h req).1.2 (phone_number req)
                   = (success_records h (phone_number req)
                      + if bool_decide (phone_number req = phone_number req)
                           && is_triggered (trigger h req).1.1
                        then 1 else 0)%Z).
  { destruct (trigger_ledger h req) as [[-> ->] | (entry & -> & _ & <-)];
      [rewrite andb_false_r; lia | apply success_records_append]. }
  rewrite Hrun in Hcount. cbn [fst snd is_triggered] in Hcount.
  rewrite bool_decide_eq_true_2 in Hcount by reflexivity. cbn [andb] in Hcount.
  assert (Hkey : truthy_str BLAND_API_KEY = true).
  { revert Hrun. unfold trigger_call.
    destruct (truthy_str BLAND_API_KEY); [reflexivity | discriminate]. }
  assert (Hadmit : (admission h req).1.1 = CallReturn (CallTriggered call_id (CallsLeft n))
                   /\ truthy_flag (admin req) = false
                   /\ exists allowed,
                        subscript (moderate (topic req) (phone_number req)).1 "allowed"
                        = Some allowed /\ json_truthy allowed = true).
  { revert Hrun. unfold trigger_call. rewrite Hkey. cbn [negb].
    destruct (truthy_flag (admin req)) eqn:Hadmin; cbn [negb].
    - intros Hrun. exfalso. revert Hrun. rewrite admit_call_spec. cbv zeta.
      rewrite Hadmin, andb_false_r. unfold place_call.
      destruct (bland_post _ _) as [resp|]; [| discriminate].
      destruct (ok resp); [destruct (resp_json resp) |]; try discriminate.
      rewrite Hadmin. discriminate.
    - destruct (moderate (topic req) (phone_number req)) as [m sent].
      destruct (subscript m "allowed") as [allowed|] eqn:Hsub; [| discriminate].
      destruct (json_truthy allowed) eqn:Hallowed; cbn [negb];
        [| destruct (subscript m "reason"); discriminate].
      destruct (admission h req) as [[r h1] s1]. intros [= -> _ _].
      split; [reflexivity |]. split; [reflexivity |]. now exists allowed. }
  destruct Hadmit as (Hadmit & Hadmin & allowed & Hsub & Hallowed).
  assert (Hplace : exists data resp,
             bland_post (phone_number req) (topic req) = Some resp /\ ok resp = true
             /\ resp_json resp = Some data /\ bc_call_id data = call_id
             /\ n = ((if truthy_str (user_id req)
                      then MAX_CALLS_PER_USER else MAX_CALLS_PER_GUEST)
                     - success_records h (phone_number req))%Z
             /\ (1 <= n)%Z).
  { revert Hadmit. rewrite admit_call_spec. cbv zeta. rewrite Hadmin. cbn [negb].
    rewrite andb_true_r.
    destruct (Z.leb_spec
                ((if truthy_str (user_id req)
                  then MAX_CALLS_PER_USER else MAX_CALLS_PER_GUEST)
                 - success_records h (phone_number req)) 0) as [Hle | Hgt];
      [discriminate |].
    unfold place_call.
    destruct (bland_post _ _) as [resp|]; [| discriminate].
    destruct (ok resp) eqn:Hok; [destruct (resp_json resp) as [data|] eqn:Hjson |];
      try discriminate.
    rewrite Hadmin. cbn [fst]. intros [= <- <-].
    exists data, resp. repeat split; auto. lia. }
  destruct Hplace as (data & resp & Hpost & Hok & Hjson & Hid & Hn & Hpos).
  split; [exact Hpos |]. split; [exact Hn |].
  destruct (trigger_when_allowed h' req allowed Hkey Hadmin Hsub Hallowed) as [-> _].
  rewrite admit_call_spec. cbv zeta. rewrite Hadmin. cbn [negb]. rewrite andb_true_r.
  replace (success_records h' (phone_number req))
    with (success_records h (phone_number req) + 1)%Z by (rewrite Hcount; reflexivity).
  replace ((if truthy_str (user_id req) then MAX_CALLS_PER_USER else MAX_CALLS_PER_GUEST)
           - (success_records h (phone_number req) + 1))%Z with (n - 1)%Z by lia.
  replace (Z.leb (n - 1) 0) with (Z.leb n 1).
  2: { destruct (Z.leb_spec n 1), (Z.leb_spec (n - 1) 0); try reflexivity; lia. }
  destruct (Z.leb n 1); [reflexivity |].
  rewrite (place_call_accepted supabase bland_post now h' req _ resp data Hpost Hok Hjson).
  now rewrite Hadmin, Hid.
Qed.

(** X27. Every HTTP error of the call endpoint is a 500, also when the
    provider refused the call with a status of its own; apart from the
    missing key, an error arises only after the call request went to
    the provider. *)
Theorem call_errors_are_500 (h : gmap string (list pydict)) (req : CallRequest)
    (status : Z) (detail : call_error) :
  (trigger h req).1.1 = CallHTTPException status detail ->
  status = 500%Z
  /\ (detail = BlandKeyNotSet
      \/ (BlandPostCall (phone_number req) (topic req) ∈ (trigger h req).2)).
Proof.
  assert (Hplace : forall n,
             (place h req n).1.1 = CallHTTPException status detail -> status = 500%Z).
  { intros n. unfold place_call.
    destruct (bland_post (phone_number req) (topic req)) as [resp|];
      [destruct (ok resp); [destruct (resp_json resp) |] |];
      cbn [fst]; intros [= <- _]; reflexivity. }
  assert (Hadmit : (admission h req).1.1 = CallHTTPException status detail ->
                   status = 500%Z
                   /\ (BlandPostCall (phone_number req) (topic req) ∈ (admission h req).2)).
  { rewrite admit_call_spec. cbv zeta.
    destruct (_ && _); [discriminate |].
    intros Hr. split; [exact (Hplace _ Hr) |].
    apply (place_call_trace supabase bland_post now h req). }
  unfold trigger_call.
  destruct (negb (truthy_str BLAND_API_KEY)); [intros [= <- <-]; auto |].
  destruct (negb (truthy_flag (admin req))).
  2: { intros Hr. destruct (Hadmit Hr) as [Hs Ht]. auto. }
  destruct (moderate (topic req) (phone_number req)) as [m sent].
  destruct (subscript m "allowed") as [allowed|]; [| discriminate].
  destruct (negb (json_truthy allowed)); [destruct (subscript m "reason"); discriminate |].
  destruct (admission h req) as [[r h'] sent']. cbn [fst snd] in *.
  intros Hr. destruct (Hadmit Hr) as [Hs Ht]. split; [exact Hs |]. right.
  apply elem_of_app. right. exact Ht.
Qed.

(** X26. Moderation fails open, all the way to the call: when the
    moderation service gives nothing a verdict can be read from, a
    request that is not an admin's, for a number that is no emergency
    number, is handled as if it had been allowed.  The service was asked
    once, the limit is then the only gate, and below it the call the
    provider accepts is placed. *)
Theorem moderation_outage_lets_calls_through (h : gmap string (list pydict))
    (req : CallRequest) (resp : response bland_call) (data : bland_call) :
  truthy_str BLAND_API_KEY = true ->
  truthy_str GEMINI_API_KEY = true ->
  truthy_flag (admin req) = false ->
  (Py.truthy (phone_number req)
   && existsb (fun num => Py.endswith num (phone_number req)) emergency_numbers) = false ->
  moderation_unreadable json_loads (gemini_post (topic req) (phone_number req)) ->
  bland_post (phone_number req) (topic req) = Some resp -> ok resp = true ->
  resp_json resp = Some data ->
  let calls_left :=
    ((if truthy_str (user_id req) then MAX_CALLS_PER_USER else MAX_CALLS_PER_GUEST)
     - success_records h (phone_number req))%Z in
  (GeminiPost (topic req) (phone_number req) ∈ (trigger h req).2)
  /\ (trigger h req).1.1
     = if Z.leb calls_left 0 then CallReturn CallLimitReached
       else CallReturn (CallTriggered (bc_call_id data) (CallsLeft calls_left)).
Proof.
  intros Hkey Hgem Hadmin Hnum Hfail Hpost Hok Hjson calls_left.
  pose proof (moderation_fails_open json_loads str_exception GEMINI_API_KEY gemini_post
                (topic req) (phone_number req) Hnum Hgem Hfail) as Hallowed.
  destruct (trigger_when_allowed h req (JBool true) Hkey Hadmin Hallowed eq_refl)
    as [Hres _].
  split.
  - assert (Hsent : (moderate (topic req) (phone_number req)).2
                    = [GeminiPost (topic req) (phone_number req)]).
    { unfold moderate_call. rewrite Hnum, Hgem. reflexivity. }
    unfold trigger_call. rewrite Hkey, Hadmin. cbn [negb].
    destruct (moderate (topic req) (phone_number req)) as [m sent].
    cbn [fst snd] in Hallowed, Hsent. subst sent. rewrite Hallowed. cbn [json_truthy negb].
    destruct (admission h req) as [[r h1] s1]. cbn [snd].
    apply elem_of_app. left. apply elem_of_cons. right. apply list_elem_of_here.
  - rewrite Hres, admit_call_spec. cbv zeta. rewrite Hadmin. cbn [negb].
    rewrite andb_true_r. fold calls_left.
    destruct (Z.leb calls_left 0); [reflexivity |].
    rewrite (place_call_accepted supabase bland_post now h req calls_left resp data
               Hpost Hok Hjson).
    now rewrite Hadmin.
Qed.

End AdmissionFurther.

Lemma calls_left_counts_down_witness :
  (1 <= 1)%Z
  /\ 1%Z = ((if truthy_str (user_id Sample.guest_call)
             then MAX_CALLS_PER_USER else MAX_CALLS_PER_GUEST)
            - success_records Fixture.nine_calls (phone_number Sample.guest_call))%Z
  /\ (trigger_call Sample.no_loads Sample.str_exception (Some "key") None false
        Sample.gemini_silent Sample.bland_accepts Sample.now
        (trigger_call Sample.no_loads Sample.str_exception (Some "key") None false
           Sample.gemini_silent Sample.bland_accepts Sample.now
           Fixture.nine_calls Sample.guest_call).1.2
        Sample.guest_call).1.1
     = if Z.leb 1 1 then CallReturn CallLimitReached
       else CallReturn (CallTriggered (Some "call-1") (CallsLeft (1 - 1))).
Proof.
  apply (calls_left_counts_down Sample.no_loads Sample.str_exception (Some "key") None
           false Sample.gemini_silent Sample.bland_accepts Sample.now
           Fixture.nine_calls
           (trigger_call Sample.no_loads Sample.str_exception (Some "key") None false
              Sample.gemini_silent Sample.bland_accepts Sample.now
              Fixture.nine_calls Sample.guest_call).1.2
           Sample.guest_call (Some "call-1") 1
           (trigger_call Sample.no_loads Sample.str_exception (Some "key") None false
              Sample.gemini_silent Sample.bland_accepts Sample.now
              Fixture.nine_calls Sample.guest_call).2).
  vm_compute. reflexivity.
Defined.

(** ** Moderation, further *)

Section ModerationFurther.
Variable json_loads : string -> option json.
Variable str_exception : py_exception -> string.
Variable BLAND_API_KEY GEMINI_API_KEY : option string.
Variable supabase : bool.
Variable gemini_post : string -> string -> http gemini_result.
Variable bland_post : string -> string -> http bland_call.
Variable now : string.

Abbreviation moderate_ :=
  (moderate_call json_loads str_exception GEMINI_API_KEY gemini_post).
Abbreviation trigger_ :=
  (trigger_call json_loads str_exception BLAND_API_KEY GEMINI_API_KEY supabase
     gemini_post bland_post now).

Lemma endswith_nonempty (num phone : string) :
  In num emergency_numbers -> Py.endswith num phone = true -> Py.truthy phone = true.
Proof.
  intros Hin Hends. destruct phone as [|c phone]; [| reflexivity].
  cbn in Hends. cbn in Hin.
  destruct Hin as [<- | [<- | [<- | [<- | []]]]]; discriminate Hends.
Qed.

(** X14. A number that ends in 911, 999, 112 or 000 is refused by
    moderation without any request to the moderation service, whatever
    the topic and whether or not a moderation key is set.  A call to it
    by anyone but an admin is turned away with that reason when the
    provider key is set, and ends in HTTP 500 before moderation is
    asked when it is not; either way nothing is recorded and no call is
    placed. *)
Theorem emergency_numbers_are_refused (h : gmap string (list pydict))
    (req : CallRequest) (num : string) :
  In num emergency_numbers -> Py.endswith num (phone_number req) = true ->
  moderate_ (topic req) (phone_number req)
  = (verdict false "Emergency services number detected", [])
  /\ (truthy_flag (admin req) = false ->
      trigger_ h req
      = if truthy_str BLAND_API_KEY
        then (CallReturn
                (RejectedByModeration (JStr "Emergency services number detected")),
              h, [Moderate (topic req) (phone_number req)])
        else (CallHTTPException 500 BlandKeyNotSet, h, [])).
Proof.
  intros Hin Hends.
  assert (Hmod : moderate_ (topic req) (phone_number req)
                 = (verdict false "Emergency services number detected", [])).
  { unfold moderate_call. rewrite (endswith_nonempty num _ Hin Hends). cbn [andb].
    replace (existsb _ emergency_numbers) with true; [reflexivity |].
    symmetry. apply existsb_exists. now exists num. }
  split; [exact Hmod |].
  intros Hadmin. unfold trigger_call.
  destruct (truthy_str BLAND_API_KEY); cbn [negb]; [| reflexivity].
  rewrite Hadmin, Hmod. reflexivity.
Qed.

(** X15. Moderation sends at most one request: none for an emergency
    number or when no moderation key is set, in which case every other
    number is allowed, and exactly one otherwise. *)
Theorem moderation_request_discipline (topic phone : string) :
  ((moderate_ topic phone).2 = [] \/ (moderate_ topic phone).2 = [GeminiPost topic phone])
  /\ ((moderate_ topic phone).2 = []
      <-> (Py.truthy phone
           && existsb (fun num => Py.endswith num phone) emergency_numbers) = true
          \/ truthy_str GEMINI_API_KEY = false)
  /\ ((Py.truthy phone
       && existsb (fun num => Py.endswith num phone) emergency_numbers) = false ->
      truthy_str GEMINI_API_KEY = false ->
      moderate_ topic phone = (verdict true EmptyString, [])).
Proof.
  unfold moderate_call.
  destruct (Py.truthy phone && existsb _ emergency_numbers).
  { cbn. split; [auto |]. split; [split; auto | discriminate]. }
  destruct (truthy_str GEMINI_API_KEY); cbn [negb snd].
  - split; [auto |]. split; [| discriminate].
    split; [discriminate | intros [Hf | Hf]; discriminate Hf].
  - split; [auto |]. split; [split; auto | reflexivity].
Qed.

End ModerationFurther.

Lemma emergency_numbers_are_refused_witness :
  trigger_call Sample.no_loads Sample.str_exception (Some "key") (Some "gemini-key") false
    Sample.gemini_reason_only Sample.bland_accepts Sample.now
    Sample.emergency_history Sample.guest_emergency_call
  = (CallReturn (RejectedByModeration (JStr "Emergency services number detected")),
     Sample.emergency_history,
     [Moderate (topic Sample.guest_emergency_call)
        (phone_number Sample.guest_emergency_call)]).
Proof.
  destruct (emergency_numbers_are_refused Sample.no_loads Sample.str_exception
              (Some "key") (Some "gemini-key") false Sample.gemini_reason_only
              Sample.bland_accepts Sample.now Sample.emergency_history
              Sample.guest_emergency_call "911" ltac:(left; reflexivity) eq_refl)
    as [_ Hcall].
  exact (Hcall eq_refl).
Defined.

(** ** The two ceilings *)

Section Ceilings.
Variable json_loads : string -> option json.
Variable str_exception : py_exception -> string.
Variable BLAND_API_KEY GEMINI_API_KEY : option string.
Variable supabase : bool.
Variable gemini_post : string -> string -> http gemini_result.
Variable bland_post : string -> string -> http bland_call.
Variable now : string.

Abbreviation moderate__ :=
  (moderate_call json_loads str_exception GEMINI_API_KEY gemini_post).
Abbreviation trigger__ :=
  (trigger_call json_loads str_exception BLAND_API_KEY GEMINI_API_KEY supabase
     gemini_post bland_post now).


End Ceilings.


(** ** Text messages and the ledger *)

Lemma entries_initialised (h : gmap string (list pydict)) (phone phone' : string) :
  entries (match h !! phone with
           | Some _ => h
           | None => <[phone := []]> h
           end) phone'
  = entries h phone'.
Proof.
  destruct (h !! phone) eqn:Hp; [reflexivity |].
  unfold entries. rewrite lookup_insert.
  destruct (decide (phone = phone')) as [<- | Hne]; [| reflexivity].
  now rewrite Hp.
Qed.

Lemma successful_sms_entries (h : gmap string (list pydict)) (phone : string) :
  successful_sms h phone
  = Z.of_nat (length (List.filter (fun e => is_success e && is_sms e) (entries h phone))).
Proof. reflexivity. Qed.

Lemma successful_sms_append (h : gmap string (list pydict)) (phone : string)
    (entry : pydict) :
  successful_sms (append_entry h phone entry) phone
  = (successful_sms h phone + if is_success entry && is_sms entry then 1 else 0)%Z.
Proof.
  rewrite !successful_sms_entries, lookup_append_entry.
  rewrite decide_True by reflexivity.
  rewrite List.filter_app, length_app. cbn [List.filter].
  destruct (is_success entry && is_sms entry); cbn [length]; lia.
Qed.

Section SmsFurther.
Variable str_exception : py_exception -> string.
Variable TEXT_KEY : option string.
Variable textbelt_post : string -> string -> http textbelt_data.
Variable now : string.

Abbreviation sms_ := (send_sms str_exception TEXT_KEY textbelt_post now).

Lemma deliver_never_limit (h : gmap string (list pydict)) (phone message : string)
    (m : Z) :
  (deliver_sms str_exception textbelt_post now h phone message).1
  <> SmsReturn (SmsLimitReached m).
Proof.
  unfold deliver_sms, sms_exception.
  destruct (textbelt_post phone message) as [resp|]; [| discriminate].
  destruct (resp_json resp) as [data|]; [| discriminate].
  destruct (truthy_flag (tb_success data)); discriminate.
Qed.

(** [send_sms], with the count read off the ledger as it came in. *)
Lemma send_sms_spec (h : gmap string (list pydict)) (req : SMSRequest) :
  let attempt h0 :=
    ((deliver_sms str_exception textbelt_post now h0
        (sms_phone_number req) (sms_message req)).1,
     (deliver_sms str_exception textbelt_post now h0
        (sms_phone_number req) (sms_message req)).2,
     [TextbeltPost (sms_phone_number req) (sms_message req)]) in
  let max_sms := (if truthy_str (sms_user_id req) then 10 else 3)%Z in
  sms_ h req
  = if negb (truthy_str TEXT_KEY) then (SmsHTTPException 500 TextKeyNotSet, h, [])
    else if truthy_flag (sms_admin req) then attempt h
    else if Z.leb max_sms (sms_records h (sms_phone_number req))
    then (SmsReturn (SmsLimitReached max_sms), h, [])
    else attempt (match h !! sms_phone_number req with
                  | Some _ => h
                  | None => <[sms_phone_number req := []]> h
                  end).
Proof.
  cbv zeta. unfold send_sms.
  destruct (negb (truthy_str TEXT_KEY)); [reflexivity |].
  destruct (truthy_flag (sms_admin req)); cbn [negb].
  { now destruct (deliver_sms _ _ _ _ _ _). }
  pose proof (entries_initialised h (sms_phone_number req) (sms_phone_number req))
    as Hinit.
  unfold entries in Hinit at 1. rewrite Hinit.
  change (Z.of_nat (length (List.filter (dict_field_is "type" "sms")
                              (entries h (sms_phone_number req)))))
    with (sms_records h (sms_phone_number req)).
  destruct (Z.leb_spec (if truthy_str (sms_user_id req) then 10 else 3)%Z
              (sms_records h (sms_phone_number req))) as [Hle | Hgt].
  - destruct (h !! sms_phone_number req) eqn:Hp; [reflexivity |].
    exfalso. unfold sms_records, entries in Hle. rewrite Hp in Hle. cbn in Hle.
    destruct (truthy_str (sms_user_id req)); lia.
  - now destruct (deliver_sms _ _ _ _ _ _).
Qed.

(** X17. A text message is turned away at the limit exactly when the
    gateway key is set, the request is not an admin's, and the number
    already has as many records of type [sms] (delivered or not) as the
    ceiling allows: 10 with a user id, 3 without.  Then nothing is sent
    and the ledger stays as it was. *)
Theorem sms_limit (h : gmap string (list pydict)) (req : SMSRequest) (m : Z) :
  (sms_ h req).1.1 = SmsReturn (SmsLimitReached m)
  <-> truthy_str TEXT_KEY = true /\ truthy_flag (sms_admin req) = false
      /\ m = (if truthy_str (sms_user_id req) then 10 else 3)%Z
      /\ (m <= sms_records h (sms_phone_number req))%Z
      /\ sms_ h req = (SmsReturn (SmsLimitReached m), h, []).
Proof.
  rewrite send_sms_spec. cbv zeta.
  destruct (truthy_str TEXT_KEY); cbn [negb].
  2: { split; [discriminate | intros [Hk _]; discriminate Hk]. }
  destruct (truthy_flag (sms_admin req)).
  { cbn [fst]. split; [| intros (_ & Ha & _); discriminate Ha].
    intros Hr. now apply deliver_never_limit in Hr. }
  destruct (Z.leb_spec (if truthy_str (sms_user_id req) then 10 else 3)%Z
              (sms_records h (sms_phone_number req))) as [Hle | Hgt]; cbn [fst].
  - split.
    + intros [= <-]. repeat split; auto.
    + intros (_ & _ & -> & _ & _). reflexivity.
  - split; [| intros (_ & _ & -> & Hle & _); lia].
    intros Hr. now apply deliver_never_limit in Hr.
Qed.

(** An attempt that goes to the gateway is recorded: once when the
    message is delivered or the request breaks, twice when the gateway
    refuses. *)
Lemma deliver_records (h : gmap string (list pydict)) (phone message : string) :
  let out := deliver_sms str_exception textbelt_post now h phone message in
  ((exists quota text_id, out.1 = SmsReturn (SmsSent quota text_id))
   /\ sms_records out.2 phone = (sms_records h phone + 1)%Z
   /\ successful_sms out.2 phone = (successful_sms h phone + 1)%Z)
  \/ ((exists info, out.1 = SmsHTTPException 500 (ErrorSendingSms (HTTPError 400 info)))
      /\ sms_records out.2 phone = (sms_records h phone + 2)%Z
      /\ successful_sms out.2 phone = successful_sms h phone)
  \/ ((out.1 = SmsHTTPException 500 (ErrorSendingSms RequestException)
       \/ out.1 = SmsHTTPException 500 (ErrorSendingSms JSONDecodeError))
      /\ sms_records out.2 phone = (sms_records h phone + 1)%Z
      /\ successful_sms out.2 phone = successful_sms h phone).
Proof.
  cbv zeta. unfold deliver_sms, sms_exception.
  destruct (textbelt_post phone message) as [resp|].
  2: { right. right. cbn [fst snd]. split; [now left |].
       rewrite sms_records_append, successful_sms_append.
       rewrite bool_decide_eq_true_2 by reflexivity. cbn. split; lia. }
  destruct (resp_json resp) as [data|].
  2: { right. right. cbn [fst snd]. split; [now right |].
       rewrite sms_records_append, successful_sms_append.
       rewrite bool_decide_eq_true_2 by reflexivity. cbn. split; lia. }
  destruct (truthy_flag (tb_success data)).
  - left. cbn [fst snd]. split; [eauto |].
    rewrite sms_records_append, successful_sms_append.
    rewrite bool_decide_eq_true_2 by reflexivity. cbn. split; lia.
  - right. left. cbn [fst snd]. split; [eauto |].
    rewrite !sms_records_append, !successful_sms_append.
    rewrite bool_decide_eq_true_2 by reflexivity. cbn. split; lia.
Qed.

(** X18. A text message that reaches the gateway is always recorded
    under type [sms]: once, as a success, when it is delivered; twice
    (an error and an exception record) when the gateway refuses it; once
    when the request breaks or the answer does not decode.  Every
    failure is answered with HTTP 500: the 400 raised for a refusal is
    caught and never reaches the requester. *)
Theorem sms_attempts_are_recorded (h : gmap string (list pydict)) (req : SMSRequest) :
  truthy_str TEXT_KEY = true ->
  truthy_flag (sms_admin req) = true
  \/ (sms_records h (sms_phone_number req)
      < (if truthy_str (sms_user_id req) then 10 else 3))%Z ->
  (sms_ h req).2 = [TextbeltPost (sms_phone_number req) (sms_message req)]
  /\ (((exists quota text_id, (sms_ h req).1.1 = SmsReturn (SmsSent quota text_id))
       /\ sms_records (sms_ h req).1.2 (sms_phone_number req)
          = (sms_records h (sms_phone_number req) + 1)%Z
       /\ successful_sms (sms_ h req).1.2 (sms_phone_number req)
          = (successful_sms h (sms_phone_number req) + 1)%Z)
      \/ ((exists info,
             (sms_ h req).1.1
             = SmsHTTPException 500 (ErrorSendingSms (HTTPError 400 info)))
          /\ sms_records (sms_ h req).1.2 (sms_phone_number req)
             = (sms_records h (sms_phone_number req) + 2)%Z
          /\ successful_sms (sms_ h req).1.2 (sms_phone_number req)
             = successful_sms h (sms_phone_number req))
      \/ (((sms_ h req).1.1 = SmsHTTPException 500 (ErrorSendingSms RequestException)
           \/ (sms_ h req).1.1 = SmsHTTPException 500 (ErrorSendingSms JSONDecodeError))
          /\ sms_records (sms_ h req).1.2 (sms_phone_number req)
             = (sms_records h (sms_phone_number req) + 1)%Z
          /\ successful_sms (sms_ h req).1.2 (sms_phone_number req)
             = successful_sms h (sms_phone_number req))).
Proof.
  intros Hkey Hadmitted. rewrite send_sms_spec. cbv zeta. rewrite Hkey. cbn [negb].
  assert (Hcounts : forall phone,
             sms_records (match h !! sms_phone_number req with
                          | Some _ => h
                          | None => <[sms_phone_number req := []]> h
                          end) phone = sms_records h phone
             /\ successful_sms (match h !! sms_phone_number req with
                                | Some _ => h
                                | None => <[sms_phone_number req := []]> h
                                end) phone = successful_sms h phone).
  { intros phone. unfold sms_records. rewrite !successful_sms_entries.
    now rewrite !entries_initialised. }
  destruct (truthy_flag (sms_admin req)) eqn:Hadmin.
  - cbn [fst snd]. split; [reflexivity |].
    exact (deliver_records h (sms_phone_number req) (sms_message req)).
  - destruct Hadmitted as [Hfalse | Hunder]; [discriminate Hfalse |].
    replace (Z.leb _ (sms_records h (sms_phone_number req))) with false
      by (symmetry; apply Z.leb_gt; exact Hunder).
    cbn [fst snd]. split; [reflexivity |].
    pose proof (deliver_records
                  (match h !! sms_phone_number req with
                   | Some _ => h
                   | None => <[sms_phone_number req := []]> h
                   end) (sms_phone_number req) (sms_message req)) as Hrec.
    cbv zeta in Hrec.
    destruct (Hcounts (sms_phone_number req)) as [Hc1 Hc2].
    rewrite Hc1, Hc2 in Hrec. exact Hrec.
Qed.

End SmsFurther.

Lemma sms_attempts_are_recorded_witness :
  (send_sms Sample.str_exception (Some "text-key") Sample.textbelt_refuses Sample.now
     ∅ Sample.guest_sms).2
  = [TextbeltPost (sms_phone_number Sample.guest_sms) (sms_message Sample.guest_sms)].
Proof.
  destruct (sms_attempts_are_recorded Sample.str_exception (Some "text-key")
              Sample.textbelt_refuses Sample.now ∅ Sample.guest_sms eq_refl
              ltac:(right; vm_compute; reflexivity)) as [Htrace _].
  exact Htrace.
Defined.

(** ** Call details and recordings *)

(** X19. The call-details endpoint hands on the provider's body
    untouched when the key is set, the provider answers with an ok
    status and the body decodes, and only then; every failure is an HTTP
    500, so the provider's own status code never becomes the status of
    the answer. *)
Theorem call_details_outcomes (BLAND_API_KEY : option string)
    (bland_get : string -> http json) (call_id : string) :
  (forall body,
      get_call_details BLAND_API_KEY bland_get call_id = DetailsReturn body
      <-> truthy_str BLAND_API_KEY = true
          /\ exists resp, bland_get call_id = Some resp /\ ok resp = true
                          /\ resp_json resp = Some body)
  /\ (forall status detail,
        get_call_details BLAND_API_KEY bland_get call_id
        = DetailsHTTPException status detail -> status = 500%Z)
  /\ (forall resp,
        truthy_str BLAND_API_KEY = true -> bland_get call_id = Some resp ->
        ok resp = false ->
        get_call_details BLAND_API_KEY bland_get call_id
        = DetailsHTTPException 500
            (ProviderFailure (HTTPError (status_code resp) (JStr (resp_text resp))))).
Proof.
  unfold get_call_details.
  destruct (truthy_str BLAND_API_KEY); cbn [negb].
  2: { split; [| split].
       - intros body. split; [discriminate | intros [Hk _]; discriminate Hk].
       - intros status detail [= <- _]. reflexivity.
       - intros resp Hk. discriminate Hk. }
  destruct (bland_get call_id) as [resp|].
  2: { split; [| split].
       - intros body. split; [discriminate | intros (_ & r & Hr & _); discriminate Hr].
       - intros status detail [= <- _]. reflexivity.
       - intros resp _ Hr. discriminate Hr. }
  destruct (ok resp) eqn:Hok; [destruct (resp_json resp) as [body0|] eqn:Hjson |].
  - split; [| split].
    + intros body. split.
      * intros [= <-]. split; [reflexivity |]. now exists resp.
      * intros (_ & r & [= <-] & _ & Hj). congruence.
    + discriminate.
    + intros r _ [= <-] Hno. congruence.
  - split; [| split].
    + intros body. split; [discriminate |].
      intros (_ & r & [= <-] & _ & Hj). congruence.
    + intros status detail [= <- _]. reflexivity.
    + intros r _ [= <-] Hno. congruence.
  - split; [| split].
    + intros body. split; [discriminate |].
      intros (_ & r & [= <-] & Hyes & _). congruence.
    + intros status detail [= <- _]. reflexivity.
    + intros r _ [= <-] _. reflexivity.
Qed.

(** X20. The recording endpoint answers a recording URL exactly when
    the key is set, the provider answers with an ok status and a body
    that decodes, reports status [success] and carries that URL, which
    is not empty; it hands the URL on as it is.  Every failure is an
    HTTP 500. *)
Theorem call_recording_outcomes (BLAND_API_KEY : option string)
    (bland_get : string -> http recording_data) (call_id : string) :
  (forall url,
      get_call_recording BLAND_API_KEY bland_get call_id
      = RecordingReturn (RecordingUrl url)
      <-> truthy_str BLAND_API_KEY = true
          /\ url <> EmptyString
          /\ exists resp data,
               bland_get call_id = Some resp /\ ok resp = true
               /\ resp_json resp = Some data
               /\ rec_status data = Some "success" /\ rec_url data = Some url)
  /\ (forall status detail,
        get_call_recording BLAND_API_KEY bland_get call_id
        = RecordingHTTPException status detail -> status = 500%Z).
Proof.
  unfold get_call_recording.
  destruct (truthy_str BLAND_API_KEY); cbn [negb].
  2: { split.
       - intros url. split; [discriminate | intros [Hk _]; discriminate Hk].
       - intros status detail [= <- _]. reflexivity. }
  destruct (bland_get call_id) as [resp|].
  2: { split.
       - intros url. split; [discriminate |].
         intros (_ & _ & r & d & Hr & _). discriminate Hr.
       - intros status detail [= <- _]. reflexivity. }
  destruct (ok resp) eqn:Hok; cbn [negb].
  2: { split.
       - intros url. split; [discriminate |].
         intros (_ & _ & r & d & [= <-] & Hyes & _). congruence.
       - intros status detail [= <- _]. reflexivity. }
  destruct (resp_json resp) as [data|] eqn:Hjson.
  2: { split.
       - intros url. split; [discriminate |].
         intros (_ & _ & r & d & [= <-] & _ & Hj & _). congruence.
       - intros status detail [= <- _]. reflexivity. }
  split.
  - intros url. split.
    + destruct (rec_status data) as [s|] eqn:Hs; [| discriminate].
      destruct (String.eqb_spec s "success") as [-> | Hne]; [| discriminate].
      destruct (rec_url data) as [[|c u]|] eqn:Hu; try discriminate.
      cbn. intros [= <-]. split; [reflexivity |]. split; [discriminate |].
      exists resp, data. repeat split; auto.
    + intros (_ & Hne & r & d & [= <-] & _ & Hj & Hs & Hu).
      rewrite Hjson in Hj. injection Hj as <-. rewrite Hs, Hu. cbn.
      destruct url as [|c u]; [contradiction | reflexivity].
  - intros status detail.
    destruct (_ && _); discriminate.
Qed.

(** ** Who sees which history *)

(** X21. A request without a user id sees no history, whatever the
    store and the ledger hold.  A request with a user id for which the
    store gives no rows (no client, a failing query or an empty answer)
    sees every entry recorded against the number, whoever caused it: the
    answer is the same for every such user. *)
Theorem history_visibility (supabase : option history_query)
    (h : gmap string (list pydict)) (phone : string) :
  (forall user_id, truthy_str user_id = false ->
     get_history supabase h phone user_id = [])
  /\ (forall user,
        Py.truthy user = true ->
        supabase = None
        \/ (exists query, supabase = Some query
                          /\ (query user phone = None \/ query user phone = Some [])) ->
        get_history supabase h phone (Some user) = map JDict (entries h phone)).
Proof.
  split.
  - intros user_id Huser. unfold get_history. rewrite Huser.
    now destruct supabase.
  - intros user Huser Hstore.
    assert (Hmem : (match h !! phone with
                    | None => []
                    | Some calls => map JDict calls
                    end) = map JDict (entries h phone)).
    { unfold entries. now destruct (h !! phone). }
    unfold get_history. cbn [truthy_str default from_option id]. rewrite Huser. cbn [negb].
    destruct Hstore as [-> | (query & -> & [Hq | Hq])].
    + exact Hmem.
    + cbn [default from_option id] in *. rewrite Hq. exact Hmem.
    + cbn [default from_option id] in *. rewrite Hq. exact Hmem.
Qed.

Lemma history_visibility_witness :
  get_history None Sample.busy_history "5551234" None = []
  /\ get_history None Sample.busy_history "5551234" (Some "someone")
     = map JDict (entries Sample.busy_history "5551234").
Proof.
  destruct (history_visibility None Sample.busy_history "5551234") as [Hanon Huser].
  split; [exact (Hanon None eq_refl) |].
  exact (Huser "someone" eq_refl (or_introl eq_refl)).
Defined.

(** ** The ledger names no user *)

Lemma no_user_ids_append (h : gmap string (list pydict)) (phone : string)
    (entry : pydict) :
  no_user_ids h -> dict_get "user_id" entry = None ->
  no_user_ids (append_entry h phone entry).
Proof.
  intros Hh He phone'. rewrite lookup_append_entry.
  destruct (decide (phone = phone')) as [<- | Hne]; [| apply Hh].
  apply Forall_app. split; [apply Hh | now constructor].
Qed.

Lemma no_user_ids_initialised (h : gmap string (list pydict)) (phone : string) :
  no_user_ids h ->
  no_user_ids (match h !! phone with
               | Some _ => h
               | None => <[phone := []]> h
               end).
Proof. intros Hh phone'. rewrite entries_initialised. apply Hh. Qed.

Section LedgerNamesNoUser.
Variable json_loads : string -> option json.
Variable str_exception : py_exception -> string.
Variable BLAND_API_KEY GEMINI_API_KEY TEXT_KEY : option string.
Variable supabase : bool.
Variable gemini_post : string -> string -> http gemini_result.
Variable bland_post : string -> string -> http bland_call.
Variable textbelt_post : string -> string -> http textbelt_data.
Variable now : string.

Lemma place_call_names_no_user (h : gmap string (list pydict)) (req : CallRequest)
    (n : Z) :
  no_user_ids h -> no_user_ids (place_call supabase bland_post now h req n).1.2.
Proof.
  intros Hh. unfold place_call.
  destruct (bland_post (phone_number req) (topic req)) as [resp|]; [| exact Hh].
  destruct (ok resp); [destruct (resp_json resp) as [data|]; [| exact Hh] |];
    cbn [fst snd]; apply no_user_ids_append; auto.
Qed.

Lemma deliver_sms_names_no_user (h : gmap string (list pydict))
    (phone message : string) :
  no_user_ids h ->
  no_user_ids (deliver_sms str_exception textbelt_post now h phone message).2.
Proof.
  intros Hh. unfold deliver_sms, sms_exception.
  destruct (textbelt_post phone message) as [resp|];
    [| cbn [snd]; apply no_user_ids_append; auto].
  destruct (resp_json resp) as [data|];
    [| cbn [snd]; apply no_user_ids_append; auto].
  destruct (truthy_flag (tb_success data)); cbn [snd];
    repeat (apply no_user_ids_append; auto).
Qed.

(** X22. No endpoint ever writes a [user_id] into the ledger: if no
    entry carries one, none does after a call request or a text message
    request, whether or not the request names a user. *)
Theorem ledger_names_no_user (h : gmap string (list pydict)) (req : CallRequest)
    (sms_req : SMSRequest) :
  no_user_ids h ->
  no_user_ids
    (trigger_call json_loads str_exception BLAND_API_KEY GEMINI_API_KEY supabase
       gemini_post bland_post now h req).1.2
  /\ no_user_ids (send_sms str_exception TEXT_KEY textbelt_post now h sms_req).1.2.
Proof.
  intros Hh. split.
  - assert (Hadmit : no_user_ids (admit_call supabase bland_post now h req).1.2).
    { rewrite admit_call_spec. cbv zeta.
      destruct (_ && _); [exact Hh | now apply place_call_names_no_user]. }
    unfold trigger_call.
    destruct (negb (truthy_str BLAND_API_KEY)); [exact Hh |].
    destruct (negb (truthy_flag (admin req))); [| exact Hadmit].
    destruct (moderate_call _ _ _ _ _ _) as [m sent].
    destruct (subscript m "allowed") as [allowed|]; [| exact Hh].
    destruct (negb (json_truthy allowed)).
    + destruct (subscript m "reason"); exact Hh.
    + destruct (admit_call supabase bland_post now h req) as [[r h'] sent'].
      exact Hadmit.
  - rewrite send_sms_spec. cbv zeta.
    destruct (negb (truthy_str TEXT_KEY)); [exact Hh |].
    destruct (truthy_flag (sms_admin sms_req));
      [cbn [fst snd]; now apply deliver_sms_names_no_user |].
    destruct (Z.leb _ _); [exact Hh |].
    cbn [fst snd]. apply deliver_sms_names_no_user. now apply no_user_ids_initialised.
Qed.

End LedgerNamesNoUser.

Lemma empty_ledger_names_no_user : no_user_ids ∅.
Proof. intros phone. unfold entries. rewrite lookup_empty. constructor. Qed.

Lemma ledger_names_no_user_witness :
  no_user_ids
    (trigger_call Sample.no_loads Sample.str_exception (Some "key") None true
       Sample.gemini_silent Sample.bland_accepts Sample.now ∅ Fixture.user_call).1.2
  /\ no_user_ids
       (send_sms Sample.str_exception (Some "text-key") Sample.textbelt_delivers
          Sample.now ∅ Sample.guest_sms).1.2.
Proof.
  exact (ledger_names_no_user Sample.no_loads Sample.str_exception (Some "key") None
           (Some "text-key") true Sample.gemini_silent Sample.bland_accepts
           Sample.textbelt_delivers Sample.now ∅ Fixture.user_call Sample.guest_sms
           empty_ledger_names_no_user).
Defined.

(** ** A user's history from the ledger *)

Lemma filter_made_by_none (user : string) (calls : list pydict) :
  Forall (fun e => dict_get "user_id" e = None) calls ->
  List.filter (made_by user) calls = [].
Proof.
  induction calls as [|e calls IH]; intros Hall; [reflexivity |].
  apply Forall_cons in Hall as [He Hall].
  cbn [List.filter]. unfold made_by at 1, dict_field_is. rewrite He. now apply IH.
Qed.

(** X23. The ledger cannot give a user a history: when no entry
    carries a [user_id] (and no endpoint writes one), the fallback of
    the user-history endpoint finds nothing, so the endpoint answers the
    empty list whenever the store is absent or its query fails; an
    empty user id gets the empty list at once. *)
Theorem user_history_from_ledger_is_empty
    (sort_by_call_time : list pydict -> option (list pydict))
    (supabase : option (string -> option (list json)))
    (h : gmap string (list pydict)) (items : list (string * list pydict))
    (user_id : option string) :
  sort_by_call_time [] = Some [] ->
  no_user_ids h ->
  Forall (fun item => item.2 = entries h item.1) items ->
  supabase = None
  \/ (exists query, supabase = Some query
                    /\ query (default EmptyString user_id) = None) ->
  get_user_history sort_by_call_time supabase items user_id = Some [].
Proof.
  intros Hsort Hh Hitems Hstore. unfold get_user_history.
  destruct (negb (truthy_str user_id)); [reflexivity |].
  assert (Hall : forall acc,
             fold_left (fun acc item =>
                          acc ++ List.filter (made_by (default EmptyString user_id)) item.2)
               items acc = acc).
  { clear Hstore. induction items as [|item items IH]; intros acc; [reflexivity |].
    apply Forall_cons in Hitems as [Hitem Hitems]. cbn [fold_left].
    rewrite filter_made_by_none, app_nil_r; [now apply IH |].
    rewrite Hitem. apply Hh. }
  rewrite Hall, Hsort. cbn.
  destruct Hstore as [-> | (query & -> & ->)]; reflexivity.
Qed.

Lemma user_history_from_ledger_is_empty_witness :
  get_user_history SortExample.sort_by_call_time None
    [("5551234", entries Sample.busy_history "5551234")] (Some "u1")
  = Some [].
Proof.
  apply (user_history_from_ledger_is_empty SortExample.sort_by_call_time None
           Sample.busy_history [("5551234", entries Sample.busy_history "5551234")]
           (Some "u1")).
  - reflexivity.
  - intros phone. unfold entries, Sample.busy_history.
    destruct (decide (phone = "5551234")) as [-> | Hne].
    + rewrite lookup_singleton_eq. cbn. repeat constructor.
    + rewrite lookup_singleton_ne by congruence. constructor.
  - constructor; [reflexivity | constructor].
  - left. reflexivity.
Defined.

(** ** Name verification *)

Lemma lower_char_space (c : ascii) : Py.isspace (PyMore.lower_char c) = Py.isspace c.
Proof. destruct c as [[] [] [] [] [] [] [] []]; reflexivity. Qed.

Lemma lower_char_alpha (c : ascii) : PyMore.isalpha (PyMore.lower_char c) = PyMore.isalpha c.
Proof. destruct c as [[] [] [] [] [] [] [] []]; reflexivity. Qed.

Lemma lower_char_idempotent (c : ascii) :
  PyMore.lower_char (PyMore.lower_char c) = PyMore.lower_char c.
Proof. destruct c as [[] [] [] [] [] [] [] []]; reflexivity. Qed.

Lemma lower_idempotent (s : string) : PyMore.lower (PyMore.lower s) = PyMore.lower s.
Proof.
  induction s as [|c s IH]; [reflexivity |].
  cbn [PyMore.lower]. now rewrite lower_char_idempotent, IH.
Qed.

Lemma lower_length (s : string) : String.length (PyMore.lower s) = String.length s.
Proof. induction s as [|c s IH]; [reflexivity |]. cbn. now rewrite IH. Qed.

Lemma lower_any_alpha (s : string) :
  PyMore.any_char PyMore.isalpha (PyMore.lower s) = PyMore.any_char PyMore.isalpha s.
Proof.
  induction s as [|c s IH]; [reflexivity |].
  cbn [PyMore.lower PyMore.any_char]. now rewrite lower_char_alpha, IH.
Qed.

Lemma lower_truthy (s : string) : Py.truthy (PyMore.lower s) = Py.truthy s.
Proof. now destruct s. Qed.

Lemma lstrip_lower (s : string) : Py.lstrip (PyMore.lower s) = PyMore.lower (Py.lstrip s).
Proof.
  induction s as [|c s IH]; [reflexivity |].
  cbn [PyMore.lower Py.lstrip]. rewrite lower_char_space.
  destruct (Py.isspace c); [exact IH | reflexivity].
Qed.

Lemma rstrip_lower (s : string) : Py.rstrip (PyMore.lower s) = PyMore.lower (Py.rstrip s).
Proof.
  induction s as [|c s IH]; [reflexivity |].
  cbn [PyMore.lower]. rewrite !rstrip_cons, IH, lower_char_space.
  destruct (Py.rstrip s) as [|d r]; cbn [PyMore.lower].
  - now destruct (Py.isspace c).
  - reflexivity.
Qed.

(** Trimming and lowering can be done in either order. *)
Lemma strip_lower (s : string) : Py.strip (PyMore.lower s) = PyMore.lower (Py.strip s).
Proof. unfold Py.strip. now rewrite lstrip_lower, rstrip_lower. Qed.

Lemma name_shape_lower (name : string) : name_shape (PyMore.lower name) = name_shape name.
Proof.
  unfold name_shape. now rewrite lower_truthy, lower_length, lower_any_alpha.
Qed.

Lemma verify_name_normal_form (raw : string) :
  verify_name raw = verify_name (PyMore.lower (Py.strip raw)).
Proof.
  unfold verify_name.
  rewrite strip_lower, strip_idempotent, name_shape_lower, lower_idempotent.
  reflexivity.
Qed.

(** X24. The verdict on a name depends only on the name trimmed and in
    lower case: two names that differ in case or in the whitespace
    around them get the same verdict and the same reason. *)
Theorem verify_name_ignores_case_and_padding (a b : string) :
  PyMore.lower (Py.strip a) = PyMore.lower (Py.strip b) ->
  verify_name a = verify_name b.
Proof.
  intros Hsame. rewrite (verify_name_normal_form a), (verify_name_normal_form b).
  now rewrite Hsame.
Qed.

Lemma verify_name_ignores_case_and_padding_witness :
  verify_name "  McGREGOR " = verify_name "mcgregor".
Proof.
  apply (verify_name_ignores_case_and_padding "  McGREGOR " "mcgregor").
  reflexivity.
Defined.

Lemma name_lists_reasons (name_lower : string) :
  isValidName (name_lists name_lower) = true -> name_lists name_lower = accepted.
Proof.
  unfold name_lists.
  destruct (PyMore.contains "dennis" name_lower); [reflexivity |].
  destruct (existsb _ common_names); [reflexivity |].
  destruct (existsb _ profanity); [discriminate |].
  destruct (existsb _ keyboard_sequences); [discriminate |].
  destruct (String.eqb name_lower "adsfdsfsdf"); [discriminate | reflexivity].
Qed.

(** X25. A name is accepted only if, once trimmed, it is 2 to 50
    characters long and holds at least one letter; every accepted name
    gets the reason [Name accepted]. *)
Theorem accepted_names_have_shape (raw : string) :
  isValidName (verify_name raw) = true ->
  (2 <= String.length (Py.strip raw) <= 50)%nat
  /\ PyMore.any_char PyMore.isalpha (Py.strip raw) = true
  /\ verify_name raw = accepted.
Proof.
  unfold verify_name, name_shape.
  destruct (Py.truthy (Py.strip raw)); cbn [negb]; [| discriminate].
  destruct (Nat.ltb_spec (String.length (Py.strip raw)) 2) as [Hshort | Hlong];
    [discriminate |].
  destruct (Nat.ltb_spec 50 (String.length (Py.strip raw))) as [Htoo | Hfits];
    [discriminate |].
  destruct (PyMore.any_char PyMore.isalpha (Py.strip raw)); cbn [negb];
    [| discriminate].
  intros Hvalid. split; [lia |]. split; [reflexivity |].
  now apply name_lists_reasons.
Qed.

Lemma accepted_names_have_shape_witness :
  (2 <= String.length (Py.strip " Ada Lovelace ") <= 50)%nat
  /\ PyMore.any_char PyMore.isalpha (Py.strip " Ada Lovelace ") = true
  /\ verify_name " Ada Lovelace " = accepted.
Proof.
  apply (accepted_names_have_shape " Ada Lovelace "). reflexivity.
Defined.

Lemma call_errors_are_500_witness :
  500%Z = 500%Z
  /\ (ErrorCallingBland (HTTPError 500 (JStr "insufficient balance")) = BlandKeyNotSet
      \/ (BlandPostCall (phone_number Sample.guest_call) (topic Sample.guest_call)
          ∈ (trigger_call Sample.no_loads Sample.str_exception (Some "key") None false
               Sample.gemini_silent Fixture.bland_refuses Sample.now
               ∅ Sample.guest_call).2)).
Proof.
  apply (call_errors_are_500 Sample.no_loads Sample.str_exception (Some "key") None false
           Sample.gemini_silent Fixture.bland_refuses Sample.now ∅ Sample.guest_call).
  reflexivity.
Defined.

Example verify_name_examples :
  verify_name "John" = accepted
  /\ verify_name " jo " = accepted
  /\ verify_name "x" = {| isValidName := false; reason := "Name is too short" |}
  /\ verify_name "   " = {| isValidName := false; reason := "Name cannot be empty" |}
  /\ verify_name "12345"
     = {| isValidName := false; reason := "Name must contain at least one letter" |}
  /\ verify_name "Cass"
     = {| isValidName := false; reason := "Please enter an appropriate name" |}
  /\ verify_name "Cassandra" = accepted
  /\ verify_name "Qwerty Uiop"
     = {| isValidName := false; reason := "Please enter a real name" |}.
Proof. repeat split. Qed.

Lemma moderation_outage_lets_calls_through_witness :
  (GeminiPost (topic Sample.guest_call) (phone_number Sample.guest_call)
   ∈ (trigger_call Sample.no_loads Sample.str_exception (Some "key") (Some "gemini-key")
        false Fixture.gemini_down Sample.bland_accepts Sample.now
        Fixture.nine_calls Sample.guest_call).2)
  /\ (trigger_call Sample.no_loads Sample.str_exception (Some "key") (Some "gemini-key")
        false Fixture.gemini_down Sample.bland_accepts Sample.now
        Fixture.nine_calls Sample.guest_call).1.1
     = CallReturn (CallTriggered (Some "call-1") (CallsLeft 1)).
Proof.
  apply (moderation_outage_lets_calls_through Sample.no_loads Sample.str_exception
           (Some "key") (Some "gemini-key") false Fixture.gemini_down
           Sample.bland_accepts Sample.now Fixture.nine_calls Sample.guest_call
           {| status_code := 200; resp_text := EmptyString;
              resp_json := Some {| bc_call_id := Some "call-1" |} |}
           {| bc_call_id := Some "call-1" |});
    try reflexivity.
  right. eexists. split; [reflexivity |]. left. cbn. discriminate.
Defined.
